(** * CSV importers of metabase-mongo-docker: a shallow embedding

    The repository holds two scripts, [scripts/import_clockodo_data.py]
    (time sheets) and [scripts/import_deals_csv.py] (CRM deals).  Each one
    reads CSV rows, turns a row into a document and inserts it into a
    MongoDB collection.

    Layout of this development:
    - [Py]: the parts of the Python runtime the scripts call
      ([str.strip], [str.replace], [float], [datetime.strptime]);
    - [Mongo]: documents and the collection operations the scripts use;
    - [Csv]: the rows [csv.DictReader] yields;
    - [Clockodo]: [import_clockodo_data.py];
    - [Deals]: [import_deals_csv.py];
    - the vocabulary of the properties, then the properties of the two
      importers, each with the lemmas it rests on.

    Text is modelled as [string], i.e. as the bytes of the UTF-8 file; only
    ASCII white space and ASCII digits are recognised by the runtime model.
    A Python [float] is represented by the exact rational its decimal
    literal denotes; rounding to binary64 is not modelled. *)

From Stdlib Require Import ZArith QArith Bool List Ascii String Lia.
From Stdlib Require Import DecimalString.
From stdpp Require Import base option gmap strings.

Local Open Scope list_scope.

(* ===================================================================== *)
(** * The Python runtime *)
(* ===================================================================== *)

Module Py.

(** ** Exceptions and results *)

Inductive exn :=
| ValueError
| TypeError
| AttributeError
| KeyError (key : string)
| DuplicateKeyError
| ConnectionError.

Inductive result (A : Type) :=
| Ok (a : A)
| Raise (e : exn).
Arguments Ok {A} a.
Arguments Raise {A} e.

(** What a script writes to standard output: a line of text, or a line
    that interpolates an exception ([print(f"...: {e}")]). *)
Inductive line :=
| Print (s : string)
| PrintExn (prefix : string) (e : exn).

(** Computations that may print and may raise; what was printed before an
    exception stays printed. *)
Definition M (A : Type) : Type := (result A * list line)%type.

Definition ret {A} (a : A) : M A := (Ok a, []).
Definition throw {A} (e : exn) : M A := (Raise e, []).
Definition print (s : string) : M unit := (Ok tt, [Print s]).
Definition lift {A} (r : result A) : M A := (r, []).

Definition bind {A B} (k : A -> M B) (m : M A) : M B :=
  match m with
  | (Ok a, out) => let '(r, out') := k a in (r, (out ++ out'))
  | (Raise e, out) => (Raise e, out)
  end.

(** The same for computations that only raise. *)
Definition and_then {A B} (k : A -> result B) (r : result A) : result B :=
  match r with
  | Ok a => k a
  | Raise e => Raise e
  end.

Declare Scope M_scope.
Delimit Scope M_scope with M.
Bind Scope M_scope with M.
Notation "x ← y ; z" := (bind (fun x => z) y) (only parsing) : M_scope.
Notation "m ≫= f" := (bind f m) (only parsing) : M_scope.

Declare Scope result_scope.
Delimit Scope result_scope with R.
Notation "m ≫= f" := (and_then f m) (only parsing) : result_scope.

(** ** Characters *)

Definition code (c : ascii) : N := N_of_ascii c.

Definition in_range (lo hi c : ascii) : bool :=
  ((code lo <=? code c) && (code c <=? code hi))%N.

Definition is_digit (c : ascii) : bool := in_range "0" "9" c.

(** ASCII part of [str.isspace]: TAB..CR, FS..US and the space. *)
Definition is_space (c : ascii) : bool :=
  (((9 <=? code c) && (code c <=? 13)) || ((28 <=? code c) && (code c <=? 32)))%N.

(** The double quote, character 34. *)
Definition dquote : ascii := "034"%char.

Definition is_quote (c : ascii) : bool := Ascii.eqb c dquote.

Definition digit_val (c : ascii) : Z := Z.of_N (code c) - 48.

(** ASCII [str.lower] of one character. *)
Definition lower_char (c : ascii) : ascii :=
  if in_range "A" "Z" c then ascii_of_N (code c + 32) else c.

(** ** Strings *)

Fixpoint forall_chars (p : ascii -> bool) (s : string) : bool :=
  match s with
  | EmptyString => true
  | String c r => p c && forall_chars p r
  end.

Fixpoint exists_char (p : ascii -> bool) (s : string) : bool :=
  match s with
  | EmptyString => false
  | String c r => p c || exists_char p r
  end.

Fixpoint map_chars (f : ascii -> ascii) (s : string) : string :=
  match s with
  | EmptyString => EmptyString
  | String c r => String (f c) (map_chars f r)
  end.

Fixpoint lstrip (p : ascii -> bool) (s : string) : string :=
  match s with
  | EmptyString => EmptyString
  | String c r => if p c then lstrip p r else s
  end.

Fixpoint rstrip (p : ascii -> bool) (s : string) : string :=
  match s with
  | EmptyString => EmptyString
  | String c r =>
      match rstrip p r with
      | EmptyString => if p c then EmptyString else String c EmptyString
      | r' => String c r'
      end
  end.

(** [s.strip(chars)]: every leading and every trailing character of the
    set goes. *)
Definition strip_by (p : ascii -> bool) (s : string) : string :=
  rstrip p (lstrip p s).

(** [s.strip()] *)
Definition strip (s : string) : string := strip_by is_space s.

(** [s.strip(q)] where [q] is the double quote. *)
Definition strip_quotes (s : string) : string := strip_by is_quote s.

(** [s.replace(a, b)] for one-character [a] and [b]. *)
Definition replace (a b : ascii) (s : string) : string :=
  map_chars (fun c => if Ascii.eqb c a then b else c) s.

(** [c in s] for a one-character [c]. *)
Definition contains (c : ascii) (s : string) : bool :=
  exists_char (Ascii.eqb c) s.

Definition lower (s : string) : string := map_chars lower_char s.

(** Longest prefix of characters satisfying [p], and the rest. *)
Fixpoint span (p : ascii -> bool) (s : string) : string * string :=
  match s with
  | EmptyString => (EmptyString, EmptyString)
  | String c r =>
      if p c then let '(a, b) := span p r in (String c a, b)
      else (EmptyString, s)
  end.

(** Value of a run of decimal digits, most significant first. *)
Fixpoint digits_val_from (acc : Z) (s : string) : Z :=
  match s with
  | EmptyString => acc
  | String c r => digits_val_from (10 * acc + digit_val c) r
  end.

Definition digits_val (s : string) : Z := digits_val_from 0 s.

(** [str(n)] for a count. *)
Definition str_of_nat (n : nat) : string :=
  NilEmpty.string_of_uint (Nat.to_uint n).

(** ** [float(s)] *)

Inductive pyfloat :=
| Finite (q : Q)
| Inf (negative : bool)
| NaN.

(** PEP 515: an underscore may only stand between two digits.  The scan
    removes them or rejects the text. *)
Fixpoint drop_underscores_from (prev : ascii) (s : string) : option string :=
  match s with
  | EmptyString => if Ascii.eqb prev "_" then None else Some EmptyString
  | String c r =>
      if Ascii.eqb c "_" then
        if is_digit prev then drop_underscores_from c r else None
      else
        if Ascii.eqb prev "_" && negb (is_digit c) then None
        else option_map (String c) (drop_underscores_from c r)
  end.

Definition drop_underscores (s : string) : option string :=
  drop_underscores_from "000" s.

Definition take_sign (s : string) : bool * string :=
  match s with
  | String "-" r => (true, r)
  | String "+" r => (false, r)
  | _ => (false, s)
  end.

(** [inf], [infinity] and [nan], in any letter case. *)
Definition inf_or_nan (negative : bool) (s : string) : option pyfloat :=
  let l := lower s in
  if String.eqb l "inf" || String.eqb l "infinity" then Some (Inf negative)
  else if String.eqb l "nan" then Some NaN
  else None.

(** The exponent part: nothing, or [e]/[E], an optional sign and at least
    one digit, up to the end of the text. *)
Definition exponent (s : string) : option Z :=
  match s with
  | EmptyString => Some 0%Z
  | String c r =>
      if Ascii.eqb (lower_char c) "e" then
        let '(neg, r1) := take_sign r in
        let '(ds, r2) := span is_digit r1 in
        match ds, r2 with
        | String _ _, EmptyString =>
            Some (if neg then (- digits_val ds)%Z else digits_val ds)
        | _, _ => None
        end
      else None
  end.

(** The rational [m * 10^e], in lowest terms. *)
Definition scale10 (m e : Z) : Q :=
  if (0 <=? e)%Z then inject_Z (m * 10 ^ e)
  else Qred (Qmake m (Z.to_pos (10 ^ (- e)))).

Definition decimal (s : string) : option pyfloat :=
  let '(neg, s1) := take_sign s in
  let '(ip, r1) := span is_digit s1 in
  let '(fp, r2) :=
    match r1 with
    | String "." r => span is_digit r
    | _ => (EmptyString, r1)
    end in
  match ip +:+ fp with
  | EmptyString => None
  | ds =>
      match exponent r2 with
      | Some e =>
          let m := digits_val ds in
          Some (Finite (scale10 (if neg then - m else m)
                                (e - Z.of_nat (String.length fp))))
      | None => None
      end
  end.

(** [float(s)] of a [str]; [None] stands for [ValueError]. *)
Definition float_of_str (s : string) : option pyfloat :=
  match drop_underscores s with
  | None => None
  | Some s1 =>
      let s2 := strip s1 in
      let '(neg, s3) := take_sign s2 in
      match inf_or_nan neg s3 with
      | Some v => Some v
      | None => decimal s2
      end
  end.

Definition float (s : string) : result pyfloat :=
  match float_of_str s with
  | Some v => Ok v
  | None => Raise ValueError
  end.

(** ** [datetime] *)

Record datetime := mk_datetime {
  year : Z; month : Z; day : Z; hour : Z; minute : Z; second : Z
}.

Definition is_leap (y : Z) : bool :=
  ((y mod 4 =? 0) && (negb (y mod 100 =? 0) || (y mod 400 =? 0)))%Z.

Definition days_in_month (y m : Z) : Z :=
  if (m =? 2)%Z then (if is_leap y then 29 else 28)%Z
  else if ((m =? 4) || (m =? 6) || (m =? 9) || (m =? 11))%Z then 30%Z
  else 31%Z.

Definition between (lo hi x : Z) : bool := ((lo <=? x) && (x <=? hi))%Z.

(** The range checks of the [datetime(...)] constructor. *)
Definition valid_datetime (y m d H Mi S : Z) : bool :=
  between 1 9999 y && between 1 12 m && between 1 (days_in_month y m) d
  && between 0 23 H && between 0 59 Mi && between 0 59 S.

Definition datetime_new (y m d H Mi S : Z) : result datetime :=
  if valid_datetime y m d H Mi S then Ok (mk_datetime y m d H Mi S)
  else Raise ValueError.

(** ** [datetime.strptime]

    [_strptime] turns the format into a regular expression with one named
    group per directive, matches it at the start of the text, rejects text
    that is left over, converts the groups with [int] and builds the
    [datetime].  The regular expressions below are the ones of
    [_strptime.TimeRE]; the matcher returns every way to match in the
    order a backtracking engine tries them, so the first one is what
    [re.match] finds. *)

Inductive regex :=
| Chr (c : ascii)               (* a literal character *)
| Cls (lo hi : ascii)           (* [lo-hi] *)
| Spc1                          (* \s+ *)
| Cat (r1 r2 : regex)
| Alt (r1 r2 : regex)
| Grp (name : ascii) (r : regex) (* (?P<name>r) *).

Definition Dig : regex := Cls "0" "9".

(** A way to match: the text consumed, the groups bound, the text left. *)
Definition found : Type := (string * list (ascii * string) * string)%type.

Fixpoint spaces1 (s : string) : list (string * string) :=
  match s with
  | EmptyString => []
  | String c r =>
      if is_space c
      then List.map (fun '(m, rest) => (String c m, rest)) (spaces1 r)
           ++ [(String c EmptyString, r)]
      else []
  end.

Fixpoint rmatch (r : regex) (s : string) : list found :=
  match r with
  | Chr c =>
      match s with
      | String a rest =>
          if Ascii.eqb a c then [(String a EmptyString, [], rest)] else []
      | EmptyString => []
      end
  | Cls lo hi =>
      match s with
      | String a rest =>
          if in_range lo hi a then [(String a EmptyString, [], rest)] else []
      | EmptyString => []
      end
  | Spc1 => List.map (fun '(m, rest) => (m, [], rest)) (spaces1 s)
  | Cat r1 r2 =>
      List.flat_map
        (fun '(m1, g1, s1) =>
           List.map (fun '(m2, g2, s2) => (m1 +:+ m2, g1 ++ g2, s2))
                    (rmatch r2 s1))
        (rmatch r1 s)
  | Alt r1 r2 => rmatch r1 s ++ rmatch r2 s
  | Grp n r1 =>
      List.map (fun '(m, g, rest) => (m, (n, m) :: g, rest)) (rmatch r1 s)
  end.

(** The directives the two scripts use, as in [TimeRE.__init__]. *)
Definition directive (c : ascii) : option regex :=
  if Ascii.eqb c "Y" then
    Some (Grp "Y" (Cat Dig (Cat Dig (Cat Dig Dig))))
  else if Ascii.eqb c "m" then
    Some (Grp "m" (Alt (Cat (Chr "1") (Cls "0" "2"))
                  (Alt (Cat (Chr "0") (Cls "1" "9")) (Cls "1" "9"))))
  else if Ascii.eqb c "d" then
    Some (Grp "d" (Alt (Cat (Chr "3") (Cls "0" "1"))
                  (Alt (Cat (Cls "1" "2") Dig)
                  (Alt (Cat (Chr "0") (Cls "1" "9"))
                  (Alt (Cls "1" "9") (Cat (Chr " ") (Cls "1" "9")))))))
  else if Ascii.eqb c "H" then
    Some (Grp "H" (Alt (Cat (Chr "2") (Cls "0" "3"))
                  (Alt (Cat (Cls "0" "1") Dig) Dig)))
  else if Ascii.eqb c "M" then
    Some (Grp "M" (Alt (Cat (Cls "0" "5") Dig) Dig))
  else if Ascii.eqb c "S" then
    Some (Grp "S" (Alt (Cat (Chr "6") (Cls "0" "1"))
                  (Alt (Cat (Cls "0" "5") Dig) Dig)))
  else None.

(** [TimeRE.pattern]: a run of white space becomes [\s+], [%x] becomes the
    expression of directive [x], any other character stands for itself.
    The result is the list of the pieces, to be matched in sequence. *)
Fixpoint pattern (in_space : bool) (fmt : string) : option (list regex) :=
  match fmt with
  | EmptyString => Some []
  | String c r =>
      if is_space c then
        if in_space then pattern true r
        else option_map (cons Spc1) (pattern true r)
      else if Ascii.eqb c "%" then
        match r with
        | String x r' =>
            match directive x, pattern false r' with
            | Some re, Some rest => Some (re :: rest)
            | _, _ => None
            end
        | EmptyString => None
        end
      else option_map (cons (Chr c)) (pattern false r)
  end.

(** Match the pieces one after the other. *)
Fixpoint rmatch_seq (rs : list regex) (s : string) : list found :=
  match rs with
  | [] => [(EmptyString, [], s)]
  | r :: rs' =>
      List.flat_map
        (fun '(m1, g1, s1) =>
           List.map (fun '(m2, g2, s2) => (m1 +:+ m2, g1 ++ g2, s2))
                    (rmatch_seq rs' s1))
        (rmatch r s)
  end.

Fixpoint group (n : ascii) (g : list (ascii * string)) : option string :=
  match g with
  | [] => None
  | (k, v) :: g' => if Ascii.eqb k n then Some v else group n g'
  end.

(** [int(text)] of a matched group: white space around the digits is
    dropped (the day may be matched with a leading space). *)
Definition int (s : string) : Z := digits_val (strip s).

Definition group_int (n : ascii) (default : Z) (g : list (ascii * string)) : Z :=
  match group n g with
  | Some v => int v
  | None => default
  end.

(** [datetime.strptime(s, fmt)]. *)
Definition strptime (s fmt : string) : result datetime :=
  match pattern false fmt with
  | None => Raise ValueError
  | Some rs =>
      match rmatch_seq rs s with
      | (_, g, EmptyString) :: _ =>
          datetime_new (group_int "Y" 1900 g) (group_int "m" 1 g)
                       (group_int "d" 1 g) (group_int "H" 0 g)
                       (group_int "M" 0 g) (group_int "S" 0 g)
      | _ => Raise ValueError
      end
  end.

End Py.

(* ===================================================================== *)
(** * The document store *)
(* ===================================================================== *)

(** The scripts talk to MongoDB through [pymongo].  A collection is modelled
    by the documents it holds (in insertion order), the indexes registered
    on it, and a script of transport faults: every call of the client takes
    the next flag of [faults] and fails with a connection error when it is
    [true]; an exhausted script means no further fault. *)

Module Mongo.
Import Py.

Inductive value :=
| VNone
| VStr (s : string)
| VFloat (f : pyfloat)
| VDate (d : datetime).

Definition of_str (v : option string) : value :=
  match v with Some s => VStr s | None => VNone end.
Definition of_float (v : option pyfloat) : value :=
  match v with Some f => VFloat f | None => VNone end.
Definition of_date (v : option datetime) : value :=
  match v with Some d => VDate d | None => VNone end.

#[global] Instance Q_eq_dec : EqDecision Q.
Proof. solve_decision. Defined.
#[global] Instance pyfloat_eq_dec : EqDecision pyfloat.
Proof. solve_decision. Defined.
#[global] Instance datetime_eq_dec : EqDecision datetime.
Proof. solve_decision. Defined.
#[global] Instance value_eq_dec : EqDecision value.
Proof. solve_decision. Defined.

(** A document: the fields of the [dict] literal, in the order written. *)
Definition document : Type := list (string * value).

Fixpoint field (k : string) (d : document) : option value :=
  match d with
  | [] => None
  | (k', v) :: d' => if String.eqb k' k then Some v else field k d'
  end.

Record index := mk_index {
  ix_key : string; ix_unique : bool; ix_sparse : bool
}.

#[global] Instance index_eq_dec : EqDecision index.
Proof. solve_decision. Defined.

Record collection := mk_collection {
  docs : list document;
  indexes : list index;
  faults : list bool
}.

Definition next_fault (c : collection) : bool * collection :=
  match faults c with
  | [] => (false, c)
  | f :: fs => (f, mk_collection (docs c) (indexes c) fs)
  end.

(** The key under which an index holds a document; a sparse index leaves
    out the documents that lack the field, any other index files them
    under null. *)
Definition indexed (ix : index) (d : document) : option value :=
  match field (ix_key ix) d with
  | Some v => Some v
  | None => if ix_sparse ix then None else Some VNone
  end.

Definition clash (ix : index) (d : document) (ds : list document) : bool :=
  match indexed ix d with
  | None => false
  | Some v => existsb (fun d' => bool_decide (indexed ix d' = Some v)) ds
  end.

Fixpoint has_clash (ix : index) (ds : list document) : bool :=
  match ds with
  | [] => false
  | d :: ds' => clash ix d ds' || has_clash ix ds'
  end.

(** [collection.insert_one(d)] *)
Definition insert_one (c : collection) (d : document) : result unit * collection :=
  let '(f, c1) := next_fault c in
  if f then (Raise ConnectionError, c1)
  else if existsb (fun ix => ix_unique ix && clash ix d (docs c1)) (indexes c1)
  then (Raise DuplicateKeyError, c1)
  else (Ok tt, mk_collection (docs c1 ++ [d]) (indexes c1) (faults c1)).

(** [collection.find_one({k: v})] *)
Definition find_one (c : collection) (k : string) (v : value)
  : result (option document) * collection :=
  let '(f, c1) := next_fault c in
  if f then (Raise ConnectionError, c1)
  else (Ok (List.find (fun d => bool_decide (field k d = Some v)) (docs c1)), c1).

(** [collection.count_documents({})] *)
Definition count_documents (c : collection) : result nat * collection :=
  let '(f, c1) := next_fault c in
  if f then (Raise ConnectionError, c1)
  else (Ok (List.length (docs c1)), c1).

(** [collection.create_index(key, unique=..., sparse=...)]: building a
    unique index over documents that share a key fails. *)
Definition create_index (c : collection) (ix : index) : result unit * collection :=
  let '(f, c1) := next_fault c in
  if f then (Raise ConnectionError, c1)
  else if ix_unique ix && has_clash ix (docs c1)
  then (Raise DuplicateKeyError, c1)
  else if bool_decide (ix ∈ indexes c1) then (Ok tt, c1)
  else (Ok tt, mk_collection (docs c1) (indexes c1 ++ [ix]) (faults c1)).

End Mongo.

(* ===================================================================== *)
(** * Rows of a CSV file *)
(* ===================================================================== *)

(** [csv.DictReader] yields one [dict] per line, keyed by the header; a
    line with fewer cells than the header has [None] for the cells it
    lacks. *)
Module Csv.
Import Py.

Abbreviation raw_row := (gmap string (option string)).

(** [row[key]] *)
Definition getitem (row : raw_row) (key : string) : result (option string) :=
  match row !! key with
  | Some v => Ok v
  | None => Raise (KeyError key)
  end.

(** [not v] for a cell. *)
Definition falsy (v : option string) : bool :=
  match v with
  | Some (String _ _) => false
  | _ => true
  end.

(** [v == ''] for a cell. *)
Definition is_empty (v : option string) : bool :=
  match v with
  | Some s => String.eqb s EmptyString
  | None => false
  end.

End Csv.

(* ===================================================================== *)
(** * [scripts/import_clockodo_data.py] *)
(* ===================================================================== *)

Module Clockodo.
Import Py Mongo Csv.

(** [0.0] *)
Definition zero : pyfloat := Finite 0.

(** Lines 18-23. *)
Definition parse_german_number (value : option string) : result pyfloat :=
  if falsy value || is_empty value then Ok zero
  else
    match value with
    | Some s => float (replace "," "." s)
    | None => Raise AttributeError
    end.

(** Lines 25-30.  Only [ValueError] is caught; [strptime] of [None] is a
    [TypeError]. *)
Definition parse_month (month_str : option string) : M (option datetime) :=
  match month_str with
  | None => throw TypeError
  | Some s =>
      match strptime s "%Y-%m" with
      | Ok d => ret (Some d)
      | Raise ValueError => ret None
      | Raise e => throw e
      end
  end.

(** [cell.strip(q)]: a missing cell has no such method. *)
Definition strip_cell (v : option string) : result string :=
  match v with
  | Some s => Ok (strip_quotes s)
  | None => Raise AttributeError
  end.

(** Lines 53-63: the document of one row; [utcnow] is the reading of the
    clock. *)
Definition document_of_row (utcnow : datetime) (row : raw_row) : M document :=
  (kunde ← lift (getitem row "Kunde" ≫= strip_cell)%R;
   projekt ← lift (getitem row "Projekt" ≫= strip_cell)%R;
   monat ← lift (getitem row "Monat");
   monat_date ← (lift (getitem row "Monat") ≫= parse_month);
   leistung ← lift (getitem row "Leistung" ≫= strip_cell)%R;
   mitarbeiter ← lift (getitem row "Mitarbeiter" ≫= strip_cell)%R;
   stunden ← lift (getitem row "Stunden" ≫= parse_german_number)%R;
   umsatz_eur ← lift ((getitem row "Umsatz in EUR" ≫= strip_cell)
                        ≫= (fun s => parse_german_number (Some s)))%R;
   ret [ ("kunde", VStr kunde);
         ("projekt", VStr projekt);
         ("monat", of_str monat);
         ("monat_date", of_date monat_date);
         ("leistung", VStr leistung);
         ("mitarbeiter", VStr mitarbeiter);
         ("stunden", VFloat stunden);
         ("umsatz_eur", VFloat umsatz_eur);
         ("imported_at", VDate utcnow) ])%M.

Record state := mk_state {
  sink : collection;
  imported_count : nat;
  out : list line
}.

Definition progress (n : nat) : list line :=
  if (n mod 100 =? 0)%nat
  then [Print ("Imported " +:+ str_of_nat n +:+ " records...")]
  else [].

(** Lines 52-70: the loop over the rows.  [clock i] is the time at which
    row [i] of the file is handled.  The first exception ends the loop. *)
Fixpoint rows_loop (clock : nat -> datetime) (i : nat) (rows : list raw_row)
    (st : state) : result unit * state :=
  match rows with
  | [] => (Ok tt, st)
  | row :: rest =>
      match document_of_row (clock i) row with
      | (Raise e, w) =>
          (Raise e, mk_state (sink st) (imported_count st) (out st ++ w))
      | (Ok doc, w) =>
          match insert_one (sink st) doc with
          | (Raise e, c) =>
              (Raise e, mk_state c (imported_count st) (out st ++ w))
          | (Ok _, c) =>
              let n := S (imported_count st) in
              rows_loop clock (S i) rest
                        (mk_state c n (out st ++ w ++ progress n))
          end
      end
  end.

(** Lines 45-79, from the point where the collection is at hand: the
    result is what the function returns, the collection afterwards and
    what was printed. *)
Definition import_clockodo_data (clock : nat -> datetime) (rows : list raw_row)
    (c : collection) : bool * collection * list line :=
  match rows_loop clock 0 rows (mk_state c 0 []) with
  | (Ok _, st) =>
      (true, sink st,
       out st ++ [Print ("Successfully imported "
                         +:+ str_of_nat (imported_count st) +:+ " records")])
  | (Raise e, st) =>
      (false, sink st, out st ++ [PrintExn "Error importing data: " e])
  end.

End Clockodo.

(* ===================================================================== *)
(** * [scripts/import_deals_csv.py] *)
(* ===================================================================== *)

Module Deals.
Import Py Mongo Csv.

(** [cell.strip() == ''] *)
Definition is_blank (v : option string) : bool :=
  match v with
  | Some s => String.eqb (strip s) EmptyString
  | None => false
  end.

(** Lines 14-27. *)
Definition parse_date (date_str : option string) : M (option datetime) :=
  if falsy date_str || is_blank date_str then ret None
  else
    match date_str with
    | Some s =>
        match (if contains " " s
               then strptime s "%Y-%m-%d %H:%M:%S"
               else strptime s "%Y-%m-%d") with
        | Ok d => ret (Some d)
        | Raise ValueError =>
            (_ ← print ("Warning: Could not parse date '" +:+ s +:+ "'");
             ret None)%M
        | Raise e => throw e
        end
    | None => throw AttributeError
    end.

(** Lines 29-37. *)
Definition parse_number (value_str : option string) : M (option pyfloat) :=
  if falsy value_str || is_blank value_str then ret None
  else
    match value_str with
    | Some s =>
        match float s with
        | Ok x => ret (Some x)
        | Raise ValueError =>
            (_ ← print ("Warning: Could not parse number '" +:+ s +:+ "'");
             ret None)%M
        | Raise e => throw e
        end
    | None => throw AttributeError
    end.

(** The three ways a cell enters the document. *)
Definition text (row : raw_row) (key : string) : M value :=
  (v ← lift (getitem row key); ret (of_str v))%M.
Definition number (row : raw_row) (key : string) : M value :=
  (v ← lift (getitem row key); x ← parse_number v; ret (of_float x))%M.
Definition date (row : raw_row) (key : string) : M value :=
  (v ← lift (getitem row key); d ← parse_date v; ret (of_date d))%M.

(** Lines 39-71; [now] is the reading of the clock. *)
Definition transform_deal_row (now : datetime) (row : raw_row) : M document :=
  (title ← text row "Deal - Titel";
   organization ← text row "Deal - Organisation";
   value ← number row "Deal - Wert";
   status ← text row "Deal - Status";
   loss_reason ← text row "Deal - Verlustgrund";
   owner ← text row "Deal - Besitzer";
   created_date ← date row "Deal - Deal erstellt";
   lost_date ← date row "Deal - Datum des verlorenen Deals";
   phase ← text row "Deal - Phase";
   pending_activities ← number row "Deal - Zu erledigende Aktivitäten";
   contact_person ← text row "Deal - Kontaktperson";
   closed_date ← date row "Deal - Deal abgeschlossen am";
   completed_activities ← number row "Deal - Erledigte Aktivitäten";
   email_count ← number row "Deal - Anzahl E-Mail-Nachrichten";
   deal_id ← text row "Deal - ID";
   label ← text row "Deal - Label";
   last_activity_date ← date row "Deal - Datum der letzten Aktivität";
   last_email_received ← date row "Deal - Letzte E-Mail erhalten";
   last_email_sent ← date row "Deal - Letzte E-Mail gesendet";
   last_phase_change ← date row "Deal - Letzte Phasenänderung";
   next_activity_date ← date row "Deal - Datum nächste Aktivität";
   probability ← number row "Deal - Wahrscheinlichkeit";
   total_activities ← number row "Deal - Gesamtzahl der Aktivitäten";
   last_update ← date row "Deal - Zeit der Aktualisierung";
   visibility ← text row "Deal - Sichtbar für";
   weighted_value ← number row "Deal - Gewichteter Wert";
   pipeline ← text row "Deal - Pipeline";
   won_date ← date row "Deal - Datum des gewonnenen Deals";
   ret [ ("title", title);
         ("organization", organization);
         ("value", value);
         ("status", status);
         ("loss_reason", loss_reason);
         ("owner", owner);
         ("created_date", created_date);
         ("lost_date", lost_date);
         ("phase", phase);
         ("pending_activities", pending_activities);
         ("contact_person", contact_person);
         ("closed_date", closed_date);
         ("completed_activities", completed_activities);
         ("email_count", email_count);
         ("deal_id", deal_id);
         ("label", label);
         ("last_activity_date", last_activity_date);
         ("last_email_received", last_email_received);
         ("last_email_sent", last_email_sent);
         ("last_phase_change", last_phase_change);
         ("next_activity_date", next_activity_date);
         ("probability", probability);
         ("total_activities", total_activities);
         ("last_update", last_update);
         ("visibility", visibility);
         ("weighted_value", weighted_value);
         ("pipeline", pipeline);
         ("won_date", won_date);
         ("imported_at", VDate now) ])%M.

Record state := mk_state {
  sink : collection;
  imported_count : nat;
  skipped_count : nat;
  out : list line
}.

(** [deal_doc['deal_id']] as the [if] of line 129 sees it: a non-empty
    text. *)
Definition deal_id (doc : document) : option string :=
  match field "deal_id" doc with
  | Some (VStr (String c r)) => Some (String c r)
  | _ => None
  end.

Definition progress (n : nat) : list line :=
  if (n mod 10 =? 0)%nat
  then [Print ("Imported " +:+ str_of_nat n +:+ " deals...")]
  else [].

Definition row_error (e : exn) : line := PrintExn "Error processing row: " e.

(** Lines 136-141, with the handler of lines 143-145. *)
Definition insert_deal (doc : document) (st : state) : state :=
  match insert_one (sink st) doc with
  | (Ok _, c) =>
      let n := S (imported_count st) in
      mk_state c n (skipped_count st) (out st ++ progress n)
  | (Raise e, c) =>
      mk_state c (imported_count st) (skipped_count st) (out st ++ [row_error e])
  end.

(** Lines 124-145: the body of the loop for one row.  Whatever is raised
    inside is printed and the loop goes on. *)
Definition process_row (now : datetime) (row : raw_row) (st : state) : state :=
  match transform_deal_row now row with
  | (Raise e, w) =>
      mk_state (sink st) (imported_count st) (skipped_count st)
               (out st ++ w ++ [row_error e])
  | (Ok doc, w) =>
      let st1 := mk_state (sink st) (imported_count st) (skipped_count st)
                          (out st ++ w) in
      match deal_id doc with
      | Some id =>
          match find_one (sink st1) "deal_id" (VStr id) with
          | (Raise e, c) =>
              mk_state c (imported_count st1) (skipped_count st1)
                       (out st1 ++ [row_error e])
          | (Ok (Some existing), c) =>
              mk_state c (imported_count st1) (S (skipped_count st1))
                       (out st1 ++ [Print ("Deal with ID " +:+ id
                                           +:+ " already exists, skipping")])
          | (Ok None, c) =>
              insert_deal doc
                (mk_state c (imported_count st1) (skipped_count st1) (out st1))
          end
      | None => insert_deal doc st1
      end
  end.

(** Lines 123-145: the loop; [clock i] is the time at which row [i] of the
    file is handled. *)
Fixpoint rows_loop (clock : nat -> datetime) (i : nat) (rows : list raw_row)
    (st : state) : state :=
  match rows with
  | [] => st
  | row :: rest => rows_loop clock (S i) rest (process_row (clock i) row st)
  end.

(** The indexes of lines 154-158. *)
Definition deal_indexes : list index :=
  [ mk_index "deal_id" true true;
    mk_index "status" false false;
    mk_index "owner" false false;
    mk_index "organization" false false;
    mk_index "created_date" false false ].

Fixpoint create_indexes (ixs : list index) (c : collection)
  : result unit * collection :=
  match ixs with
  | [] => (Ok tt, c)
  | ix :: rest =>
      match create_index c ix with
      | (Ok _, c1) => create_indexes rest c1
      | (Raise e, c1) => (Raise e, c1)
      end
  end.

(** Lines 123-167 of [main]: the loop, the summary and the indexes.  The
    result is the exit status ([true] for a normal return), the collection
    afterwards, the two counters and what was printed. *)
Definition main (clock : nat -> datetime) (rows : list raw_row) (c : collection)
  : bool * state :=
  let st := rows_loop clock 0 rows (mk_state c 0 0 []) in
  let summary :=
    [ Print "
Import completed!";
      Print ("Imported: " +:+ str_of_nat (imported_count st) +:+ " deals");
      Print ("Skipped: " +:+ str_of_nat (skipped_count st) +:+ " deals") ] in
  match count_documents (sink st) with
  | (Raise e, c1) =>
      (false, mk_state c1 (imported_count st) (skipped_count st)
                       (out st ++ summary ++ [PrintExn "Error: " e]))
  | (Ok total, c1) =>
      let out1 :=
        out st ++ summary
        ++ [ Print ("Total documents in collection: " +:+ str_of_nat total);
             Print "
Creating indexes..." ] in
      match create_indexes deal_indexes c1 with
      | (Ok _, c2) =>
          (true, mk_state c2 (imported_count st) (skipped_count st)
                          (out1 ++ [Print "Indexes created"]))
      | (Raise e, c2) =>
          (false, mk_state c2 (imported_count st) (skipped_count st)
                           (out1 ++ [PrintExn "Error: " e]))
      end
  end.

End Deals.

(* ===================================================================== *)
(** * The operating system, as the scripts see it *)
(* ===================================================================== *)

(** The environment is a map from names to texts, the file system a map
    from absolute paths to the rows [csv.DictReader] reads from the file
    (the CSV syntax itself is not modelled).  Paths are POSIX paths. *)
Module Os.
Import Py Csv.

Abbreviation environ := (gmap string string).
Abbreviation files := (gmap string (list raw_row)).

(** [os.getenv(key)] *)
Definition getenv (env : environ) (key : string) : option string := env !! key.

(** [os.getenv(key, default)] *)
Definition getenv_or (env : environ) (key default : string) : string :=
  match env !! key with
  | Some v => v
  | None => default
  end.

(** [os.path.isabs(p)] *)
Definition isabs (p : string) : bool :=
  match p with
  | String c _ => Ascii.eqb c "/"
  | EmptyString => false
  end.

Fixpoint ends_with (c : ascii) (s : string) : bool :=
  match s with
  | EmptyString => false
  | String a EmptyString => Ascii.eqb a c
  | String _ r => ends_with c r
  end.

(** [os.path.join(a, b)] *)
Definition join (a b : string) : string :=
  if isabs b then b
  else if String.eqb a EmptyString || ends_with "/" a then a +:+ b
  else a +:+ String "/" b.

(** The file a path names for a process whose working directory is
    [cwd]. *)
Definition lookup_file (cwd : string) (fs : files) (p : string)
  : option (list raw_row) :=
  fs !! join cwd p.

(** [os.path.exists(p)] *)
Definition exists_ (cwd : string) (fs : files) (p : string) : bool :=
  match lookup_file cwd fs p with
  | Some _ => true
  | None => false
  end.

(** [not v] for the result of [os.getenv]. *)
Definition unset (v : option string) : bool :=
  match v with
  | Some (String _ _) => false
  | _ => true
  end.

(** [int(s)] of a text; [None] stands for [ValueError].  White space
    around, a sign, and digits with single underscores between them. *)
Definition int_of_str (s : string) : option Z :=
  match drop_underscores (strip s) with
  | None => None
  | Some t =>
      let '(neg, ds) := take_sign t in
      match ds with
      | EmptyString => None
      | String _ _ =>
          if forall_chars is_digit ds
          then Some (if neg then (- digits_val ds)%Z else digits_val ds)
          else None
      end
  end.

End Os.

(* ===================================================================== *)
(** * [scripts/import_clockodo_data.py]: the command line *)
(* ===================================================================== *)

Module ClockodoScript.
Import Py Mongo Csv Os.

(** What [parse_args] returns; an option that is not given is [None]. *)
Record args := mk_args {
  csv_file : string;
  arg_database : option string;
  arg_collection : option string;
  arg_mongo_url : option string
}.

Definition or_default (v : option string) (d : string) : string :=
  match v with
  | Some s => s
  | None => d
  end.

(** The character that ends a line. *)
Definition nl : string := String "010" EmptyString.

(** ["-" * n] *)
Fixpoint dashes (n : nat) : string :=
  match n with
  | O => EmptyString
  | S k => String "-" (dashes k)
  end.

(** Lines 32-79, given the rows of the file: [MongoClient] connects
    lazily, so the first block only prints; the rest is
    [Clockodo.import_clockodo_data]. *)
Definition import_clockodo_data (clock : nat -> datetime) (rows : list raw_row)
    (database_name collection_name : string) (c : collection)
  : bool * collection * list line :=
  let '(ok, c', o) := Clockodo.import_clockodo_data clock rows c in
  (ok, c',
   Print ("Connected to MongoDB: " +:+ database_name +:+ "."
          +:+ collection_name)
   :: o).

(** Lines 81-152.  [c] is the collection that the URL, the database and
    the collection name select.  The result is the exit status, the
    collection afterwards and what was printed. *)
Definition main (env : environ) (a : args) (cwd : string) (fs : files)
    (clock : nat -> datetime) (c : collection) : nat * collection * list line :=
  let mongo_user := getenv env "MONGO_ROOT_USERNAME" in
  let mongo_pass := getenv env "MONGO_ROOT_PASSWORD" in
  let mongo_db := getenv env "MONGO_DATABASE" in
  if unset mongo_user || unset mongo_pass || unset mongo_db then
    (1%nat, c,
     [ Print "Error: Required environment variables not found!";
       Print "Please ensure .env file exists with:";
       Print "  MONGO_ROOT_USERNAME=<username>";
       Print "  MONGO_ROOT_PASSWORD=<password>";
       Print "  MONGO_DATABASE=<database>" ])
  else
    let user := or_default mongo_user EmptyString in
    let pass := or_default mongo_pass EmptyString in
    let db := or_default mongo_db EmptyString in
    let url := "mongodb://" +:+ user +:+ ":" +:+ pass
               +:+ "@localhost:27017/" +:+ db +:+ "?authSource=admin" in
    let MONGO_URL := or_default (arg_mongo_url a) url in
    let DATABASE_NAME := or_default (arg_database a) db in
    let COLLECTION_NAME := or_default (arg_collection a) "clockodo_data" in
    let CSV_FILE :=
      if isabs (csv_file a) then csv_file a else join cwd (csv_file a) in
    match lookup_file cwd fs CSV_FILE with
    | None => (1%nat, c, [Print ("Error: CSV file not found: " +:+ CSV_FILE)])
    | Some rows =>
        let head :=
          [ Print "Starting Clockodo data import...";
            Print ("CSV file: " +:+ CSV_FILE);
            Print ("MongoDB: " +:+ MONGO_URL);
            Print ("Collection: " +:+ DATABASE_NAME +:+ "." +:+ COLLECTION_NAME);
            Print (dashes 50) ] in
        let '(success, c', o) :=
          import_clockodo_data clock rows DATABASE_NAME COLLECTION_NAME c in
        if success then
          (0%nat, c',
           head ++ o
           ++ [ Print (nl +:+ "✅ Import completed successfully!");
                Print (nl +:+ "You can now:");
                Print "1. View data in MongoDB Express: http://localhost:8081";
                Print "2. Connect to the collection in Metabase for analysis";
                Print ("3. Query the data: db." +:+ COLLECTION_NAME
                       +:+ ".find().limit(5)") ])
        else
          (1%nat, c', head ++ o ++ [Print (nl +:+ "❌ Import failed!")])
    end.

End ClockodoScript.

(* ===================================================================== *)
(** * [scripts/import_deals_csv.py]: the whole of [main] *)
(* ===================================================================== *)

Module DealsScript.
Import Py Mongo Csv Os.

Definition nl : string := String "010" EmptyString.

(** [collection.delete_many({})]: the documents go, the indexes stay. *)
Definition delete_many (c : collection) : result unit * collection :=
  let '(f, c1) := next_fault c in
  if f then (Raise ConnectionError, c1)
  else (Ok tt, mk_collection [] (indexes c1) (faults c1)).

(** [client.admin.command('ismaster')] *)
Definition ping (c : collection) : result unit * collection :=
  let '(f, c1) := next_fault c in
  if f then (Raise ConnectionError, c1) else (Ok tt, c1).

(** Lines 161-167: a failure of the connection has its own message, any
    other exception is printed. *)
Definition handler (e : exn) : list line :=
  match e with
  | ConnectionError =>
      [ Print "Error: Could not connect to MongoDB";
        Print "Make sure MongoDB is running and credentials are correct" ]
  | _ => [PrintExn "Error: " e]
  end.

(** Lines 115-121: the offer to clear a collection that holds documents;
    [response] is the line typed at the prompt. *)
Definition clear_first (response : string) (c : collection)
  : result unit * collection * list line :=
  match count_documents c with
  | (Raise e, c1) => (Raise e, c1, [])
  | (Ok existing_count, c1) =>
      if (0 <? existing_count)%nat then
        let prompt :=
          Print ("Collection 'deals' already contains "
                 +:+ str_of_nat existing_count
                 +:+ " documents. Clear it first? (y/N): ") in
        if String.eqb (lower response) "y" then
          match delete_many c1 with
          | (Raise e, c2) => (Raise e, c2, [prompt])
          | (Ok _, c2) => (Ok tt, c2, [prompt; Print "Collection cleared"])
          end
        else (Ok tt, c1, [prompt])
      else (Ok tt, c1, [])
  end.

(** Lines 123-159: the loop, the summary and the indexes. *)
Definition load (clock : nat -> datetime) (rows : list raw_row) (c : collection)
  : result unit * Deals.state :=
  let st := Deals.rows_loop clock 0 rows (Deals.mk_state c 0 0 []) in
  let summary :=
    [ Print (nl +:+ "Import completed!");
      Print ("Imported: " +:+ str_of_nat (Deals.imported_count st) +:+ " deals");
      Print ("Skipped: " +:+ str_of_nat (Deals.skipped_count st) +:+ " deals") ] in
  match count_documents (Deals.sink st) with
  | (Raise e, c1) =>
      (Raise e, Deals.mk_state c1 (Deals.imported_count st)
                  (Deals.skipped_count st) (Deals.out st ++ summary))
  | (Ok total, c1) =>
      let out1 :=
        Deals.out st ++ summary
        ++ [ Print ("Total documents in collection: " +:+ str_of_nat total);
             Print (nl +:+ "Creating indexes...") ] in
      match Deals.create_indexes Deals.deal_indexes c1 with
      | (Ok _, c2) =>
          (Ok tt, Deals.mk_state c2 (Deals.imported_count st)
                    (Deals.skipped_count st) (out1 ++ [Print "Indexes created"]))
      | (Raise e, c2) =>
          (Raise e, Deals.mk_state c2 (Deals.imported_count st)
                      (Deals.skipped_count st) out1)
      end
  end.

(** Lines 73-170.  [c] is the collection [deals] of the database the
    environment names.  The result is the exit status, the collection
    afterwards, the two counters and what was printed on standard
    output. *)
Definition main (env : environ) (csv_file : string) (cwd : string) (fs : files)
    (response : string) (clock : nat -> datetime) (c : collection)
  : nat * Deals.state :=
  match int_of_str (getenv_or env "MONGO_PORT" "27017") with
  | None => (1%nat, Deals.mk_state c 0 0 [])
  | Some mongo_port =>
      match lookup_file cwd fs csv_file with
      | None =>
          (1%nat, Deals.mk_state c 0 0
                    [Print ("Error: CSV file not found at " +:+ csv_file)])
      | Some rows =>
          match ping c with
          | (Raise e, c1) => (1%nat, Deals.mk_state c1 0 0 (handler e))
          | (Ok _, c1) =>
              let out0 :=
                [ Print "Connected to MongoDB successfully";
                  Print ("Reading CSV file: " +:+ csv_file) ] in
              match clear_first response c1 with
              | (Raise e, c2, o) =>
                  (1%nat, Deals.mk_state c2 0 0 (out0 ++ o ++ handler e))
              | (Ok _, c2, o) =>
                  match load clock rows c2 with
                  | (Ok _, st) =>
                      (0%nat, Deals.mk_state (Deals.sink st)
                                (Deals.imported_count st)
                                (Deals.skipped_count st)
                                (out0 ++ o ++ Deals.out st))
                  | (Raise e, st) =>
                      (1%nat, Deals.mk_state (Deals.sink st)
                                (Deals.imported_count st)
                                (Deals.skipped_count st)
                                (out0 ++ o ++ Deals.out st ++ handler e))
                  end
              end
          end
      end
  end.

End DealsScript.

(* ===================================================================== *)
(** * Vocabulary of the properties *)
(* ===================================================================== *)

Import Py Mongo Csv.

(** ** Sample data *)

Definition epoch : datetime := mk_datetime 1970 1 1 0 0 0.

Definition empty_collection : collection := mk_collection [] [] [].

Definition sheet_row (kunde projekt monat leistung mitarbeiter stunden umsatz
                      : string) : raw_row :=
  list_to_map
    [ ("Kunde"%string, Some kunde); ("Projekt"%string, Some projekt);
      ("Monat"%string, Some monat); ("Leistung"%string, Some leistung);
      ("Mitarbeiter"%string, Some mitarbeiter);
      ("Stunden"%string, Some stunden);
      ("Umsatz in EUR"%string, Some umsatz) ].

(** [qq s]: the text [s] between two quote characters. *)
Definition qq (s : string) : string :=
  String dquote (s +:+ String dquote EmptyString).

(** ** Outcomes of the time-sheet import *)

(** Two computations end the same way: both return, or both raise the same
    exception, after printing the same lines. *)
Definition same_outcome {A} (m1 m2 : M A) : Prop :=
  match m1, m2 with
  | (Ok _, w1), (Ok _, w2) => w1 = w2
  | (Raise e1, w1), (Raise e2, w2) => e1 = e2 /\ w1 = w2
  | _, _ => False
  end.

(** The row has a document. *)
Definition converts (row : raw_row) : bool :=
  match Clockodo.document_of_row epoch row with
  | (Ok _, _) => true
  | (Raise _, _) => false
  end.

(** The number of rows before the first one without a document. *)
Fixpoint leading (rows : list raw_row) : nat :=
  match rows with
  | [] => 0
  | row :: rest => if converts row then S (leading rest) else 0
  end.

(** No transport fault is pending and no index is unique: every insert
    is accepted. *)
Definition accepts_all (c : collection) : Prop :=
  faults c = [] /\ Forall (fun ix => ix_unique ix = false) (indexes c).

(** ** Fields of a deal document *)

(** How a cell of the deal export enters the document. *)
Inductive kind := Text | Number | Date.

(** The fields of a deal document: name, column of the export, kind. *)
Definition deal_columns : list (string * string * kind) :=
  [ ("title", "Deal - Titel", Text);
    ("organization", "Deal - Organisation", Text);
    ("value", "Deal - Wert", Number);
    ("status", "Deal - Status", Text);
    ("loss_reason", "Deal - Verlustgrund", Text);
    ("owner", "Deal - Besitzer", Text);
    ("created_date", "Deal - Deal erstellt", Date);
    ("lost_date", "Deal - Datum des verlorenen Deals", Date);
    ("phase", "Deal - Phase", Text);
    ("pending_activities", "Deal - Zu erledigende Aktivitäten", Number);
    ("contact_person", "Deal - Kontaktperson", Text);
    ("closed_date", "Deal - Deal abgeschlossen am", Date);
    ("completed_activities", "Deal - Erledigte Aktivitäten", Number);
    ("email_count", "Deal - Anzahl E-Mail-Nachrichten", Number);
    ("deal_id", "Deal - ID", Text);
    ("label", "Deal - Label", Text);
    ("last_activity_date", "Deal - Datum der letzten Aktivität", Date);
    ("last_email_received", "Deal - Letzte E-Mail erhalten", Date);
    ("last_email_sent", "Deal - Letzte E-Mail gesendet", Date);
    ("last_phase_change", "Deal - Letzte Phasenänderung", Date);
    ("next_activity_date", "Deal - Datum nächste Aktivität", Date);
    ("probability", "Deal - Wahrscheinlichkeit", Number);
    ("total_activities", "Deal - Gesamtzahl der Aktivitäten", Number);
    ("last_update", "Deal - Zeit der Aktualisierung", Date);
    ("visibility", "Deal - Sichtbar für", Text);
    ("weighted_value", "Deal - Gewichteter Wert", Number);
    ("pipeline", "Deal - Pipeline", Text);
    ("won_date", "Deal - Datum des gewonnenen Deals", Date) ]%string.

(** The field holds the cell as it is in the row: the text itself, or
    what the number or date parser makes of that very text. *)
Definition verbatim (row : raw_row) (doc : document)
    (col : string * string * kind) : Prop :=
  let '(name, column, k) := col in
  exists cell,
    row !! column = Some cell
    /\ match k with
       | Text => field name doc = Some (of_str cell)
       | Number => exists x w, Deals.parse_number cell = (Ok x, w)
                               /\ field name doc = Some (of_float x)
       | Date => exists d w, Deals.parse_date cell = (Ok d, w)
                             /\ field name doc = Some (of_date d)
       end.

(** A row of the deal export with the given identifier, title, value and
    creation date, the other cells empty. *)
Definition deal_row (id title value created : string) : raw_row :=
  list_to_map
    (List.map
       (fun '(_, column, _) =>
          (column,
           Some (if String.eqb column "Deal - ID" then id
                 else if String.eqb column "Deal - Titel" then title
                 else if String.eqb column "Deal - Wert" then value
                 else if String.eqb column "Deal - Deal erstellt" then created
                 else EmptyString)))
       deal_columns).

(** ** Quote characters *)

Definition first_char (s : string) : option ascii :=
  match s with
  | String c _ => Some c
  | EmptyString => None
  end.

Fixpoint last_char (s : string) : option ascii :=
  match s with
  | EmptyString => None
  | String c EmptyString => Some c
  | String _ r => last_char r
  end.

(** Following the words of the specification: one quote character is taken
    from the front if there is one, and one from the back if there is
    one. *)
Fixpoint drop_last_quote (s : string) : string :=
  match s with
  | EmptyString => EmptyString
  | String c EmptyString => if is_quote c then EmptyString else s
  | String c r => String c (drop_last_quote r)
  end.

Definition strip_one_layer (s : string) : string :=
  match s with
  | String c r => if is_quote c then drop_last_quote r else drop_last_quote s
  | EmptyString => EmptyString
  end.

(** ** Deal identifiers *)

(** The identifiers the existence check looks at: the non-empty ones. *)
Definition ids (ds : list document) : list string := omap Deals.deal_id ds.

(** Number of documents whose identifier field is the text [id]. *)
Definition count_id (id : string) (ds : list document) : nat :=
  length (List.filter (fun d => bool_decide (field "deal_id" d = Some (VStr id))) ds).

(** No transport fault is pending, and the only unique index that may be
    registered is the one on the identifier. *)
Definition accepting (c : collection) : Prop :=
  faults c = []
  /\ Forall (fun ix => ix_unique ix = true -> ix_key ix = "deal_id"%string)
            (indexes c).

(** ** Months *)

(** Following the words of the specification: the shape [YYYY-MM], four
    digits, a hyphen, two digits. *)
Definition shape_YYYY_MM (s : string) : bool :=
  match s with
  | String y1 (String y2 (String y3 (String y4
      (String h (String m1 (String m2 EmptyString)))))) =>
      is_digit y1 && is_digit y2 && is_digit y3 && is_digit y4
      && Ascii.eqb h "-" && is_digit m1 && is_digit m2
  | _ => false
  end.

(** What the parser accepts as a month: [10], [11], [12]; [01] to [09];
    [1] to [9]. *)
Definition month_text (t : string) : option Z :=
  match t with
  | String a EmptyString =>
      if in_range "1" "9" a then Some (int t) else None
  | String a (String b EmptyString) =>
      if (Ascii.eqb a "1" && in_range "0" "2" b)
         || (Ascii.eqb a "0" && in_range "1" "9" b)
      then Some (int t) else None
  | _ => None
  end.

(** What the parser accepts: four digits that are not [0000], a hyphen and
    a month; the result is the first day of that month, at midnight. *)
Definition year_month (s : string) : option datetime :=
  match s with
  | String y1 (String y2 (String y3 (String y4 (String h t)))) =>
      if is_digit y1 && is_digit y2 && is_digit y3 && is_digit y4
         && Ascii.eqb h "-"
      then
        let y := int (String y1 (String y2 (String y3 (String y4 EmptyString)))) in
        match month_text t with
        | Some m => if (1 <=? y)%Z then Some (mk_datetime y m 1 0 0 0) else None
        | None => None
        end
      else None
  | _ => None
  end.

(** ** Date texts *)

(** The character of a digit. *)
Definition digit_char (d : Z) : ascii := ascii_of_N (Z.to_N (48 + d)).

(** A number below 100 on two digits, then [rest]. *)
Definition two_then (n : Z) (rest : string) : string :=
  String (digit_char (n / 10)) (String (digit_char (n mod 10)) rest).

(** A number below 10000 on four digits, then [rest]. *)
Definition four_then (n : Z) (rest : string) : string :=
  two_then (n / 100) (two_then (n mod 100) rest).

Definition date_then (d : datetime) (rest : string) : string :=
  four_then (year d)
    (String "-" (two_then (month d) (String "-" (two_then (day d) rest)))).

(** The text [YYYY-MM-DD] of a day. *)
Definition isoformat_date (d : datetime) : string := date_then d EmptyString.

(** The text [YYYY-MM-DD HH:MM:SS] of a time. *)
Definition isoformat (d : datetime) : string :=
  date_then d
    (String " " (two_then (hour d)
       (String ":" (two_then (minute d)
          (String ":" (two_then (second d) EmptyString)))))).

(** Midnight of the day of [d]. *)
Definition midnight (d : datetime) : datetime :=
  mk_datetime (year d) (month d) (day d) 0 0 0.

Definition valid (d : datetime) : bool :=
  valid_datetime (year d) (month d) (day d) (hour d) (minute d) (second d).

(** The first way to match that the engine finds. *)
Definition first_match (l : list found) (x : found) : Prop :=
  exists tl, l = x :: tl.

(** ** Rows of the deal export *)

(** The columns [transform_deal_row] reads. *)
Definition column_names : list string :=
  List.map (fun '(_, column, _) => column) deal_columns.

(** The row has a cell, possibly empty, under every column. *)
Definition complete (row : raw_row) : Prop :=
  Forall (fun column => is_Some (row !! column)) column_names.

(** The row has a non-empty identifier. *)
Definition keyed (row : raw_row) : Prop :=
  exists id, id <> EmptyString /\ row !! "Deal - ID"%string = Some (Some id).

(** The identifier of a row, when it is not empty. *)
Definition row_id (row : raw_row) : option string :=
  match row !! "Deal - ID"%string with
  | Some (Some (String c r)) => Some (String c r)
  | _ => None
  end.

(** The row has a document. *)
Definition deal_converts (row : raw_row) : bool :=
  match Deals.transform_deal_row epoch row with
  | (Ok _, _) => true
  | (Raise _, _) => false
  end.

(** The lines [Error processing row: ...] among what was printed. *)
Definition is_row_error (l : line) : bool :=
  match l with
  | PrintExn prefix _ => String.eqb prefix "Error processing row: "
  | Print _ => false
  end.

Definition row_errors (o : list line) : nat :=
  length (List.filter is_row_error o).

(** The document comes from one of the rows. *)
Definition from_rows (rows : list raw_row) (doc : document) : Prop :=
  exists row now w,
    row ∈ rows /\ Deals.transform_deal_row now row = (Ok doc, w).

(** What the parsers print for the cell of a column. *)
Definition cell_warnings (row : raw_row) (col : string * string * kind)
  : list line :=
  let '(_, column, k) := col in
  match row !! column with
  | Some cell =>
      match k with
      | Text => []
      | Number => (Deals.parse_number cell).2
      | Date => (Deals.parse_date cell).2
      end
  | None => []
  end.

(** A computation that prints no [Error processing row] line. *)
Definition quiet {A} (m : M A) : Prop := row_errors m.2 = 0%nat.

(** The progress lines of the two loops. *)
Definition hundredth (k : nat) : line :=
  Print ("Imported " +:+ str_of_nat (100 * k) +:+ " records...").

Definition tenth (k : nat) : line :=
  Print ("Imported " +:+ str_of_nat (10 * k) +:+ " deals...").

Fixpoint begins_with (p s : string) : bool :=
  match p, s with
  | EmptyString, _ => true
  | String a p', String b s' => Ascii.eqb a b && begins_with p' s'
  | String _ _, EmptyString => false
  end.

(** The lines that begin with [Imported ] among what was printed. *)
Definition is_progress (l : line) : bool :=
  match l with
  | Print s => begins_with "Imported " s
  | PrintExn _ _ => false
  end.

Definition progress_lines (o : list line) : list line :=
  List.filter is_progress o.

(** A computation that prints nothing. *)
Definition silent {A} (m : M A) : Prop := m.2 = [].

(** A computation that prints no progress line. *)
Definition no_progress {A} (m : M A) : Prop := progress_lines m.2 = [].

(* ===================================================================== *)
(** * Facts about the runtime *)
(* ===================================================================== *)

(** A fact about one character is settled on the 256 characters. *)
Ltac ascii_cases c :=
  destruct c as [[] [] [] [] [] [] [] []]; vm_compute;
  try reflexivity; try discriminate; try (intros; discriminate).

Section RuntimeFacts.

Lemma digit_not_space c : is_digit c = true -> is_space c = false.
Proof. ascii_cases c. Qed.

Lemma space_not_underscore c : is_space c = true -> Ascii.eqb c "_" = false.
Proof. ascii_cases c. Qed.

Lemma space_not_digit c : is_space c = true -> is_digit c = false.
Proof. ascii_cases c. Qed.

(** [strip] leaves nothing exactly of the texts made of white space. *)
Lemma lstrip_all p s : forall_chars p s = true -> lstrip p s = EmptyString.
Proof.
  induction s as [|c r IH]; simpl; [reflexivity|].
  intros [Hc Hr]%andb_prop. rewrite Hc. auto.
Qed.

Lemma rstrip_empty p s : rstrip p s = EmptyString -> forall_chars p s = true.
Proof.
  induction s as [|c r IH]; simpl; [reflexivity|].
  destruct (rstrip p r) eqn:E; [|discriminate].
  destruct (p c); [|discriminate]. intros _. simpl. auto.
Qed.

Lemma lstrip_empty p s : lstrip p s = EmptyString -> forall_chars p s = true.
Proof.
  induction s as [|c r IH]; simpl; [reflexivity|].
  destruct (p c); [|discriminate]. simpl. auto.
Qed.

Lemma strip_by_empty p s :
  strip_by p s = EmptyString <-> forall_chars p s = true.
Proof.
  unfold strip_by. split.
  - intros H. apply rstrip_empty in H.
    induction s as [|c r IH]; simpl in *; [reflexivity|].
    destruct (p c) eqn:E; simpl; [auto|].
    simpl in H. rewrite E in H. discriminate.
  - intros H. rewrite lstrip_all by assumption. reflexivity.
Qed.

Lemma strptime_raises s fmt e : strptime s fmt = Raise e -> e = ValueError.
Proof.
  unfold strptime, datetime_new.
  destruct (pattern false fmt) as [rs|]; [|congruence].
  destruct (rmatch_seq rs s) as [|[[m g] [|c r]] l]; try congruence.
  destruct valid_datetime; congruence.
Qed.

Lemma float_raises s e : float s = Raise e -> e = ValueError.
Proof. unfold float. destruct (float_of_str s); congruence. Qed.

Lemma drop_underscores_blank s prev :
  forall_chars is_space s = true -> Ascii.eqb prev "_" = false ->
  drop_underscores_from prev s = Some s.
Proof.
  revert prev. induction s as [|c r IH]; simpl; intros prev Hs Hp.
  - rewrite Hp. reflexivity.
  - apply andb_prop in Hs as [Hc Hr].
    rewrite (space_not_underscore c Hc), Hp. simpl.
    rewrite IH; auto using space_not_underscore.
Qed.

(** [float] rejects the empty text and text made of white space. *)
Lemma float_of_blank s : forall_chars is_space s = true -> float_of_str s = None.
Proof.
  intros H. unfold float_of_str, drop_underscores.
  rewrite drop_underscores_blank by (assumption || reflexivity).
  assert (E : strip s = EmptyString) by (apply strip_by_empty; assumption).
  rewrite E. reflexivity.
Qed.

End RuntimeFacts.

(* ===================================================================== *)
(** * The number and date parsers of the deal importer *)
(* ===================================================================== *)

Section DealParsers.

(** A cell that is present and not blank passes the guard of both
    parsers. *)
Lemma guard_not_blank s :
  forall_chars is_space s = false ->
  falsy (Some s) || Deals.is_blank (Some s) = false.
Proof.
  intros H. destruct s as [|c r]; [discriminate|]. simpl.
  destruct (String.eqb (strip (String c r)) EmptyString) eqn:E; [|reflexivity].
  apply String.eqb_eq, strip_by_empty in E. congruence.
Qed.

Lemma guard_blank s :
  forall_chars is_space s = true ->
  falsy (Some s) || Deals.is_blank (Some s) = true.
Proof.
  intros H. apply orb_true_iff. right. simpl.
  apply String.eqb_eq, strip_by_empty. assumption.
Qed.

End DealParsers.



(* ===================================================================== *)
(** * The number parser of the time-sheet importer *)
(* ===================================================================== *)

Section GermanNumbers.

Lemma forall_chars_app p a b :
  forall_chars p (a +:+ b) = forall_chars p a && forall_chars p b.
Proof.
  induction a as [|c r IH]; simpl; [reflexivity|].
  rewrite IH. apply andb_assoc.
Qed.

Lemma forall_chars_impl (p q : ascii -> bool) s :
  (forall c, p c = true -> q c = true) ->
  forall_chars p s = true -> forall_chars q s = true.
Proof.
  intros Hpq. induction s as [|c r IH]; simpl; [reflexivity|].
  intros [Hc Hr]%andb_prop. rewrite (Hpq c Hc). auto.
Qed.

Lemma lstrip_keeps p s :
  forall_chars (fun c => negb (p c)) s = true -> lstrip p s = s.
Proof.
  destruct s as [|c r]; simpl; [reflexivity|].
  intros [Hc _]%andb_prop. apply negb_true_iff in Hc. rewrite Hc. reflexivity.
Qed.

Lemma rstrip_keeps p s :
  forall_chars (fun c => negb (p c)) s = true -> rstrip p s = s.
Proof.
  induction s as [|c r IH]; simpl; [reflexivity|].
  intros [Hc Hr]%andb_prop. apply negb_true_iff in Hc.
  rewrite (IH Hr), Hc. destruct r; reflexivity.
Qed.

Lemma drop_underscores_keeps s prev :
  forall_chars (fun c => negb (Ascii.eqb c "_")) s = true ->
  Ascii.eqb prev "_" = false ->
  drop_underscores_from prev s = Some s.
Proof.
  revert prev. induction s as [|c r IH]; simpl; intros prev Hs Hp.
  - rewrite Hp. reflexivity.
  - apply andb_prop in Hs as [Hc Hr]. apply negb_true_iff in Hc.
    rewrite Hc, Hp. simpl. rewrite IH; auto.
Qed.

Lemma span_digits_stop ds c r :
  forall_chars is_digit ds = true -> is_digit c = false ->
  span is_digit (ds +:+ String c r) = (ds, String c r).
Proof.
  intros Hd Hc. induction ds as [|d ds IH]; simpl.
  - rewrite Hc. reflexivity.
  - simpl in Hd. apply andb_prop in Hd as [Hd1 Hd2].
    rewrite Hd1, (IH Hd2). reflexivity.
Qed.

Lemma span_digits_all ds :
  forall_chars is_digit ds = true -> span is_digit ds = (ds, EmptyString).
Proof.
  induction ds as [|d ds IH]; simpl; [reflexivity|].
  intros [Hd1 Hd2]%andb_prop. rewrite Hd1, (IH Hd2). reflexivity.
Qed.

Lemma replace_digits a b ds :
  is_digit a = false -> forall_chars is_digit ds = true -> replace a b ds = ds.
Proof.
  intros Ha. induction ds as [|d ds IH]; simpl; [reflexivity|].
  intros [Hd1 Hd2]%andb_prop. unfold replace in *. simpl. rewrite (IH Hd2).
  destruct (Ascii.eqb d a) eqn:E; [|reflexivity].
  apply Ascii.eqb_eq in E. congruence.
Qed.

Lemma replace_app a b s t : replace a b (s +:+ t) = replace a b s +:+ replace a b t.
Proof.
  unfold replace. induction s as [|c r IH]; simpl; [reflexivity|].
  rewrite IH. reflexivity.
Qed.

Lemma digit_plain c :
  is_digit c = true ->
  negb (is_space c) = true /\ negb (Ascii.eqb c "_") = true.
Proof. ascii_cases c; intros _; split; reflexivity. Qed.

Lemma take_sign_digit c r :
  is_digit c = true -> take_sign (String c r) = (false, String c r).
Proof. ascii_cases c. Qed.

Lemma inf_or_nan_digit neg c r :
  is_digit c = true -> inf_or_nan neg (String c r) = None.
Proof. ascii_cases c. Qed.

(** A text made of digits, a point and digits is read by [float] as the
    decimal number it writes. *)
Lemma float_of_decimal i f :
  i <> EmptyString -> forall_chars is_digit i = true ->
  forall_chars is_digit f = true ->
  float_of_str (i +:+ String "." f)
  = Some (Finite (scale10 (digits_val (i +:+ f)) (- Z.of_nat (String.length f)))).
Proof.
  intros Hi Di Df.
  assert (Hplain : forall p, (forall c, is_digit c = true -> p c = true) ->
                             p "."%char = true ->
                             forall_chars p (i +:+ String "." f) = true).
  { intros p Hp Hdot. rewrite forall_chars_app. simpl. rewrite Hdot.
    rewrite !(forall_chars_impl is_digit p) by assumption. reflexivity. }
  unfold float_of_str, drop_underscores.
  rewrite drop_underscores_keeps;
    [| apply Hplain; [intros c Hc; apply digit_plain, Hc | reflexivity]
     | reflexivity].
  unfold strip, strip_by.
  rewrite lstrip_keeps, rstrip_keeps;
    try (apply Hplain; [intros c Hc; apply digit_plain, Hc | reflexivity]).
  destruct i as [|c i']; [congruence|].
  simpl in Di. apply andb_prop in Di as [Dc Di'].
  change (String c i' +:+ String "." f) with (String c (i' +:+ String "." f)).
  rewrite take_sign_digit, inf_or_nan_digit by assumption.
  unfold decimal. rewrite take_sign_digit by assumption.
  change (String c (i' +:+ String "." f)) with (String c i' +:+ String "." f).
  rewrite span_digits_stop; [| simpl; rewrite Dc, Di'; reflexivity | reflexivity].
  rewrite span_digits_all by assumption.
  simpl. f_equal.
Qed.

End GermanNumbers.

(** C3.  The number parser of the time-sheet importer returns [0.0] for a
    missing cell and for the empty text, without raising.  For any other
    text it is [float] of the text with every comma replaced by a point
    and nothing else done to it; so a text of digits, a comma and digits
    yields the decimal number it writes ([12,5] yields 12.5), and a text
    with a point as thousands separator is not understood ([1.234,50]
    becomes [1.234.50], which [float] rejects). *)
Theorem german_number_cases :
  Clockodo.parse_german_number None = Ok (Finite 0)
  /\ Clockodo.parse_german_number (Some EmptyString) = Ok (Finite 0)
  /\ (forall s : string,
      s <> EmptyString ->
      Clockodo.parse_german_number (Some s) = float (replace "," "." s))
  /\ (forall i f : string,
      i <> EmptyString -> f <> EmptyString ->
      forall_chars is_digit i = true -> forall_chars is_digit f = true ->
      Clockodo.parse_german_number (Some (i +:+ String "," f))
      = Ok (Finite (scale10 (digits_val (i +:+ f))
                            (- Z.of_nat (String.length f)))))
  /\ Clockodo.parse_german_number (Some "12,5") = Ok (Finite (25 # 2))
  /\ Clockodo.parse_german_number (Some "1.234,50") = Raise ValueError.
Proof.
  assert (Hgen : forall s : string, s <> EmptyString ->
            Clockodo.parse_german_number (Some s) = float (replace "," "." s)).
  { intros [|c r] Hs; [congruence|]. reflexivity. }
  repeat split; try reflexivity; try assumption.
  intros i f Hi Hf Di Df. rewrite Hgen by (destruct i; discriminate || congruence).
  rewrite replace_app. simpl.
  assert (E : replace "," "." (String "," f) = String "." f).
  { unfold replace. simpl. f_equal. apply (replace_digits "," "." f); auto. }
  rewrite E, (replace_digits "," "." i) by auto.
  unfold float. rewrite float_of_decimal by assumption. reflexivity.
Qed.

Lemma german_number_cases_witness :
  Clockodo.parse_german_number (Some "x") = float "x"
  /\ Clockodo.parse_german_number (Some "0,75") = Ok (Finite (3 # 4)).
Proof.
  destruct german_number_cases as (_ & _ & H1 & H2 & _).
  split.
  - apply (H1 "x"%string). discriminate.
  - apply (H2 "0"%string "75"%string); (discriminate || reflexivity).
Defined.

(* ===================================================================== *)
(** * The loop of the time-sheet importer *)
(* ===================================================================== *)

Section ClockodoLoop.

Lemma bind_raises {A B} (k : A -> M B) (m : M A) :
  (forall a, exists e w, k a = (Raise e, w)) ->
  exists e w, bind k m = (Raise e, w).
Proof.
  intros H. destruct m as [[a|e] o]; simpl; [|eauto].
  destruct (H a) as (e & w & ->). eauto.
Qed.

(** A row with a number cell that [float] rejects has no document. *)
Lemma bad_number_row now (row : raw_row) v :
  row !! "Stunden"%string = Some (Some v)
  \/ (exists u, row !! "Umsatz in EUR"%string = Some (Some u)
                /\ strip_quotes u = v) ->
  Clockodo.parse_german_number (Some v) = Raise ValueError ->
  exists e w, Clockodo.document_of_row now row = (Raise e, w).
Proof.
  intros Hs Hp. unfold Clockodo.document_of_row.
  do 6 (apply bind_raises; intros ?).
  destruct Hs as [Hs | (u & Hu & <-)].
  - unfold getitem. rewrite Hs. simpl. rewrite Hp. simpl. eauto.
  - apply bind_raises; intros ?.
    unfold getitem. rewrite Hu. simpl. rewrite Hp. simpl. eauto.
Qed.

(** An insertion adds the document at the end or leaves the documents as
    they are; the indexes stay. *)
Lemma insert_one_cases c d r c' :
  insert_one c d = (r, c') ->
  indexes c' = indexes c
  /\ ((r = Ok tt /\ docs c' = docs c ++ [d])
      \/ ((exists e, r = Raise e) /\ docs c' = docs c)).
Proof.
  unfold insert_one, next_fault.
  destruct (faults c) as [|f fs]; simpl.
  - destruct existsb; intros [= <- <-]; simpl; eauto.
  - destruct f; simpl; [intros [= <- <-]; simpl; eauto|].
    destruct existsb; intros [= <- <-]; simpl; eauto.
Qed.

Lemma clockodo_loop_app clock pre post : forall i st,
  Clockodo.rows_loop clock i (pre ++ post) st
  = match Clockodo.rows_loop clock i pre st with
    | (Ok _, st1) => Clockodo.rows_loop clock (i + length pre) post st1
    | (Raise e, st1) => (Raise e, st1)
    end.
Proof.
  induction pre as [|row pre IH]; intros i st; simpl.
  - rewrite Nat.add_0_r. reflexivity.
  - destruct (Clockodo.document_of_row (clock i) row) as [[doc|e] w];
      [|reflexivity].
    destruct (insert_one (Clockodo.sink st) doc) as [[[]|e] c]; [|reflexivity].
    rewrite IH. replace (S i + length pre)%nat with (i + S (length pre))%nat by lia.
    reflexivity.
Qed.

Lemma clockodo_loop_bound clock rows : forall i st r st',
  Clockodo.rows_loop clock i rows st = (r, st') ->
  (length (docs (Clockodo.sink st'))
   <= length (docs (Clockodo.sink st)) + length rows)%nat.
Proof.
  induction rows as [|row rows IH]; intros i st r st'; simpl.
  - intros [= <- <-]. lia.
  - destruct (Clockodo.document_of_row (clock i) row) as [[doc|e] w].
    + destruct (insert_one (Clockodo.sink st) doc) as [[[]|e] c] eqn:E;
        apply insert_one_cases in E as (_ & [[_ E] | [_ E]]).
      * intros H%IH. simpl in H. rewrite E, length_app in H. simpl in H. lia.
      * intros H%IH. simpl in H. rewrite E in H. lia.
      * intros [= <- <-]. simpl. rewrite E, length_app. simpl. lia.
      * intros [= <- <-]. simpl. rewrite E. lia.
    + intros [= <- <-]. simpl. lia.
Qed.

(** The loop stops at a row that has no document: the rows after it are
    not looked at. *)
Lemma clockodo_loop_stops clock pre row post i st :
  (forall now, exists e w, Clockodo.document_of_row now row = (Raise e, w)) ->
  exists e st',
    Clockodo.rows_loop clock i (pre ++ row :: post) st = (Raise e, st')
    /\ (length (docs (Clockodo.sink st'))
        <= length (docs (Clockodo.sink st)) + length pre)%nat.
Proof.
  intros Hbad. rewrite clockodo_loop_app.
  destruct (Clockodo.rows_loop clock i pre st) as [[[]|e] st1] eqn:E.
  - simpl. destruct (Hbad (clock (i + length pre)%nat)) as (e & w & ->).
    eexists _, _. split; [reflexivity|]. simpl.
    eapply clockodo_loop_bound, E.
  - eexists _, _. split; [reflexivity|]. eapply clockodo_loop_bound, E.
Qed.

End ClockodoLoop.

(** C4.  A text that is not empty and that [float] rejects once its commas
    are replaced by points makes the number parser of the time-sheet
    importer raise [ValueError]; it yields neither zero nor [None].  The
    exception is fatal for the run: a file that holds such a text in the
    hours or in the revenue column makes [import_clockodo_data] print the
    error and return [False], and no row from that one on is inserted.
    When the row is the first of the file and its other cells are in
    order, the error printed is this [ValueError] and the collection is
    left as it was. *)
Theorem german_number_error_is_fatal (v : string) :
  v <> EmptyString ->
  float_of_str (replace "," "." v) = None ->
  Clockodo.parse_german_number (Some v) = Raise ValueError
  /\ (forall clock pre (row : raw_row) post c,
      row !! "Stunden"%string = Some (Some v)
      \/ (exists u, row !! "Umsatz in EUR"%string = Some (Some u)
                    /\ strip_quotes u = v) ->
      exists e c' o,
        Clockodo.import_clockodo_data clock (pre ++ row :: post) c
        = (false, c', o ++ [PrintExn "Error importing data: " e])
        /\ (length (docs c') <= length (docs c) + length pre)%nat)
  /\ (forall clock (row : raw_row) post c k p m l e,
      row !! "Kunde"%string = Some (Some k) ->
      row !! "Projekt"%string = Some (Some p) ->
      row !! "Monat"%string = Some (Some m) ->
      row !! "Leistung"%string = Some (Some l) ->
      row !! "Mitarbeiter"%string = Some (Some e) ->
      row !! "Stunden"%string = Some (Some v) ->
      Clockodo.import_clockodo_data clock (row :: post) c
      = (false, c, [PrintExn "Error importing data: " ValueError])).
Proof.
  intros Hv Hf.
  assert (Hp : Clockodo.parse_german_number (Some v) = Raise ValueError).
  { destruct v as [|a r]; [congruence|].
    unfold Clockodo.parse_german_number, float. simpl falsy. simpl is_empty.
    simpl orb. rewrite Hf. reflexivity. }
  split; [exact Hp|split].
  - intros clock pre row post c Hrow.
    destruct (clockodo_loop_stops clock pre row post 0
                (Clockodo.mk_state c 0 [])) as (e & st' & E & Hlen).
    { intros now. eapply bad_number_row; eassumption. }
    unfold Clockodo.import_clockodo_data. rewrite E.
    eexists _, _, _. split; [reflexivity|exact Hlen].
  - intros clock row post c k p m l e Hk Hpj Hm Hl He Hs.
    unfold Clockodo.import_clockodo_data. simpl.
    unfold Clockodo.document_of_row, getitem.
    rewrite Hk, Hpj, Hm, Hl, He, Hs. simpl. rewrite Hp.
    unfold Clockodo.parse_month.
    destruct (strptime m "%Y-%m") as [d|x] eqn:E.
    + simpl. destruct c; reflexivity.
    + apply strptime_raises in E. subst x. simpl. destruct c; reflexivity.
Qed.

Lemma german_number_error_is_fatal_witness :
  Clockodo.parse_german_number (Some "1.234,50") = Raise ValueError
  /\ Clockodo.import_clockodo_data (fun _ => epoch)
       [ sheet_row "ACME" "Web" "2025-09" "Dev" "Ann" "1.234,50" "10";
         sheet_row "ACME" "Web" "2025-09" "Dev" "Bob" "8" "10" ]
       empty_collection
     = (false, empty_collection,
        [PrintExn "Error importing data: " ValueError]).
Proof.
  destruct (german_number_error_is_fatal "1.234,50")
    as (H1 & _ & H3); [discriminate | reflexivity |].
  split; [exact H1|].
  eapply H3; reflexivity.
Defined.

(* ===================================================================== *)
(** * Running the time-sheet import on a collection that accepts inserts *)
(* ===================================================================== *)

Section ClockodoRuns.

Lemma same_outcome_bind {A B} (k1 k2 : A -> M B) (m : M A) :
  (forall a, same_outcome (k1 a) (k2 a)) ->
  same_outcome (bind k1 m) (bind k2 m).
Proof.
  intros H. destruct m as [[a|e] o]; simpl; [|auto].
  specialize (H a). unfold same_outcome in *.
  destruct (k1 a) as [[b1|e1] w1], (k2 a) as [[b2|e2] w2];
    simpl; try tauto; [congruence|].
  destruct H as [-> ->]. auto.
Qed.

(** Whether a row has a document does not depend on the clock. *)
Lemma document_of_row_clock t1 t2 row :
  same_outcome (Clockodo.document_of_row t1 row)
               (Clockodo.document_of_row t2 row).
Proof.
  unfold Clockodo.document_of_row.
  do 8 (apply same_outcome_bind; intros ?). reflexivity.
Qed.

Lemma leading_all rows : forallb converts rows = true -> leading rows = length rows.
Proof.
  induction rows as [|row rows IH]; simpl; [reflexivity|].
  intros [-> H]%andb_prop. rewrite IH by assumption. reflexivity.
Qed.

Lemma insert_one_accepted c d :
  accepts_all c ->
  insert_one c d = (Ok tt, mk_collection (docs c ++ [d]) (indexes c) []).
Proof.
  intros [Hf Hix]. unfold insert_one, next_fault. rewrite Hf.
  replace (existsb _ (indexes c)) with false; [simpl; rewrite Hf; reflexivity|].
  symmetry. apply not_true_is_false. intros (ix & Hin & H)%existsb_exists.
  rewrite Forall_forall in Hix. apply list_elem_of_In in Hin.
  rewrite (Hix ix Hin) in H. discriminate.
Qed.

Lemma clockodo_loop_count clock rows : forall i st,
  accepts_all (Clockodo.sink st) ->
  exists r st',
    Clockodo.rows_loop clock i rows st = (r, st')
    /\ accepts_all (Clockodo.sink st')
    /\ length (docs (Clockodo.sink st'))
       = (length (docs (Clockodo.sink st)) + leading rows)%nat.
Proof.
  induction rows as [|row rows IH]; intros i st Hacc; simpl.
  - eexists _, _. split; [reflexivity|]. split; [assumption|lia].
  - pose proof (document_of_row_clock (clock i) epoch row) as Hsame.
    unfold converts, same_outcome in *.
    destruct (Clockodo.document_of_row (clock i) row) as [[doc|e] w],
             (Clockodo.document_of_row epoch row) as [[doc'|e'] w'];
      try tauto.
    + rewrite insert_one_accepted by assumption.
      destruct (IH (S i) (Clockodo.mk_state
                            (mk_collection (docs (Clockodo.sink st) ++ [doc])
                                           (indexes (Clockodo.sink st)) [])
                            (S (Clockodo.imported_count st))
                            (Clockodo.out st ++ w
                             ++ Clockodo.progress (S (Clockodo.imported_count st)))))
        as (r & st' & E & Hacc' & Hlen).
      { destruct Hacc as [_ Hix]. split; [reflexivity | exact Hix]. }
      exists r, st'. split; [exact E|]. split; [assumption|].
      rewrite Hlen. simpl. rewrite length_app. simpl. lia.
    + eexists _, _. split; [reflexivity|]. simpl. split; [assumption|lia].
Qed.

Lemma import_clockodo_count clock rows c :
  accepts_all c ->
  accepts_all (Clockodo.import_clockodo_data clock rows c).1.2
  /\ length (docs (Clockodo.import_clockodo_data clock rows c).1.2)
     = (length (docs c) + leading rows)%nat.
Proof.
  intros Hacc. unfold Clockodo.import_clockodo_data.
  destruct (clockodo_loop_count clock rows 0 (Clockodo.mk_state c 0 []) Hacc)
    as (r & st' & -> & Hacc' & Hlen).
  destruct r; simpl; auto.
Qed.

End ClockodoRuns.

(** C9.  The time-sheet import never looks for duplicates.  On a
    collection that accepts every insert (no transport fault, no unique
    index; the script registers none), importing the same file a second
    time adds as many documents as the first time, so that two runs add
    exactly twice what one run adds; and when every row of the file has a
    document, each run adds one document per row. *)
Theorem clockodo_rerun_doubles clock1 clock2 (rows : list raw_row) c :
  faults c = [] ->
  Forall (fun ix => ix_unique ix = false) (indexes c) ->
  let c1 := (Clockodo.import_clockodo_data clock1 rows c).1.2 in
  let c2 := (Clockodo.import_clockodo_data clock2 rows c1).1.2 in
  (length (docs c2) - length (docs c)
   = 2 * (length (docs c1) - length (docs c)))%nat
  /\ (forallb converts rows = true ->
      length (docs c1) = (length (docs c) + length rows)%nat
      /\ length (docs c2) = (length (docs c) + 2 * length rows)%nat).
Proof.
  intros Hf Hix c1 c2.
  destruct (import_clockodo_count clock1 rows c) as [Hacc1 Hlen1];
    [split; assumption|].
  destruct (import_clockodo_count clock2 rows c1) as [_ Hlen2];
    [exact Hacc1|].
  fold c1 in Hlen1. fold c2 in Hlen2. split; [lia|].
  intros Hall. rewrite (leading_all rows Hall) in *. lia.
Qed.

Lemma clockodo_rerun_doubles_witness :
  let rows := [ sheet_row "ACME" "Web" "2025-09" "Dev" "Ann" "7,5" "750,00";
                sheet_row "ACME" "Web" "2025-09" "Dev" "Bob" "" "0" ] in
  let c1 := (Clockodo.import_clockodo_data (fun _ => epoch) rows
               empty_collection).1.2 in
  let c2 := (Clockodo.import_clockodo_data (fun _ => epoch) rows c1).1.2 in
  length (docs c1) = 2%nat /\ length (docs c2) = 4%nat.
Proof.
  intros rows c1 c2.
  destruct (clockodo_rerun_doubles (fun _ => epoch) (fun _ => epoch) rows
              empty_collection) as [_ H].
  - reflexivity.
  - constructor.
  - apply H. vm_compute. reflexivity.
Defined.

(* ===================================================================== *)
(** * What the two transformers put into a document *)
(* ===================================================================== *)

Section Transformers.

Lemma bind_ok {A B} (k : A -> M B) (m : M A) b w :
  bind k m = (Ok b, w) ->
  exists a w1 w2, m = (Ok a, w1) /\ k a = (Ok b, w2) /\ w = w1 ++ w2.
Proof.
  destruct m as [[a|e] o]; simpl; [|discriminate].
  destruct (k a) as [r o'] eqn:E. intros [= -> <-]. eauto 6.
Qed.

Lemma lift_ok {A} (r : result A) a w : lift r = (Ok a, w) -> r = Ok a /\ w = [].
Proof. unfold lift. intros [= -> <-]. auto. Qed.

Lemma getitem_ok (row : raw_row) key cell :
  getitem row key = Ok cell -> row !! key = Some cell.
Proof. unfold getitem. destruct (row !! key); congruence. Qed.

Lemma and_then_ok {A B} (k : A -> result B) r b :
  and_then k r = Ok b -> exists a, r = Ok a /\ k a = Ok b.
Proof. destruct r; simpl; [eauto | discriminate]. Qed.

Lemma text_ok row key v w :
  Deals.text row key = (Ok v, w) ->
  exists cell, row !! key = Some cell /\ v = of_str cell.
Proof.
  unfold Deals.text. intros (cell & w1 & w2 & H1 & H2 & _)%bind_ok.
  apply lift_ok in H1 as [H1%getitem_ok _]. injection H2 as <- _. eauto.
Qed.

Lemma number_ok row key v w :
  Deals.number row key = (Ok v, w) ->
  exists cell x w', row !! key = Some cell
                    /\ Deals.parse_number cell = (Ok x, w') /\ v = of_float x.
Proof.
  unfold Deals.number. intros (cell & w1 & w2 & H1 & H2 & _)%bind_ok.
  apply lift_ok in H1 as [H1%getitem_ok _].
  apply bind_ok in H2 as (x & w3 & w4 & H2 & H3 & _).
  injection H3 as <- _. eauto 6.
Qed.

Lemma date_ok row key v w :
  Deals.date row key = (Ok v, w) ->
  exists cell d w', row !! key = Some cell
                    /\ Deals.parse_date cell = (Ok d, w') /\ v = of_date d.
Proof.
  unfold Deals.date. intros (cell & w1 & w2 & H1 & H2 & _)%bind_ok.
  apply lift_ok in H1 as [H1%getitem_ok _].
  apply bind_ok in H2 as (x & w3 & w4 & H2 & H3 & _).
  injection H3 as <- _. eauto 6.
Qed.

(** Every field of a deal document is its cell, verbatim. *)
Lemma transform_deal_row_verbatim now row doc w :
  Deals.transform_deal_row now row = (Ok doc, w) ->
  Forall (verbatim row doc) deal_columns.
Proof.
  unfold Deals.transform_deal_row. intros H.
  repeat match type of H with
  | bind _ _ = _ =>
      let Hx := fresh "Hx" in
      apply bind_ok in H as (? & ? & ? & Hx & H & _);
      first [ apply text_ok in Hx as (? & ? & ->)
            | apply number_ok in Hx as (? & ? & ? & ? & ? & ->)
            | apply date_ok in Hx as (? & ? & ? & ? & ? & ->) ]
  end.
  injection H as <- _.
  repeat constructor; simpl;
    (eexists; split; [eassumption|]); try reflexivity;
    (eexists _, _; split; [eassumption|reflexivity]).
Qed.

End Transformers.

(* ===================================================================== *)
(** * Quote characters *)
(* ===================================================================== *)

Section Quotes.

Lemma lstrip_spec p s :
  exists a, s = a +:+ lstrip p s /\ forall_chars p a = true
            /\ (forall c, first_char (lstrip p s) = Some c -> p c = false).
Proof.
  induction s as [|c r (a & Ha & Hp & Hf)]; simpl.
  - exists EmptyString. repeat split. discriminate.
  - destruct (p c) eqn:E.
    + exists (String c a). simpl. rewrite E, Hp.
      change (String c a +:+ lstrip p r) with (String c (a +:+ lstrip p r)).
      split; [congruence|auto].
    + exists EmptyString. repeat split. simpl. congruence.
Qed.

Lemma rstrip_spec p s :
  exists b, s = rstrip p s +:+ b /\ forall_chars p b = true
            /\ (forall c, last_char (rstrip p s) = Some c -> p c = false)
            /\ (rstrip p s <> EmptyString ->
                first_char (rstrip p s) = first_char s).
Proof.
  induction s as [|c r (b & Hb & Hp & Hl & Hf)]; simpl.
  - exists EmptyString. repeat split; congruence.
  - destruct (rstrip p r) as [|x y] eqn:E.
    + change (r = b) in Hb. subst b. destruct (p c) eqn:Ec.
      * exists (String c r). simpl. rewrite Ec, Hp.
        repeat split; congruence.
      * exists r. repeat split; try congruence. simpl. congruence.
    + exists b.
      change (String c (String x y) +:+ b) with (String c (String x y +:+ b)).
      repeat split; try congruence. destruct y; apply Hl.
Qed.

(** [strip_by p] takes away a run of [p]-characters at each end, and what
    is left neither starts nor ends with one. *)
Lemma strip_by_spec p s :
  exists a b,
    s = a +:+ strip_by p s +:+ b
    /\ forall_chars p a = true /\ forall_chars p b = true
    /\ (forall c, first_char (strip_by p s) = Some c -> p c = false)
    /\ (forall c, last_char (strip_by p s) = Some c -> p c = false).
Proof.
  unfold strip_by.
  destruct (lstrip_spec p s) as (a & Ha & Hpa & Hfa).
  destruct (rstrip_spec p (lstrip p s)) as (b & Hb & Hpb & Hlb & Hfb).
  exists a, b. repeat split; try assumption.
  - rewrite <- Hb. exact Ha.
  - intros c Hc. apply Hfa. rewrite <- Hfb; [exact Hc|].
    intros E. rewrite E in Hc. discriminate.
Qed.

Lemma strip_cell_ok v s :
  Clockodo.strip_cell v = Ok s -> exists t, v = Some t /\ s = strip_quotes t.
Proof. destruct v; simpl; [intros [= <-]; eauto | discriminate]. Qed.

Lemma stripped_cell_ok (row : raw_row) key s w :
  lift (and_then Clockodo.strip_cell (getitem row key)) = (Ok s, w) ->
  exists t, row !! key = Some (Some t) /\ s = strip_quotes t.
Proof.
  intros [(v & Hv%getitem_ok & (t & -> & ->)%strip_cell_ok)%and_then_ok _]%lift_ok.
  eauto.
Qed.

End Quotes.

(** C1, as the code has it.  In a time-sheet document the customer,
    project, service and employee are the cells of the row with every
    leading and every trailing quote character removed (all of them, not
    one layer, and nothing but quote characters); the revenue is parsed
    from its cell stripped in the same way; the month label is the cell
    as it is, and the hours are parsed from the cell as it is.  In a deal
    document every field is the cell as it is: the text itself, or the
    number or date parsed from that very text. *)
Theorem quote_stripping :
  (forall now (row : raw_row) doc w,
      Clockodo.document_of_row now row = (Ok doc, w) ->
      exists k p m l e h u x y,
        row !! "Kunde"%string = Some (Some k)
        /\ row !! "Projekt"%string = Some (Some p)
        /\ row !! "Monat"%string = Some (Some m)
        /\ row !! "Leistung"%string = Some (Some l)
        /\ row !! "Mitarbeiter"%string = Some (Some e)
        /\ row !! "Stunden"%string = Some h
        /\ row !! "Umsatz in EUR"%string = Some (Some u)
        /\ field "kunde" doc = Some (VStr (strip_quotes k))
        /\ field "projekt" doc = Some (VStr (strip_quotes p))
        /\ field "monat" doc = Some (VStr m)
        /\ field "leistung" doc = Some (VStr (strip_quotes l))
        /\ field "mitarbeiter" doc = Some (VStr (strip_quotes e))
        /\ Clockodo.parse_german_number h = Ok x
        /\ field "stunden" doc = Some (VFloat x)
        /\ Clockodo.parse_german_number (Some (strip_quotes u)) = Ok y
        /\ field "umsatz_eur" doc = Some (VFloat y))
  /\ (forall s : string,
      exists a b,
        s = a +:+ strip_quotes s +:+ b
        /\ forall_chars is_quote a = true /\ forall_chars is_quote b = true
        /\ (forall c, first_char (strip_quotes s) = Some c -> c <> dquote)
        /\ (forall c, last_char (strip_quotes s) = Some c -> c <> dquote))
  /\ (forall now (row : raw_row) doc w,
      Deals.transform_deal_row now row = (Ok doc, w) ->
      Forall (verbatim row doc) deal_columns).
Proof.
  split; [|split].
  - intros now row doc w H. unfold Clockodo.document_of_row in H.
    apply bind_ok in H as (k' & ? & ? & (k & Hk & ->)%stripped_cell_ok & H & _).
    apply bind_ok in H as (p' & ? & ? & (p & Hp & ->)%stripped_cell_ok & H & _).
    apply bind_ok in H as (m' & ? & ? & [Hm%getitem_ok _]%lift_ok & H & _).
    apply bind_ok in H as (md & ? & ? & Hmd & H & _).
    apply bind_ok in H as (l' & ? & ? & (l & Hl & ->)%stripped_cell_ok & H & _).
    apply bind_ok in H as (e' & ? & ? & (e & He & ->)%stripped_cell_ok & H & _).
    apply bind_ok in H as (nh & ? & ? & [Hx _]%lift_ok & H & _).
    apply bind_ok in H as (nu & ? & ? & [Hy _]%lift_ok & H & _).
    injection H as <- _.
    apply and_then_ok in Hx as (h & Hh%getitem_ok & Hx).
    apply and_then_ok in Hy as (u' & Hu' & Hy).
    apply and_then_ok in Hu' as (uc & Hu%getitem_ok & (u & -> & ->)%strip_cell_ok).
    apply bind_ok in Hmd as (mc & ? & ? & [Hmc%getitem_ok _]%lift_ok & Hmd & _).
    assert (mc = m') as -> by congruence.
    destruct m' as [m|]; [|discriminate].
    exists k, p, m, l, e, h, u, nh, nu. repeat split; assumption || reflexivity.
  - intros s. destruct (strip_by_spec is_quote s) as (a & b & H1 & H2 & H3 & H4 & H5).
    exists a, b. repeat split; try assumption.
    + intros c Hc ->. apply H4 in Hc. discriminate.
    + intros c Hc ->. apply H5 in Hc. discriminate.
  - apply transform_deal_row_verbatim.
Qed.

Lemma quote_stripping_witness :
  match Clockodo.document_of_row epoch
          (sheet_row (qq "ACME") "Web" "2025-09" "Dev" "Ann" "8" (qq "10,5"))
  with
  | (Ok doc, _) =>
      field "kunde" doc = Some (VStr "ACME")
      /\ field "umsatz_eur" doc = Some (VFloat (Finite (21 # 2)))
  | (Raise _, _) => False
  end
  /\ match Deals.transform_deal_row epoch
             (deal_row "17" (qq "Big deal") "100" "2025-09-05")
     with
     | (Ok doc, _) => field "title" doc = Some (VStr (qq "Big deal"))
     | (Raise _, _) => False
     end.
Proof.
  destruct quote_stripping as (H1 & _ & H3). split.
  - destruct (Clockodo.document_of_row epoch _) as [[doc|x] w] eqn:E.
    + destruct (H1 _ _ _ _ E)
        as (k & p & m & l & e & h & u & x & y & Hk & _ & _ & _ & _ & _ & Hu
            & Fk & _ & _ & _ & _ & _ & _ & Py & Fu).
      vm_compute in Hk. injection Hk as <-.
      vm_compute in Hu. injection Hu as <-.
      vm_compute in Py. injection Py as <-.
      split; [exact Fk | exact Fu].
    + vm_compute in E. discriminate E.
  - destruct (Deals.transform_deal_row epoch _) as [[doc|x] w] eqn:E.
    + pose proof (H3 _ _ _ _ E) as Hall.
      apply Forall_cons in Hall as [(cell & Hc & Ht) _].
      vm_compute in Hc. injection Hc as <-. exact Ht.
    + vm_compute in E. discriminate E.
Defined.

(** C1 as the specification words it (exactly one layer of quote
    characters goes) fails on a cell within two layers of quote
    characters: both layers go. *)
Lemma one_layer_refuted :
  let k := qq (qq "a") in
  exists doc w,
    Clockodo.document_of_row epoch
      (sheet_row k "Web" "2025-09" "Dev" "Ann" "8" "10") = (Ok doc, w)
    /\ field "kunde" doc = Some (VStr "a")
    /\ strip_one_layer k = qq "a"
    /\ field "kunde" doc <> Some (VStr (strip_one_layer k)).
Proof.
  vm_compute. eexists _, _. split; [reflexivity|].
  repeat split. discriminate.
Qed.

(* ===================================================================== *)
(** * The loop of the deal importer *)
(* ===================================================================== *)

Section DealLoop.

Lemma deal_id_field doc id :
  Deals.deal_id doc = Some id <->
  field "deal_id" doc = Some (VStr id) /\ id <> EmptyString.
Proof.
  unfold Deals.deal_id. split.
  - destruct (field "deal_id" doc) as [[|[|c r]| |]|]; try discriminate.
    intros [= <-]. split; [reflexivity|discriminate].
  - intros [-> Hid]. destruct id; [congruence|reflexivity].
Qed.

Lemma find_one_cases c k v r c1 :
  find_one c k v = (r, c1) ->
  docs c1 = docs c /\ indexes c1 = indexes c
  /\ (r = Ok None -> forall d, d ∈ docs c -> field k d <> Some v)
  /\ (faults c = [] ->
      c1 = c /\ r = Ok (List.find (fun d => bool_decide (field k d = Some v)) (docs c))).
Proof.
  unfold find_one, next_fault.
  destruct (faults c) as [|f fs] eqn:Ef; simpl.
  - intros [= <- <-]. repeat split; auto.
    intros [= Hfind] d Hd Hv. apply list_elem_of_In in Hd.
    eapply find_none in Hfind; [|exact Hd]. simpl in Hfind.
    rewrite bool_decide_eq_false in Hfind. contradiction.
  - destruct f; simpl; intros [= <- <-]; simpl; repeat split;
      try discriminate.
    intros [= Hfind] d Hd Hv. apply list_elem_of_In in Hd.
    eapply find_none in Hfind; [|exact Hd]. simpl in Hfind.
    rewrite bool_decide_eq_false in Hfind. contradiction.
Qed.

Lemma ids_app ds1 ds2 : ids (ds1 ++ ds2) = ids ds1 ++ ids ds2.
Proof. apply omap_app. Qed.

Lemma in_ids id ds :
  id ∈ ids ds -> exists d, d ∈ ds /\ field "deal_id" d = Some (VStr id).
Proof.
  unfold ids. rewrite list_elem_of_omap. intros (d & Hd & Hid).
  apply deal_id_field in Hid as [Hid _]. eauto.
Qed.

(** An insertion keeps the non-empty identifiers distinct when the new
    document has none or a new one. *)
Lemma insert_deal_ids doc st :
  NoDup (ids (docs (Deals.sink st))) ->
  (forall id, Deals.deal_id doc = Some id ->
              forall d, d ∈ docs (Deals.sink st) ->
                        field "deal_id" d <> Some (VStr id)) ->
  NoDup (ids (docs (Deals.sink (Deals.insert_deal doc st)))).
Proof.
  intros Hnd Hnew. unfold Deals.insert_deal.
  destruct (insert_one (Deals.sink st) doc) as [[[]|e] c] eqn:E;
    apply insert_one_cases in E as (_ & [[_ E] | [_ E]]); simpl; rewrite E;
    try assumption.
  all: rewrite ids_app; unfold ids at 2; simpl.
  all: destruct (Deals.deal_id doc) as [id|] eqn:Eid; simpl;
    [|rewrite app_nil_r; assumption].
  all: apply NoDup_app; split; [assumption|]; split; [|apply NoDup_singleton].
  all: intros x Hx ->%list_elem_of_singleton.
  all: apply in_ids in Hx as (d & Hd & Hf); exact (Hnew id eq_refl d Hd Hf).
Qed.

Lemma process_row_ids now row st :
  NoDup (ids (docs (Deals.sink st))) ->
  NoDup (ids (docs (Deals.sink (Deals.process_row now row st)))).
Proof.
  intros Hnd. unfold Deals.process_row.
  destruct (Deals.transform_deal_row now row) as [[doc|e] w]; [|assumption].
  destruct (Deals.deal_id doc) as [id|] eqn:Eid.
  - simpl.
    destruct (find_one (Deals.sink st) "deal_id" (VStr id)) as [[[d|]|e] c] eqn:E;
      apply find_one_cases in E as (Hd & _ & Hnone & _); simpl;
      try (rewrite Hd; assumption).
    apply insert_deal_ids; simpl; rewrite Hd; [assumption|].
    intros id' Hid'. assert (id' = id) as -> by congruence.
    apply Hnone. reflexivity.
  - apply insert_deal_ids; simpl; [assumption|]. congruence.
Qed.

Lemma deal_loop_ids clock rows : forall i st,
  NoDup (ids (docs (Deals.sink st))) ->
  NoDup (ids (docs (Deals.sink (Deals.rows_loop clock i rows st)))).
Proof.
  induction rows as [|row rows IH]; intros i st H; simpl; [assumption|].
  apply IH, process_row_ids, H.
Qed.

(** Registering an index keeps the documents and the indexes there are;
    a unique index is only registered over distinct keys. *)
Lemma create_index_ok c ix c' :
  create_index c ix = (Ok tt, c') ->
  docs c' = docs c /\ ix ∈ indexes c'
  /\ (forall j, j ∈ indexes c -> j ∈ indexes c')
  /\ (ix_unique ix = true -> has_clash ix (docs c) = false).
Proof.
  unfold create_index, next_fault.
  assert (Hgen : forall fs,
    (if ix_unique ix && has_clash ix (docs c)
     then (Raise DuplicateKeyError, mk_collection (docs c) (indexes c) fs)
     else if bool_decide (ix ∈ indexes c)
          then (Ok tt, mk_collection (docs c) (indexes c) fs)
          else (Ok tt, mk_collection (docs c) (indexes c ++ [ix]) fs))
    = (Ok tt, c') ->
    docs c' = docs c /\ ix ∈ indexes c'
    /\ (forall j, j ∈ indexes c -> j ∈ indexes c')
    /\ (ix_unique ix = true -> has_clash ix (docs c) = false)).
  { intros fs. destruct (ix_unique ix && has_clash ix (docs c)) eqn:Eu;
      [discriminate|].
    assert (Hu : ix_unique ix = true -> has_clash ix (docs c) = false).
    { intros Hx. rewrite Hx in Eu. exact Eu. }
    destruct (bool_decide (ix ∈ indexes c)) eqn:Ein; intros [= <-]; simpl.
    - apply bool_decide_eq_true in Ein. auto.
    - repeat split; auto; set_solver. }
  destruct (faults c) as [|f fs]; simpl.
  - destruct c as [ds ixs fs]. simpl in *. apply Hgen.
  - destruct f; [discriminate|]. apply Hgen.
Qed.

Lemma create_indexes_ok ixs : forall c c',
  Deals.create_indexes ixs c = (Ok tt, c') ->
  docs c' = docs c
  /\ (forall j, j ∈ indexes c -> j ∈ indexes c')
  /\ (forall ix, ix ∈ ixs ->
                 ix ∈ indexes c'
                 /\ (ix_unique ix = true -> has_clash ix (docs c) = false)).
Proof.
  induction ixs as [|ix ixs IH]; intros c c'; simpl.
  - intros [= <-]. repeat split; auto; inversion H.
  - destruct (create_index c ix) as [[[]|e] c1] eqn:E; [|discriminate].
    apply create_index_ok in E as (Hd & Hin & Hsub & Hu).
    intros (Hd' & Hsub' & Hall)%IH. split; [congruence|]. split; [auto|].
    intros j [->|Hj]%elem_of_cons; [auto|].
    destruct (Hall j Hj) as [Hj1 Hj2]. rewrite <- Hd. auto.
Qed.

End DealLoop.



(* ===================================================================== *)
(** * The existence check of the deal importer *)
(* ===================================================================== *)

Section ExistenceCheck.

(** The identifier field of a deal document is the identifier cell. *)
Lemma transform_deal_row_id now (row : raw_row) doc w cell :
  Deals.transform_deal_row now row = (Ok doc, w) ->
  row !! "Deal - ID"%string = Some cell ->
  field "deal_id" doc = Some (of_str cell).
Proof.
  intros Ht Hc. apply transform_deal_row_verbatim in Ht.
  rewrite Forall_lookup in Ht.
  destruct (Ht 14%nat ("deal_id", "Deal - ID", Text)%string eq_refl)
    as (cell' & Hc' & Hf).
  congruence.
Qed.

Lemma count_id_app id ds1 ds2 :
  count_id id (ds1 ++ ds2) = (count_id id ds1 + count_id id ds2)%nat.
Proof. unfold count_id. rewrite List.filter_app, length_app. reflexivity. Qed.

Lemma count_id_zero id ds :
  count_id id ds = 0%nat ->
  forall d, d ∈ ds -> field "deal_id" d <> Some (VStr id).
Proof.
  unfold count_id. induction ds as [|x ds IH]; simpl; intros H d Hd.
  - inversion Hd.
  - destruct (bool_decide (field "deal_id" x = Some (VStr id))) eqn:E;
      [discriminate|].
    apply bool_decide_eq_false in E.
    apply elem_of_cons in Hd as [->|Hd]; auto.
Qed.

Lemma find_absent k v ds :
  (forall d, d ∈ ds -> field k d <> Some v) ->
  List.find (fun d => bool_decide (field k d = Some v)) ds = None.
Proof.
  intros H. induction ds as [|x ds IH]; simpl; [reflexivity|].
  rewrite bool_decide_eq_false_2 by (apply H; left).
  apply IH. intros d Hd. apply H. right. exact Hd.
Qed.

Lemma find_present k v ds d :
  d ∈ ds -> field k d = Some v ->
  exists d', List.find (fun d => bool_decide (field k d = Some v)) ds = Some d'.
Proof.
  intros Hd Hf.
  destruct (List.find _ ds) as [d'|] eqn:E; [eauto|].
  apply list_elem_of_In in Hd. eapply find_none in E; [|exact Hd].
  simpl in E. apply bool_decide_eq_false in E. contradiction.
Qed.

(** A collection that is [accepting] takes a document whose identifier no
    document has yet. *)
Lemma insert_one_fresh c doc id :
  accepting c ->
  field "deal_id" doc = Some (VStr id) ->
  (forall d, d ∈ docs c -> field "deal_id" d <> Some (VStr id)) ->
  insert_one c doc = (Ok tt, mk_collection (docs c ++ [doc]) (indexes c) []).
Proof.
  intros [Hf Hix] Hid Hnew. unfold insert_one, next_fault. rewrite Hf.
  replace (existsb _ (indexes c)) with false;
    [simpl; rewrite Hf; reflexivity|].
  symmetry. apply not_true_is_false.
  intros (ix & Hin & [Hu Hclash]%andb_prop)%existsb_exists.
  rewrite Forall_forall in Hix. apply list_elem_of_In in Hin.
  specialize (Hix ix Hin Hu). unfold clash, indexed in Hclash.
  rewrite Hix, Hid in Hclash.
  apply existsb_exists in Hclash as (d & Hd & Hk).
  apply bool_decide_eq_true in Hk. apply list_elem_of_In in Hd.
  apply (Hnew d Hd). destruct (field "deal_id" d) as [v|]; [congruence|].
  destruct (ix_sparse ix); discriminate.
Qed.

End ExistenceCheck.



(** Once the unique index of an earlier run is registered, the store
    itself refuses a second document with an empty identifier: the row is
    reported as an error, it is neither inserted nor counted as skipped. *)
Example empty_id_after_index :
  let nameless := deal_row "" "Small deal" "1" "2025-09-05" in
  let first := Deals.main (fun _ => epoch) [nameless] empty_collection in
  let again := Deals.rows_loop (fun _ => epoch) 0 [nameless]
                 (Deals.mk_state (Deals.sink first.2) 0 0 []) in
  first.1 = true
  /\ length (docs (Deals.sink again)) = 1%nat
  /\ Deals.imported_count again = 0%nat
  /\ Deals.skipped_count again = 0%nat
  /\ Deals.out again = [Deals.row_error DuplicateKeyError].
Proof. vm_compute. repeat split. Qed.

Section Idempotency.

Lemma count_documents_docs c r c1 :
  count_documents c = (r, c1) -> docs c1 = docs c /\ indexes c1 = indexes c.
Proof.
  unfold count_documents, next_fault.
  destruct (faults c) as [|[] fs]; simpl; intros [= <- <-]; auto.
Qed.

(** A non-empty identifier that the collection does not hold yet: the row
    is inserted. *)
Lemma process_row_new now (row : raw_row) doc w id st :
  id <> EmptyString ->
  row !! "Deal - ID"%string = Some (Some id) ->
  Deals.transform_deal_row now row = (Ok doc, w) ->
  accepting (Deals.sink st) ->
  count_id id (docs (Deals.sink st)) = 0%nat ->
  Deals.process_row now row st
  = Deals.mk_state
      (mk_collection (docs (Deals.sink st) ++ [doc])
                     (indexes (Deals.sink st)) [])
      (S (Deals.imported_count st)) (Deals.skipped_count st)
      ((Deals.out st ++ w) ++ Deals.progress (S (Deals.imported_count st)))
  /\ field "deal_id" doc = Some (VStr id).
Proof.
  intros Hid Hrow Ht Hacc Hnew.
  pose proof (transform_deal_row_id _ _ _ _ _ Ht Hrow) as Hf. simpl in Hf.
  assert (Hdid : Deals.deal_id doc = Some id) by (apply deal_id_field; auto).
  pose proof (count_id_zero _ _ Hnew) as Habs.
  split; [|exact Hf].
  unfold Deals.process_row. rewrite Ht, Hdid. simpl.
  destruct (find_one (Deals.sink st) "deal_id" (VStr id)) as [r c1] eqn:E.
  apply find_one_cases in E as (_ & _ & _ & E).
  destruct (E (proj1 Hacc)) as [-> ->].
  rewrite find_absent by exact Habs.
  unfold Deals.insert_deal. simpl.
  rewrite (insert_one_fresh _ _ id Hacc Hf Habs). reflexivity.
Qed.

(** A non-empty identifier that the collection holds: the row is
    skipped. *)
Lemma process_row_known now (row : raw_row) doc w id st d :
  id <> EmptyString ->
  row !! "Deal - ID"%string = Some (Some id) ->
  Deals.transform_deal_row now row = (Ok doc, w) ->
  faults (Deals.sink st) = [] ->
  d ∈ docs (Deals.sink st) -> field "deal_id" d = Some (VStr id) ->
  Deals.process_row now row st
  = Deals.mk_state (Deals.sink st) (Deals.imported_count st)
      (S (Deals.skipped_count st))
      ((Deals.out st ++ w)
       ++ [Print ("Deal with ID " +:+ id +:+ " already exists, skipping")]).
Proof.
  intros Hid Hrow Ht Hflt Hd Hfd.
  pose proof (transform_deal_row_id _ _ _ _ _ Ht Hrow) as Hf. simpl in Hf.
  assert (Hdid : Deals.deal_id doc = Some id) by (apply deal_id_field; auto).
  unfold Deals.process_row. rewrite Ht, Hdid. simpl.
  destruct (find_one (Deals.sink st) "deal_id" (VStr id)) as [r c1] eqn:E.
  apply find_one_cases in E as (_ & _ & _ & E).
  destruct (E Hflt) as [-> ->].
  destruct (find_present "deal_id" (VStr id) _ d Hd Hfd) as (d' & ->).
  reflexivity.
Qed.

End Idempotency.

(** C2, as the code has it.  Importing two rows with the same {e non-empty}
    deal identifier, into a collection that has no pending fault, no
    unique index other than the one on the identifier and no document with
    that identifier, leaves exactly one document with it: the first row is
    inserted, the second is counted as skipped and reported as existing,
    not as an error.  The existence check keeps the non-empty identifiers
    of the collection distinct, whatever the rows and whatever fails; and
    a run that ends normally has registered the unique index on the
    identifier, over keys that are all distinct. *)
Theorem deal_id_idempotent :
  (forall clock i (r1 r2 : raw_row) doc1 w1 doc2 w2 id st,
      id <> EmptyString ->
      r1 !! "Deal - ID"%string = Some (Some id) ->
      r2 !! "Deal - ID"%string = Some (Some id) ->
      Deals.transform_deal_row (clock i) r1 = (Ok doc1, w1) ->
      Deals.transform_deal_row (clock (S i)) r2 = (Ok doc2, w2) ->
      accepting (Deals.sink st) ->
      count_id id (docs (Deals.sink st)) = 0%nat ->
      let st' := Deals.rows_loop clock i [r1; r2] st in
      docs (Deals.sink st') = docs (Deals.sink st) ++ [doc1]
      /\ count_id id (docs (Deals.sink st')) = 1%nat
      /\ Deals.imported_count st' = S (Deals.imported_count st)
      /\ Deals.skipped_count st' = S (Deals.skipped_count st)
      /\ Deals.out st'
         = (((Deals.out st ++ w1)
             ++ Deals.progress (S (Deals.imported_count st))) ++ w2)
           ++ [Print ("Deal with ID " +:+ id +:+ " already exists, skipping")])
  /\ (forall clock i (rows : list raw_row) st,
      NoDup (ids (docs (Deals.sink st))) ->
      NoDup (ids (docs (Deals.sink (Deals.rows_loop clock i rows st)))))
  /\ (forall clock (rows : list raw_row) c st,
      Deals.main clock rows c = (true, st) ->
      mk_index "deal_id" true true ∈ indexes (Deals.sink st)
      /\ has_clash (mk_index "deal_id" true true) (docs (Deals.sink st)) = false).
Proof.
  split; [|split].
  - intros clock i r1 r2 doc1 w1 doc2 w2 id st Hid H1 H2 T1 T2 Hacc Hnew st'.
    destruct (process_row_new _ _ _ _ _ st Hid H1 T1 Hacc Hnew) as [E1 Hf1].
    assert (E2 := process_row_known (clock (S i)) r2 doc2 w2 id
                    (Deals.process_row (clock i) r1 st) doc1 Hid H2 T2).
    rewrite E1 in E2. simpl in E2.
    specialize (E2 eq_refl ltac:(set_solver) Hf1).
    unfold st'. simpl. rewrite E1, E2. simpl.
    repeat split; try reflexivity.
    rewrite count_id_app, Hnew. unfold count_id. simpl.
    rewrite bool_decide_eq_true_2 by exact Hf1. reflexivity.
  - intros clock i rows st. apply deal_loop_ids.
  - intros clock rows c st. unfold Deals.main.
    set (st0 := Deals.rows_loop clock 0 rows (Deals.mk_state c 0 0 [])).
    destruct (count_documents (Deals.sink st0)) as [[total|e] c1] eqn:Ec;
      [|discriminate].
    apply count_documents_docs in Ec as [Hd1 _].
    destruct (Deals.create_indexes Deals.deal_indexes c1) as [[[]|e] c2] eqn:Ei;
      [|discriminate].
    intros [= <-]. simpl.
    apply create_indexes_ok in Ei as (Hd & _ & Hall).
    assert (Hmem : mk_index "deal_id" true true ∈ Deals.deal_indexes)
      by constructor.
    destruct (Hall _ Hmem) as [Hin Hu].
    split; [exact Hin|]. rewrite Hd. apply Hu. reflexivity.
Qed.

Lemma deal_id_idempotent_witness :
  let row := deal_row "17" "Big deal" "100" "2025-09-05" in
  let st := Deals.rows_loop (fun _ => epoch) 0 [row; row]
              (Deals.mk_state empty_collection 0 0 []) in
  count_id "17" (docs (Deals.sink st)) = 1%nat
  /\ Deals.imported_count st = 1%nat
  /\ Deals.skipped_count st = 1%nat
  /\ NoDup (ids (docs (Deals.sink st))).
Proof.
  intros row st.
  destruct deal_id_idempotent as (H1 & H2 & _).
  destruct (Deals.transform_deal_row epoch row) as [[doc|x] w] eqn:E;
    [|vm_compute in E; discriminate E].
  assert (Hid : row !! "Deal - ID"%string = Some (Some "17"%string))
    by (vm_compute; reflexivity).
  assert (Hacc : accepting empty_collection)
    by (split; [reflexivity | constructor]).
  destruct (H1 (fun _ => epoch) 0%nat row row doc w doc w "17"%string
              (Deals.mk_state empty_collection 0 0 [])
              ltac:(discriminate) Hid Hid E E Hacc eq_refl)
    as (_ & Hc & Hi & Hs & _).
  fold st in Hc, Hi, Hs.
  split; [exact Hc|]. split; [exact Hi|]. split; [exact Hs|].
  apply H2. constructor.
Defined.

(** C2 as the specification words it fails for the empty identifier: two
    rows with the same, empty, identifier are both inserted, none is
    counted as skipped, and the run then fails to build the unique
    index. *)
Lemma empty_id_imported_twice :
  let row := deal_row "" "Small deal" "1" "2025-09-05" in
  let run := Deals.main (fun _ => epoch) [row; row] empty_collection in
  count_id "" (docs (Deals.sink run.2)) = 2%nat
  /\ Deals.imported_count run.2 = 2%nat
  /\ Deals.skipped_count run.2 = 0%nat
  /\ run.1 = false.
Proof. vm_compute. repeat split. Qed.

(* ===================================================================== *)
(** * The month parser of the time-sheet importer *)
(* ===================================================================== *)

Section Months.

Lemma pattern_Ym :
  pattern false "%Y-%m"
  = Some [ Grp "Y" (Cat Dig (Cat Dig (Cat Dig Dig)));
           Chr "-";
           Grp "m" (Alt (Cat (Chr "1") (Cls "0" "2"))
                   (Alt (Cat (Chr "0") (Cls "1" "9")) (Cls "1" "9"))) ].
Proof. reflexivity. Qed.

Lemma digit_bounds c : is_digit c = true -> between 0 9 (digit_val c) = true.
Proof. ascii_cases c. Qed.

Lemma strip_digits s : forall_chars is_digit s = true -> strip s = s.
Proof.
  intros H. unfold strip, strip_by.
  assert (forall_chars (fun c => negb (is_space c)) s = true).
  { eapply forall_chars_impl; [|exact H]. intros c Hc. apply digit_plain, Hc. }
  rewrite lstrip_keeps, rstrip_keeps; auto.
Qed.

Lemma year_bound y1 y2 y3 y4 :
  is_digit y1 = true -> is_digit y2 = true ->
  is_digit y3 = true -> is_digit y4 = true ->
  (int (String y1 (String y2 (String y3 (String y4 EmptyString)))) <= 9999)%Z.
Proof.
  intros H1 H2 H3 H4. unfold int.
  rewrite strip_digits by (simpl; rewrite H1, H2, H3, H4; reflexivity).
  apply digit_bounds in H1, H2, H3, H4. unfold between in *.
  unfold digits_val. simpl. lia.
Qed.

Lemma month_one a :
  in_range "1" "9" a = true ->
  between 1 12 (int (String a EmptyString)) = true.
Proof. ascii_cases a. Qed.

Lemma month_ten b :
  in_range "0" "2" b = true ->
  between 1 12 (int (String "1" (String b EmptyString))) = true.
Proof. ascii_cases b. Qed.

Lemma month_padded b :
  in_range "1" "9" b = true ->
  between 1 12 (int (String "0" (String b EmptyString))) = true.
Proof. ascii_cases b. Qed.

Lemma valid_first y m :
  valid_datetime y m 1 0 0 0 = between 1 9999 y && between 1 12 m.
Proof.
  unfold valid_datetime.
  replace (between 1 (days_in_month y m) 1) with true.
  - vm_compute (between 0 23 0). vm_compute (between 0 59 0).
    rewrite !andb_true_r. reflexivity.
  - unfold days_in_month.
    repeat match goal with
           | |- context [if ?b then _ else _] => destruct b
           end; reflexivity.
Qed.

Lemma first_of_month y m :
  (y <= 9999)%Z -> between 1 12 m = true ->
  datetime_new y m 1 0 0 0
  = match (if (1 <=? y)%Z then Some (mk_datetime y m 1 0 0 0) else None) with
    | Some d => Ok d
    | None => Raise ValueError
    end.
Proof.
  intros Hy Hm. unfold datetime_new. rewrite valid_first, Hm, andb_true_r.
  unfold between. replace (y <=? 9999)%Z with true by (symmetry; apply Z.leb_le, Hy).
  rewrite andb_true_r. destruct (1 <=? y)%Z; reflexivity.
Qed.

#[local] Arguments in_range : simpl never.
#[local] Arguments int : simpl never.
#[local] Arguments datetime_new : simpl never.

(** [strptime] with the format [%Y-%m] accepts exactly the texts of
    [year_month]. *)
Lemma strptime_year_month s :
  strptime s "%Y-%m"
  = match year_month s with Some d => Ok d | None => Raise ValueError end.
Proof.
  unfold strptime. rewrite pattern_Ym. unfold year_month, is_digit, Dig.
  destruct s as [|y1 [|y2 [|y3 [|y4 [|h t]]]]]; cbn.
  all: repeat match goal with
       | |- context [if in_range ?a ?b ?c then _ else _] =>
           destruct (in_range a b c) eqn:?; cbn
       end; try reflexivity.
  all: destruct (Ascii.eqb h "-") eqn:Eh; cbn; try reflexivity.
  destruct t as [|a [|b [|c r]]]; cbn; try reflexivity.
  all: repeat match goal with
       | |- context [if in_range ?a ?b ?c then _ else _] =>
           destruct (in_range a b c) eqn:?; cbn
       | |- context [if Ascii.eqb ?a ?b then _ else _] =>
           destruct (Ascii.eqb a b) eqn:?; cbn
       end; try reflexivity.
  all: repeat match goal with
       | H : Ascii.eqb _ _ = true |- _ => apply Ascii.eqb_eq in H; subst
       end; try discriminate.
  all: apply first_of_month;
    [ apply year_bound; assumption
    | first [ apply month_one; assumption
            | apply month_ten; assumption
            | apply month_padded; assumption ] ].
Qed.

End Months.



(* ===================================================================== *)
(** * The date parser of the deal importer on the usual texts *)
(* ===================================================================== *)

Section DateTexts.
Local Open Scope Z_scope.

(** Arithmetic with quotients and remainders by a constant. *)
Ltac zdiv := Z.div_mod_to_equations; lia.

Lemma first_match_seq r rs s m g s1 m2 g2 s2 :
  first_match (rmatch r s) (m, g, s1) ->
  first_match (rmatch_seq rs s1) (m2, g2, s2) ->
  first_match (rmatch_seq (r :: rs) s) (m +:+ m2, g ++ g2, s2).
Proof.
  intros [tl H1] [tl2 H2]. unfold first_match. simpl. rewrite H1. simpl.
  rewrite H2. simpl. eexists. reflexivity.
Qed.

Lemma below_cases (P : Z -> Prop) (n : nat) :
  (forall k : nat, (k < n)%nat -> P (Z.of_nat k)) ->
  forall z, 0 <= z < Z.of_nat n -> P z.
Proof.
  intros H z Hz. rewrite <- (Z2Nat.id z) by lia. apply H. lia.
Qed.

Lemma digit_char_digit d :
  0 <= d <= 9 ->
  is_digit (digit_char d) = true /\ digit_val (digit_char d) = d.
Proof.
  intros Hd. assert (H0 : 0 <= d < Z.of_nat 10) by lia. revert d H0 Hd.
  apply (below_cases (fun d => 0 <= d <= 9 -> _)). intros k Hk _.
  do 10 (destruct k as [|k]; [split; reflexivity|]). lia.
Qed.

Lemma two_digits n :
  0 <= n <= 99 ->
  is_digit (digit_char (n / 10)) = true
  /\ is_digit (digit_char (n mod 10)) = true
  /\ digit_val (digit_char (n / 10)) = n / 10
  /\ digit_val (digit_char (n mod 10)) = n mod 10.
Proof.
  intros Hn.
  destruct (digit_char_digit (n / 10)) as [D1 V1]; [zdiv|].
  destruct (digit_char_digit (n mod 10)) as [D2 V2]; [zdiv|].
  auto.
Qed.

Lemma int_two n : 0 <= n <= 99 -> int (two_then n EmptyString) = n.
Proof.
  intros Hn. destruct (two_digits n Hn) as (D1 & D2 & V1 & V2).
  unfold int, two_then.
  rewrite strip_digits by (simpl; rewrite D1, D2; reflexivity).
  unfold digits_val. simpl digits_val_from. rewrite V1, V2. zdiv.
Qed.

Lemma int_four n : 0 <= n <= 9999 -> int (four_then n EmptyString) = n.
Proof.
  intros Hn.
  destruct (two_digits (n / 100)) as (A1 & A2 & VA1 & VA2); [zdiv|].
  destruct (two_digits (n mod 100)) as (B1 & B2 & VB1 & VB2); [zdiv|].
  unfold int, four_then, two_then.
  rewrite strip_digits by (simpl; rewrite A1, A2, B1, B2; reflexivity).
  unfold digits_val. simpl digits_val_from. rewrite VA1, VA2, VB1, VB2. zdiv.
Qed.

#[local] Arguments in_range : simpl never.
#[local] Arguments digit_char : simpl never.

Lemma match_year n rest :
  0 <= n <= 9999 ->
  first_match (rmatch (Grp "Y" (Cat Dig (Cat Dig (Cat Dig Dig)))) (four_then n rest))
    (four_then n EmptyString, [("Y"%char, four_then n EmptyString)], rest).
Proof.
  intros Hn.
  destruct (two_digits (n / 100)) as (A1 & A2 & _); [zdiv|].
  destruct (two_digits (n mod 100)) as (B1 & B2 & _); [zdiv|].
  unfold is_digit in *. unfold four_then, two_then, Dig. cbn.
  rewrite A1. cbn. rewrite A2. cbn. rewrite B1. cbn. rewrite B2. cbn.
  eexists. reflexivity.
Qed.

Lemma match_chr c rest :
  first_match (rmatch (Chr c) (String c rest)) (String c EmptyString, [], rest).
Proof. simpl. rewrite Ascii.eqb_refl. eexists. reflexivity. Qed.

Lemma match_space n rest :
  0 <= n <= 99 ->
  first_match (rmatch Spc1 (String " " (two_then n rest)))
              (String " " EmptyString, [], two_then n rest).
Proof.
  intros Hn. destruct (two_digits n Hn) as (D1 & _).
  apply digit_not_space in D1. unfold two_then. simpl. rewrite D1. simpl.
  eexists. reflexivity.
Qed.

Lemma match_month n rest :
  1 <= n <= 12 ->
  first_match (rmatch (Grp "m" (Alt (Cat (Chr "1") (Cls "0" "2"))
                  (Alt (Cat (Chr "0") (Cls "1" "9")) (Cls "1" "9")))) (two_then n rest))
    (two_then n EmptyString, [("m"%char, two_then n EmptyString)], rest).
Proof.
  intros Hn. assert (H0 : 0 <= n < Z.of_nat 13) by lia. revert n H0 Hn.
  apply (below_cases (fun n => 1 <= n <= 12 -> _)).
  intros k Hk. destruct k as [|k]; [lia|].
  do 12 (destruct k as [|k]; [intros _; cbv; eexists; reflexivity | ]). lia.
Qed.

Lemma match_day n rest :
  1 <= n <= 31 ->
  first_match (rmatch (Grp "d" (Alt (Cat (Chr "3") (Cls "0" "1"))
                  (Alt (Cat (Cls "1" "2") Dig)
                  (Alt (Cat (Chr "0") (Cls "1" "9"))
                  (Alt (Cls "1" "9") (Cat (Chr " ") (Cls "1" "9"))))))) (two_then n rest))
    (two_then n EmptyString, [("d"%char, two_then n EmptyString)], rest).
Proof.
  intros Hn. assert (H0 : 0 <= n < Z.of_nat 32) by lia. revert n H0 Hn.
  apply (below_cases (fun n => 1 <= n <= 31 -> _)).
  intros k Hk. destruct k as [|k]; [lia|].
  do 31 (destruct k as [|k]; [intros _; cbv; eexists; reflexivity | ]). lia.
Qed.

Lemma match_hour n rest :
  0 <= n <= 23 ->
  first_match (rmatch (Grp "H" (Alt (Cat (Chr "2") (Cls "0" "3"))
                  (Alt (Cat (Cls "0" "1") Dig) Dig))) (two_then n rest))
    (two_then n EmptyString, [("H"%char, two_then n EmptyString)], rest).
Proof.
  intros Hn. assert (H0 : 0 <= n < Z.of_nat 24) by lia. revert n H0 Hn.
  apply (below_cases (fun n => 0 <= n <= 23 -> _)).
  intros k Hk.
  do 24 (destruct k as [|k]; [intros _; cbv; eexists; reflexivity | ]). lia.
Qed.

Lemma match_minute n rest :
  0 <= n <= 59 ->
  first_match (rmatch (Grp "M" (Alt (Cat (Cls "0" "5") Dig) Dig)) (two_then n rest))
    (two_then n EmptyString, [("M"%char, two_then n EmptyString)], rest).
Proof.
  intros Hn. assert (H0 : 0 <= n < Z.of_nat 60) by lia. revert n H0 Hn.
  apply (below_cases (fun n => 0 <= n <= 59 -> _)).
  intros k Hk.
  do 60 (destruct k as [|k]; [intros _; cbv; eexists; reflexivity | ]). lia.
Qed.

Lemma match_second n rest :
  0 <= n <= 59 ->
  first_match (rmatch (Grp "S" (Alt (Cat (Chr "6") (Cls "0" "1"))
                  (Alt (Cat (Cls "0" "5") Dig) Dig))) (two_then n rest))
    (two_then n EmptyString, [("S"%char, two_then n EmptyString)], rest).
Proof.
  intros Hn. assert (H0 : 0 <= n < Z.of_nat 60) by lia. revert n H0 Hn.
  apply (below_cases (fun n => 0 <= n <= 59 -> _)).
  intros k Hk.
  do 60 (destruct k as [|k]; [intros _; cbv; eexists; reflexivity | ]). lia.
Qed.

Lemma days_in_month_bounds y m : 28 <= days_in_month y m <= 31.
Proof.
  unfold days_in_month.
  repeat match goal with |- context [if ?b then _ else _] => destruct b end; lia.
Qed.

Lemma valid_ranges d :
  valid d = true ->
  1 <= year d <= 9999 /\ 1 <= month d <= 12 /\ 1 <= day d <= 31
  /\ 0 <= hour d <= 23 /\ 0 <= minute d <= 59 /\ 0 <= second d <= 59.
Proof.
  unfold valid, valid_datetime, between. pose proof (days_in_month_bounds (year d) (month d)).
  intros H0. repeat (apply andb_prop in H0 as [H0 ?]).
  repeat match goal with H : (_ <=? _) = true |- _ => apply Z.leb_le in H end.
  lia.
Qed.

Lemma strptime_first s fmt rs m g :
  pattern false fmt = Some rs ->
  first_match (rmatch_seq rs s) (m, g, EmptyString) ->
  strptime s fmt
  = datetime_new (group_int "Y" 1900 g) (group_int "m" 1 g)
                 (group_int "d" 1 g) (group_int "H" 0 g)
                 (group_int "M" 0 g) (group_int "S" 0 g).
Proof. intros Hp [tl H]. unfold strptime. rewrite Hp, H. reflexivity. Qed.

#[local] Arguments int : simpl never.

Lemma strptime_isoformat d :
  valid d = true -> strptime (isoformat d) "%Y-%m-%d %H:%M:%S" = Ok d.
Proof.
  intros Hv. destruct (valid_ranges d Hv) as (Hy & Hm & Hd & HH & HM & HS).
  erewrite strptime_first; [| vm_compute; reflexivity |].
  2:{ unfold isoformat, date_then.
    eapply first_match_seq; [apply match_year; lia|].
    eapply first_match_seq; [apply match_chr|].
    eapply first_match_seq; [apply match_month; lia|].
    eapply first_match_seq; [apply match_chr|].
    eapply first_match_seq; [apply match_day; lia|].
    eapply first_match_seq; [apply match_space; lia|].
    eapply first_match_seq; [apply match_hour; lia|].
    eapply first_match_seq; [apply match_chr|].
    eapply first_match_seq; [apply match_minute; lia|].
    eapply first_match_seq; [apply match_chr|].
    eapply first_match_seq; [apply match_second; lia|].
    eexists. reflexivity. }
  unfold group_int. simpl.
  rewrite int_four, !int_two by lia.
  unfold datetime_new. unfold valid in Hv. rewrite Hv. destruct d; reflexivity.
Qed.

Lemma strptime_isoformat_date d :
  valid d = true -> strptime (isoformat_date d) "%Y-%m-%d" = Ok (midnight d).
Proof.
  intros Hv. destruct (valid_ranges d Hv) as (Hy & Hm & Hd & HH & HM & HS).
  erewrite strptime_first; [| vm_compute; reflexivity |].
  2:{ unfold isoformat_date, date_then.
    eapply first_match_seq; [apply match_year; lia|].
    eapply first_match_seq; [apply match_chr|].
    eapply first_match_seq; [apply match_month; lia|].
    eapply first_match_seq; [apply match_chr|].
    eapply first_match_seq; [apply match_day; lia|].
    eexists. reflexivity. }
  unfold group_int. simpl.
  rewrite int_four, !int_two by lia.
  unfold datetime_new, midnight.
  replace (valid_datetime (year d) (month d) (day d) 0 0 0) with true; [reflexivity|].
  unfold valid, valid_datetime in *.
  destruct (between 1 9999 (year d)), (between 1 12 (month d)),
           (between 1 (days_in_month (year d) (month d)) (day d));
    simpl in Hv; try discriminate Hv; reflexivity.
Qed.

Lemma two_then_plain (p : ascii -> bool) n rest :
  0 <= n <= 99 ->
  (forall c, is_digit c = true -> p c = false) ->
  exists_char p (two_then n rest) = exists_char p rest.
Proof.
  intros Hn Hp. destruct (two_digits n Hn) as (D1 & D2 & _).
  unfold two_then. simpl. rewrite (Hp _ D1), (Hp _ D2). reflexivity.
Qed.

Lemma date_then_plain (p : ascii -> bool) d rest :
  valid d = true ->
  (forall c, is_digit c = true -> p c = false) ->
  p "-"%char = false ->
  exists_char p (date_then d rest) = exists_char p rest.
Proof.
  intros Hv Hp Hh. destruct (valid_ranges d Hv) as (Hy & Hm & Hd & _).
  unfold date_then, four_then.
  rewrite !two_then_plain by (assumption || zdiv).
  cbn [exists_char]. rewrite Hh. cbn [orb].
  rewrite two_then_plain by (assumption || lia).
  cbn [exists_char]. rewrite Hh. cbn [orb].
  rewrite two_then_plain by (assumption || lia). reflexivity.
Qed.

Lemma digit_no_space c : is_digit c = true -> Ascii.eqb " " c = false.
Proof. ascii_cases c. Qed.

Lemma date_then_not_blank d rest :
  valid d = true -> forall_chars is_space (date_then d rest) = false.
Proof.
  intros Hv. destruct (valid_ranges d Hv) as (Hy & _).
  destruct (two_digits (year d / 100)) as (D1 & _); [zdiv|].
  unfold date_then, four_then, two_then. simpl.
  rewrite (digit_not_space _ D1). reflexivity.
Qed.

End DateTexts.



(* ===================================================================== *)
(** * Further properties of the deal transformer *)
(* ===================================================================== *)

Section DealTransformer.

Lemma bind_raise_inv {A B} (k : A -> M B) (m : M A) e w :
  bind k m = (Raise e, w) ->
  m = (Raise e, w)
  \/ exists a w1 w2, m = (Ok a, w1) /\ k a = (Raise e, w2).
Proof.
  destruct m as [[a|e'] o]; simpl.
  - destruct (k a) as [r o'] eqn:E. intros [= -> <-]. right. eauto.
  - intros [= -> <-]. left. reflexivity.
Qed.

(** The two parsers of the deal importer never raise. *)
Lemma parse_number_returns v : exists x w, Deals.parse_number v = (Ok x, w).
Proof.
  unfold Deals.parse_number.
  destruct (falsy v || Deals.is_blank v) eqn:G; [eexists _, _; reflexivity|].
  destruct v as [s|]; [|discriminate G].
  unfold float. destruct (float_of_str s); eexists _, _; reflexivity.
Qed.

Lemma parse_date_returns v : exists d w, Deals.parse_date v = (Ok d, w).
Proof.
  unfold Deals.parse_date.
  destruct (falsy v || Deals.is_blank v) eqn:G; [eexists _, _; reflexivity|].
  destruct v as [s|]; [|discriminate G].
  destruct (if contains " " s then _ else _) as [d|e] eqn:E;
    [eexists _, _; reflexivity|].
  assert (e = ValueError) as ->.
  { destruct (contains " " s); eapply strptime_raises, E. }
  eexists _, _. reflexivity.
Qed.

Lemma text_raises row key e w :
  Deals.text row key = (Raise e, w) -> e = KeyError key /\ row !! key = None.
Proof.
  unfold Deals.text, getitem, lift. destruct (row !! key); simpl; [discriminate|].
  intros [= <- _]. auto.
Qed.

Lemma number_raises row key e w :
  Deals.number row key = (Raise e, w) -> e = KeyError key /\ row !! key = None.
Proof.
  unfold Deals.number, getitem, lift. destruct (row !! key) as [cell|]; simpl.
  - destruct (parse_number_returns cell) as (x & w' & ->). simpl. discriminate.
  - intros [= <- _]. auto.
Qed.

Lemma date_raises row key e w :
  Deals.date row key = (Raise e, w) -> e = KeyError key /\ row !! key = None.
Proof.
  unfold Deals.date, getitem, lift. destruct (row !! key) as [cell|]; simpl.
  - destruct (parse_date_returns cell) as (x & w' & ->). simpl. discriminate.
  - intros [= <- _]. auto.
Qed.

Lemma transform_deal_row_raises now row e w :
  Deals.transform_deal_row now row = (Raise e, w) ->
  exists column,
    e = KeyError column /\ column ∈ column_names /\ row !! column = None.
Proof.
  unfold Deals.transform_deal_row. intros H.
  repeat match type of H with
  | bind _ _ = _ =>
      apply bind_raise_inv in H as [H | (? & ? & ? & _ & H)];
        [ first [ apply text_raises in H
                | apply number_raises in H
                | apply date_raises in H ];
          destruct H as [-> Hn]; eexists; split; [reflexivity|];
          split; [refine (bool_decide_unpack _ _); vm_compute; exact I | exact Hn]
        | ]
  end.
  unfold ret in H. discriminate H.
Qed.

End DealTransformer.

(** X1.  [transform_deal_row] depends on the columns only: a row that has
    a cell under each of the 28 columns always has a document, whatever
    the cells hold (a number or a date that cannot be read becomes
    [None]); the only exception it raises is the [KeyError] of a column
    the row lacks. *)
Theorem transform_deal_row_total now (row : raw_row) :
  (complete row -> exists doc w, Deals.transform_deal_row now row = (Ok doc, w))
  /\ (forall e w,
      Deals.transform_deal_row now row = (Raise e, w) ->
      exists column,
        e = KeyError column /\ column ∈ column_names /\ row !! column = None).
Proof.
  split; [|apply transform_deal_row_raises].
  intros Hc. destruct (Deals.transform_deal_row now row) as [[doc|e] w] eqn:E;
    [eauto|].
  apply transform_deal_row_raises in E as (column & _ & Hin & Hnone).
  unfold complete in Hc. rewrite Forall_forall in Hc.
  destruct (Hc column Hin) as [cell Hcell]. congruence.
Qed.

Lemma transform_deal_row_total_witness :
  exists doc,
    (Deals.transform_deal_row epoch
       (deal_row "17" "Big deal" "a lot" "yesterday")).1 = Ok doc
    /\ field "value" doc = Some VNone.
Proof.
  destruct (transform_deal_row_total epoch
              (deal_row "17" "Big deal" "a lot" "yesterday")) as [H _].
  destruct H as (doc & w & E).
  - refine (bool_decide_unpack _ _). vm_compute. exact I.
  - exists doc. rewrite E. split; [reflexivity|].
    vm_compute in E. injection E as <- _. reflexivity.
Defined.

(* ===================================================================== *)
(** * Further properties of the loop of the deal importer *)
(* ===================================================================== *)

Section DealAccounting.

Lemma row_errors_app o1 o2 : row_errors (o1 ++ o2) = (row_errors o1 + row_errors o2)%nat.
Proof. unfold row_errors. rewrite List.filter_app, length_app. reflexivity. Qed.

Lemma bind_quiet {A B} (k : A -> M B) (m : M A) :
  quiet m -> (forall a, quiet (k a)) -> quiet (bind k m).
Proof.
  unfold quiet. destruct m as [[a|e] o]; simpl; [|auto].
  intros Hm Hk. specialize (Hk a). destruct (k a) as [r o']. simpl in *.
  rewrite row_errors_app. lia.
Qed.

Lemma parse_number_quiet v : quiet (Deals.parse_number v).
Proof.
  unfold Deals.parse_number, quiet.
  destruct (falsy v || Deals.is_blank v); [reflexivity|].
  destruct v as [s|]; [|reflexivity].
  destruct (float s) as [x|[]]; reflexivity.
Qed.

Lemma parse_date_quiet v : quiet (Deals.parse_date v).
Proof.
  unfold Deals.parse_date, quiet.
  destruct (falsy v || Deals.is_blank v); [reflexivity|].
  destruct v as [s|]; [|reflexivity].
  destruct (if contains " " s then _ else _) as [x|[]]; reflexivity.
Qed.

Lemma cell_quiet row key :
  quiet (Deals.text row key) /\ quiet (Deals.number row key)
  /\ quiet (Deals.date row key).
Proof.
  unfold Deals.text, Deals.number, Deals.date.
  repeat split; apply bind_quiet; try (intros; apply bind_quiet);
    try (unfold quiet, lift; reflexivity); intros;
    first [apply parse_number_quiet | apply parse_date_quiet | reflexivity].
Qed.

Lemma transform_deal_row_quiet now row : quiet (Deals.transform_deal_row now row).
Proof.
  unfold Deals.transform_deal_row.
  repeat (apply bind_quiet; [apply cell_quiet | intros ?]).
  reflexivity.
Qed.

Lemma progress_quiet n : row_errors (Deals.progress n) = 0%nat.
Proof. unfold Deals.progress. destruct (n mod 10 =? 0)%nat; reflexivity. Qed.

(** What one turn of the loop does: the row is imported, skipped or
    reported, and only an import changes the documents. *)
Lemma process_row_step now row st :
  let st' := Deals.process_row now row st in
  indexes (Deals.sink st') = indexes (Deals.sink st)
  /\ ((exists doc w,
         Deals.transform_deal_row now row = (Ok doc, w)
         /\ docs (Deals.sink st') = docs (Deals.sink st) ++ [doc]
         /\ Deals.imported_count st' = S (Deals.imported_count st)
         /\ Deals.skipped_count st' = Deals.skipped_count st
         /\ row_errors (Deals.out st') = row_errors (Deals.out st))
      \/ (docs (Deals.sink st') = docs (Deals.sink st)
          /\ Deals.imported_count st' = Deals.imported_count st
          /\ Deals.skipped_count st' = S (Deals.skipped_count st)
          /\ row_errors (Deals.out st') = row_errors (Deals.out st))
      \/ (docs (Deals.sink st') = docs (Deals.sink st)
          /\ Deals.imported_count st' = Deals.imported_count st
          /\ Deals.skipped_count st' = Deals.skipped_count st
          /\ row_errors (Deals.out st') = S (row_errors (Deals.out st)))).
Proof.
  intros st'. unfold st', Deals.process_row.
  pose proof (transform_deal_row_quiet now row) as Hq. unfold quiet in Hq.
  destruct (Deals.transform_deal_row now row) as [[doc|e] w]; simpl in Hq.
  - assert (Hins : forall c o,
      indexes c = indexes (Deals.sink st) -> docs c = docs (Deals.sink st) ->
      row_errors o = row_errors (Deals.out st) ->
      let s1 := Deals.insert_deal doc
                  (Deals.mk_state c (Deals.imported_count st)
                     (Deals.skipped_count st) o) in
      indexes (Deals.sink s1) = indexes (Deals.sink st)
      /\ ((docs (Deals.sink s1) = docs (Deals.sink st) ++ [doc]
           /\ Deals.imported_count s1 = S (Deals.imported_count st)
           /\ Deals.skipped_count s1 = Deals.skipped_count st
           /\ row_errors (Deals.out s1) = row_errors (Deals.out st))
          \/ (docs (Deals.sink s1) = docs (Deals.sink st)
              /\ Deals.imported_count s1 = Deals.imported_count st
              /\ Deals.skipped_count s1 = Deals.skipped_count st
              /\ row_errors (Deals.out s1) = S (row_errors (Deals.out st))))).
    { intros c o Hix Hd Ho. unfold Deals.insert_deal. simpl.
      destruct (insert_one c doc) as [[[]|e] c'] eqn:E;
        pose proof E as E';
        apply insert_one_cases in E' as (Hix' & [[Hr Hd'] | [[x Hr] Hd']]);
        try discriminate Hr; simpl; (split; [congruence|]).
      - left. rewrite row_errors_app, progress_quiet.
        repeat split; [congruence | lia].
      - right. rewrite row_errors_app. simpl.
        repeat split; [congruence | unfold row_errors in *; simpl; lia]. }
    assert (Hw : row_errors (Deals.out st ++ w) = row_errors (Deals.out st))
      by (rewrite row_errors_app; lia).
    destruct (Deals.deal_id doc) as [id|].
    + simpl.
      destruct (find_one (Deals.sink st) "deal_id" (VStr id))
        as [[[d|]|e] c] eqn:E;
        apply find_one_cases in E as (Hd & Hix & _); simpl.
      * split; [exact Hix|]. right. left. rewrite row_errors_app. simpl.
        repeat split; [exact Hd | unfold row_errors in *; simpl; lia].
      * destruct (Hins c (Deals.out st ++ w) Hix Hd Hw) as [H1 [H2|H2]];
          (split; [exact H1|]); [left; eauto 10 | right; right; exact H2].
      * split; [exact Hix|]. right. right. rewrite row_errors_app. simpl.
        repeat split; [exact Hd | unfold row_errors in *; simpl; lia].
    + destruct (Hins (Deals.sink st) (Deals.out st ++ w) eq_refl eq_refl Hw)
        as [H1 [H2|H2]];
        (split; [exact H1|]); [left; eauto 10 | right; right; exact H2].
  - split; [reflexivity|]. right. right. simpl.
    rewrite !row_errors_app. simpl. repeat split.
    unfold row_errors in *. simpl. lia.
Qed.

End DealAccounting.

(** X2.  The loop of the deal importer accounts for every row exactly
    once: a row is counted as imported, counted as skipped, or reported
    with an [Error processing row] line, so the two counters and the
    number of such lines grow together by the number of rows. *)
Theorem deal_loop_accounting clock (rows : list raw_row) i st :
  let st' := Deals.rows_loop clock i rows st in
  (Deals.imported_count st' + Deals.skipped_count st'
   + row_errors (Deals.out st')
   = Deals.imported_count st + Deals.skipped_count st
     + row_errors (Deals.out st) + length rows)%nat
  /\ (Deals.imported_count st <= Deals.imported_count st')%nat
  /\ (Deals.skipped_count st <= Deals.skipped_count st')%nat.
Proof.
  revert i st. induction rows as [|row rows IH]; intros i st; cbn zeta; cbn [Deals.rows_loop length].
  - simpl. lia.
  - destruct (process_row_step (clock i) row st) as (_ & Hstep).
    specialize (IH (S i) (Deals.process_row (clock i) row st)).
    cbn zeta in IH.
    destruct Hstep as [(doc & w & _ & _ & H1 & H2 & H3)
                      | [(_ & H1 & H2 & H3) | (_ & H1 & H2 & H3)]];
      rewrite H1, H2, H3 in IH; destruct IH as (E1 & E2 & E3);
      (split; [|split]); lia.
Qed.

(** X3.  The loop of the deal importer only appends: the documents that
    were in the collection stay where they are, the indexes are not
    touched, and the documents added are documents of rows of the file,
    as many as the counter of imports grew. *)
Theorem deal_loop_appends clock (rows : list raw_row) i st :
  let st' := Deals.rows_loop clock i rows st in
  exists added,
    docs (Deals.sink st') = docs (Deals.sink st) ++ added
    /\ indexes (Deals.sink st') = indexes (Deals.sink st)
    /\ Deals.imported_count st' = (Deals.imported_count st + length added)%nat
    /\ Forall (from_rows rows) added.
Proof.
  revert i st. induction rows as [|row rows IH]; intros i st; cbn zeta; cbn [Deals.rows_loop length].
  - exists []. rewrite app_nil_r. simpl. repeat split; [lia | constructor].
  - destruct (process_row_step (clock i) row st) as (Hix & Hstep).
    pose proof (IH (S i) (Deals.process_row (clock i) row st)) as IH'.
    cbn zeta in IH'. destruct IH' as (added & Hd & Hix' & Hn & Hfrom).
    assert (Hweak : Forall (from_rows (row :: rows)) added).
    { eapply Forall_impl; [exact Hfrom|].
      intros d (r & now & w & Hr & Ht). exists r, now, w.
      split; [right; exact Hr | exact Ht]. }
    destruct Hstep as [(doc & w & Ht & H1 & H2 & _)
                      | [(H1 & H2 & _) | (H1 & H2 & _)]].
    + exists (doc :: added). rewrite Hd, H1, <- app_assoc. simpl.
      repeat split; [congruence | lia |].
      constructor; [|exact Hweak].
      exists row, (clock i), w. split; [left | exact Ht].
    + exists added. rewrite Hd, H1. repeat split; [congruence | lia | exact Hweak].
    + exists added. rewrite Hd, H1. repeat split; [congruence | lia | exact Hweak].
Qed.

Section DealRuns.

(** Whether a deal row has a document does not depend on the clock. *)
Lemma transform_deal_row_clock t1 t2 row :
  same_outcome (Deals.transform_deal_row t1 row)
               (Deals.transform_deal_row t2 row).
Proof.
  unfold Deals.transform_deal_row.
  do 28 (apply same_outcome_bind; intros ?). reflexivity.
Qed.

Lemma deal_converts_at now row :
  deal_converts row = true <->
  exists doc w, Deals.transform_deal_row now row = (Ok doc, w).
Proof.
  unfold deal_converts.
  pose proof (transform_deal_row_clock now epoch row) as H.
  unfold same_outcome in H.
  destruct (Deals.transform_deal_row now row) as [[d|e] w],
           (Deals.transform_deal_row epoch row) as [[d'|e'] w'];
    try tauto; split; try discriminate; eauto.
  intros (doc & w0 & [=]).
Qed.

Lemma keyed_row_id row id :
  id <> EmptyString -> row !! "Deal - ID"%string = Some (Some id) ->
  row_id row = Some id.
Proof.
  intros Hid Hrow. unfold row_id. rewrite Hrow.
  destruct id; [congruence|reflexivity].
Qed.

Lemma count_id_pos id ds :
  count_id id ds <> 0%nat ->
  exists d, d ∈ ds /\ field "deal_id" d = Some (VStr id).
Proof.
  unfold count_id. induction ds as [|x ds IH]; simpl; [congruence|].
  destruct (bool_decide (field "deal_id" x = Some (VStr id))) eqn:E.
  - intros _. apply bool_decide_eq_true in E. exists x. split; [left|exact E].
  - intros (d & Hd & Hf)%IH. exists d. split; [right; exact Hd | exact Hf].
Qed.

(** One turn of the loop on a row with a non-empty identifier, while the
    collection accepts inserts: afterwards the identifier is in the
    collection if the row has a document. *)
Lemma process_keyed_row now row st :
  accepting (Deals.sink st) -> keyed row ->
  let st' := Deals.process_row now row st in
  accepting (Deals.sink st')
  /\ (exists added, docs (Deals.sink st') = docs (Deals.sink st) ++ added)
  /\ (deal_converts row = true ->
      forall id, row_id row = Some id ->
      exists d, d ∈ docs (Deals.sink st') /\ field "deal_id" d = Some (VStr id)).
Proof.
  intros Hacc (id & Hid & Hrow). cbn zeta.
  rewrite (deal_converts_at now row).
  rewrite (keyed_row_id row id Hid Hrow).
  destruct (Deals.transform_deal_row now row) as [[doc|e] w] eqn:Ht.
  - destruct (Nat.eq_dec (count_id id (docs (Deals.sink st))) 0) as [Hz|Hnz].
    + destruct (process_row_new now row doc w id st Hid Hrow Ht Hacc Hz)
        as [E Hf].
      rewrite E. simpl. split; [|split].
      * destruct Hacc as [_ Hix]. split; [reflexivity|exact Hix].
      * eexists. reflexivity.
      * intros _ id' [= <-]. exists doc. split; [|exact Hf].
        apply elem_of_app. right. apply list_elem_of_singleton. reflexivity.
    + destruct (count_id_pos id _ Hnz) as (d & Hd & Hf).
      pose proof (process_row_known now row doc w id st d Hid Hrow Ht
                    (proj1 Hacc) Hd Hf) as E.
      rewrite E. simpl. split; [exact Hacc|]. split.
      * exists []. rewrite app_nil_r. reflexivity.
      * intros _ id' [= <-]. eauto.
  - unfold Deals.process_row. rewrite Ht. simpl.
    split; [exact Hacc|]. split.
    + exists []. rewrite app_nil_r. reflexivity.
    + intros (doc & w0 & [=]).
Qed.

Lemma first_run_keeps_ids clock rows : forall i st,
  accepting (Deals.sink st) -> Forall keyed rows ->
  let st' := Deals.rows_loop clock i rows st in
  accepting (Deals.sink st')
  /\ (exists added, docs (Deals.sink st') = docs (Deals.sink st) ++ added)
  /\ (forall row id,
        row ∈ rows -> deal_converts row = true -> row_id row = Some id ->
        exists d, d ∈ docs (Deals.sink st')
                  /\ field "deal_id" d = Some (VStr id)).
Proof.
  induction rows as [|row rows IH]; intros i st Hacc Hkeyed; cbn zeta;
    cbn [Deals.rows_loop].
  - split; [exact Hacc|]. split; [exists []; rewrite app_nil_r; reflexivity|].
    intros row id Hin. inversion Hin.
  - apply Forall_cons in Hkeyed as [Hk Hks].
    pose proof (process_keyed_row (clock i) row st Hacc Hk) as Hstep.
    cbn zeta in Hstep. destruct Hstep as (Hacc1 & (a1 & Hd1) & Hid1).
    pose proof (IH (S i) _ Hacc1 Hks) as Hrest. cbn zeta in Hrest.
    destruct Hrest as (Hacc2 & (a2 & Hd2) & Hid2).
    split; [exact Hacc2|]. split.
    + exists (a1 ++ a2). rewrite Hd2, Hd1, app_assoc. reflexivity.
    + intros r id [->|Hin]%elem_of_cons Hc Hr; [|eauto].
      destruct (Hid1 Hc id Hr) as (d & Hd & Hf).
      exists d. split; [|exact Hf]. rewrite Hd2. apply elem_of_app. left. exact Hd.
Qed.

(** The loop on rows whose identifiers the collection holds already:
    nothing is inserted. *)
Lemma second_run_skips clock rows : forall i st,
  faults (Deals.sink st) = [] -> Forall keyed rows ->
  (forall row id,
      row ∈ rows -> deal_converts row = true -> row_id row = Some id ->
      exists d, d ∈ docs (Deals.sink st)
                /\ field "deal_id" d = Some (VStr id)) ->
  let st' := Deals.rows_loop clock i rows st in
  Deals.sink st' = Deals.sink st
  /\ Deals.imported_count st' = Deals.imported_count st
  /\ Deals.skipped_count st'
     = (Deals.skipped_count st + length (List.filter deal_converts rows))%nat.
Proof.
  induction rows as [|row rows IH]; intros i st Hf Hkeyed Hheld; cbn zeta;
    cbn [Deals.rows_loop].
  - simpl. repeat split. lia.
  - apply Forall_cons in Hkeyed as [(id & Hid & Hrow) Hks].
    assert (Hstep :
      let s1 := Deals.process_row (clock i) row st in
      Deals.sink s1 = Deals.sink st
      /\ Deals.imported_count s1 = Deals.imported_count st
      /\ Deals.skipped_count s1
         = (Deals.skipped_count st + if deal_converts row then 1 else 0)%nat).
    { cbn zeta. destruct (deal_converts row) eqn:Hc.
      - pose proof Hc as Hc'. rewrite (deal_converts_at (clock i)) in Hc'.
        destruct Hc' as (doc & w & Ht).
        destruct (Hheld row id ltac:(left) Hc (keyed_row_id row id Hid Hrow))
          as (d & Hd & Hfd).
        rewrite (process_row_known (clock i) row doc w id st d Hid Hrow Ht Hf Hd Hfd).
        simpl. repeat split. lia.
      - unfold Deals.process_row.
        destruct (Deals.transform_deal_row (clock i) row) as [[doc|e] w] eqn:Ht.
        + assert (deal_converts row = true)
            by (apply (deal_converts_at (clock i)); eauto). congruence.
        + simpl. repeat split. lia. }
    cbn zeta in Hstep. destruct Hstep as (Hs & Hi & Hk).
    pose proof (IH (S i) (Deals.process_row (clock i) row st)) as Hrest.
    cbn zeta in Hrest. rewrite Hs in Hrest.
    destruct Hrest as (Hs' & Hi' & Hk');
      [exact Hf | exact Hks | intros r id' Hin; apply Hheld; right; exact Hin |].
    split; [congruence|]. split; [congruence|].
    rewrite Hk', Hk. simpl. destruct (deal_converts row); simpl; lia.
Qed.

End DealRuns.

(** X4.  Importing a deal file a second time changes nothing: when every
    row has a non-empty identifier and the collection has no pending
    fault and no unique index other than the one on the identifier, the
    second pass over the same rows leaves the collection exactly as the
    first pass left it, imports nothing and counts as skipped every row
    that has a document. *)
Theorem deal_rerun_skips clock1 clock2 (rows : list raw_row) c :
  accepting c -> Forall keyed rows ->
  let st1 := Deals.rows_loop clock1 0 rows (Deals.mk_state c 0 0 []) in
  let st2 := Deals.rows_loop clock2 0 rows
               (Deals.mk_state (Deals.sink st1) 0 0 []) in
  Deals.sink st2 = Deals.sink st1
  /\ Deals.imported_count st2 = 0%nat
  /\ Deals.skipped_count st2 = length (List.filter deal_converts rows).
Proof.
  intros Hacc Hkeyed st1 st2.
  pose proof (first_run_keeps_ids clock1 rows 0 (Deals.mk_state c 0 0 [])
                Hacc Hkeyed) as H1.
  cbn zeta in H1. fold st1 in H1. destruct H1 as (Hacc1 & _ & Hheld).
  pose proof (second_run_skips clock2 rows 0
                (Deals.mk_state (Deals.sink st1) 0 0 [])
                (proj1 Hacc1) Hkeyed Hheld) as H2.
  cbn zeta in H2. fold st2 in H2. exact H2.
Qed.

Lemma deal_rerun_skips_witness :
  let rows := [ deal_row "17" "Big deal" "100" "2025-09-05";
                deal_row "18" "Small deal" "" "";
                deal_row "17" "Big deal again" "100" "2025-09-06" ] in
  let st1 := Deals.rows_loop (fun _ => epoch) 0 rows
               (Deals.mk_state empty_collection 0 0 []) in
  let st2 := Deals.rows_loop (fun _ => epoch) 0 rows
               (Deals.mk_state (Deals.sink st1) 0 0 []) in
  length (docs (Deals.sink st1)) = 2%nat
  /\ Deals.sink st2 = Deals.sink st1
  /\ Deals.skipped_count st2 = 3%nat.
Proof.
  intros rows st1 st2.
  destruct (deal_rerun_skips (fun _ => epoch) (fun _ => epoch) rows
              empty_collection) as (H1 & _ & H3).
  - split; [reflexivity | constructor].
  - repeat constructor;
      [exists "17"%string | exists "18"%string | exists "17"%string];
      (split; [discriminate | vm_compute; reflexivity]).
  - fold st1 st2 in H1, H3. split; [vm_compute; reflexivity|].
    split; [exact H1|]. rewrite H3. vm_compute. reflexivity.
Defined.

Section FreshImport.

Lemma complete_has_document now row :
  complete row -> exists doc w, Deals.transform_deal_row now row = (Ok doc, w).
Proof.
  intros Hc. destruct (Deals.transform_deal_row now row) as [[doc|e] w] eqn:E;
    [eauto|].
  apply transform_deal_row_raises in E as (column & _ & Hin & Hnone).
  unfold complete in Hc. rewrite Forall_forall in Hc.
  destruct (Hc column Hin) as [cell Hcell]. congruence.
Qed.

Lemma count_id_other id id' doc :
  field "deal_id" doc = Some (VStr id) -> id <> id' ->
  count_id id' [doc] = 0%nat.
Proof.
  intros Hf Hne. unfold count_id. simpl.
  rewrite bool_decide_eq_false_2; [reflexivity|]. congruence.
Qed.

Lemma fresh_rows_imported clock rows : forall i st,
  accepting (Deals.sink st) ->
  Forall complete rows -> Forall keyed rows ->
  NoDup (omap row_id rows) ->
  (forall id, id ∈ omap row_id rows ->
              count_id id (docs (Deals.sink st)) = 0%nat) ->
  let st' := Deals.rows_loop clock i rows st in
  Deals.imported_count st' = (Deals.imported_count st + length rows)%nat
  /\ Deals.skipped_count st' = Deals.skipped_count st
  /\ row_errors (Deals.out st') = row_errors (Deals.out st)
  /\ ids (docs (Deals.sink st'))
     = ids (docs (Deals.sink st)) ++ omap row_id rows.
Proof.
  induction rows as [|row rows IH]; intros i st Hacc Hcs Hks Hnd Hnew;
    cbn zeta; cbn [Deals.rows_loop].
  - simpl. rewrite app_nil_r. repeat split. lia.
  - apply Forall_cons in Hcs as [Hc Hcs].
    apply Forall_cons in Hks as [(id & Hid & Hrow) Hks].
    pose proof (keyed_row_id row id Hid Hrow) as Hrid.
    simpl in Hnd, Hnew. rewrite Hrid in Hnd, Hnew. simpl in Hnd, Hnew.
    apply NoDup_cons in Hnd as [Hnotin Hnd].
    destruct (complete_has_document (clock i) row Hc) as (doc & w & Ht).
    destruct (process_row_new (clock i) row doc w id st Hid Hrow Ht Hacc)
      as [E Hf]; [apply Hnew; left|].
    pose proof (transform_deal_row_quiet (clock i) row) as Hq.
    unfold quiet in Hq. rewrite Ht in Hq. simpl in Hq.
    pose proof (IH (S i) (Deals.process_row (clock i) row st)) as Hrest.
    cbn zeta in Hrest. rewrite E in Hrest. simpl in Hrest.
    destruct Hrest as (H1 & H2 & H3 & H4).
    + destruct Hacc as [_ Hix]. split; [reflexivity|exact Hix].
    + exact Hcs.
    + exact Hks.
    + exact Hnd.
    + intros id' Hin. rewrite count_id_app, (Hnew id') by (right; exact Hin).
      rewrite (count_id_other id id' doc Hf); [reflexivity|].
      intros ->. contradiction.
    + rewrite E. simpl. rewrite Hrid. simpl.
      split; [lia|]. split; [exact H2|]. split.
      * rewrite H3, !row_errors_app, progress_quiet. lia.
      * rewrite H4, ids_app. unfold ids at 2. simpl.
        assert (Hd : Deals.deal_id doc = Some id)
          by (apply deal_id_field; auto).
        rewrite Hd. simpl. rewrite <- app_assoc. reflexivity.
Qed.

End FreshImport.

(** X5.  A first import takes everything: when every row has a cell under
    each column and a non-empty identifier, the identifiers differ from
    one another and from those in the collection, and the collection has
    no pending fault and no unique index other than the one on the
    identifier, every row is imported, none is skipped or reported, and
    the identifiers of the rows are added to the collection in the order
    of the file. *)
Theorem deal_fresh_import clock (rows : list raw_row) c :
  accepting c ->
  Forall complete rows -> Forall keyed rows ->
  NoDup (omap row_id rows) ->
  (forall id, id ∈ omap row_id rows -> count_id id (docs c) = 0%nat) ->
  let st := Deals.rows_loop clock 0 rows (Deals.mk_state c 0 0 []) in
  Deals.imported_count st = length rows
  /\ Deals.skipped_count st = 0%nat
  /\ row_errors (Deals.out st) = 0%nat
  /\ ids (docs (Deals.sink st)) = ids (docs c) ++ omap row_id rows.
Proof.
  intros Hacc Hcs Hks Hnd Hnew.
  exact (fresh_rows_imported clock rows 0 (Deals.mk_state c 0 0 [])
           Hacc Hcs Hks Hnd Hnew).
Qed.

Lemma deal_fresh_import_witness :
  let rows := [ deal_row "17" "Big deal" "100" "2025-09-05";
                deal_row "18" "Small deal" "n/a" "" ] in
  let st := Deals.rows_loop (fun _ => epoch) 0 rows
              (Deals.mk_state empty_collection 0 0 []) in
  Deals.imported_count st = 2%nat
  /\ ids (docs (Deals.sink st)) = ["17"; "18"]%string.
Proof.
  intros rows st.
  destruct (deal_fresh_import (fun _ => epoch) rows empty_collection)
    as (H1 & _ & _ & H4).
  - split; [reflexivity | constructor].
  - repeat constructor; refine (bool_decide_unpack _ _); vm_compute; exact I.
  - repeat constructor; [exists "17"%string | exists "18"%string];
      (split; [discriminate | vm_compute; reflexivity]).
  - refine (bool_decide_unpack _ _). vm_compute. exact I.
  - intros id _. reflexivity.
  - fold st in H1, H4. split; [exact H1|]. rewrite H4. vm_compute. reflexivity.
Defined.

Section DealWarnings.

Lemma text_ok_out row key v w :
  Deals.text row key = (Ok v, w) ->
  exists cell, row !! key = Some cell /\ w = [].
Proof.
  unfold Deals.text. intros (cell & w1 & w2 & H1 & H2 & ->)%bind_ok.
  apply lift_ok in H1 as [H1%getitem_ok ->]. injection H2 as _ <-. eauto.
Qed.

Lemma number_ok_out row key v w :
  Deals.number row key = (Ok v, w) ->
  exists cell, row !! key = Some cell /\ w = (Deals.parse_number cell).2.
Proof.
  unfold Deals.number. intros (cell & w1 & w2 & H1 & H2 & ->)%bind_ok.
  apply lift_ok in H1 as [H1%getitem_ok ->].
  apply bind_ok in H2 as (x & w3 & w4 & H2 & H3 & ->).
  injection H3 as _ <-. exists cell. rewrite H2. simpl.
  rewrite app_nil_r. auto.
Qed.

Lemma date_ok_out row key v w :
  Deals.date row key = (Ok v, w) ->
  exists cell, row !! key = Some cell /\ w = (Deals.parse_date cell).2.
Proof.
  unfold Deals.date. intros (cell & w1 & w2 & H1 & H2 & ->)%bind_ok.
  apply lift_ok in H1 as [H1%getitem_ok ->].
  apply bind_ok in H2 as (x & w3 & w4 & H2 & H3 & ->).
  injection H3 as _ <-. exists cell. rewrite H2. simpl.
  rewrite app_nil_r. auto.
Qed.

End DealWarnings.

(** X6.  What [transform_deal_row] prints for a row that has a document
    is what the number and date parsers print for its cells, column by
    column in the order of the document, and nothing else: the text
    fields print nothing. *)
Theorem deal_row_warnings now (row : raw_row) doc w :
  Deals.transform_deal_row now row = (Ok doc, w) ->
  w = concat (List.map (cell_warnings row) deal_columns).
Proof.
  unfold Deals.transform_deal_row. intros H.
  repeat match type of H with
  | bind _ _ = _ =>
      let Hx := fresh "Hx" in
      let Hc := fresh "Hc" in
      apply bind_ok in H as (? & ? & ? & Hx & H & ->);
      first [ apply text_ok_out in Hx as (? & Hc & ->)
            | apply number_ok_out in Hx as (? & Hc & ->)
            | apply date_ok_out in Hx as (? & Hc & ->) ]
  end.
  injection H as _ <-.
  unfold deal_columns. cbn [List.map concat cell_warnings].
  repeat match goal with
  | Hc : row !! _ = Some _ |- _ => rewrite Hc; clear Hc
  end.
  reflexivity.
Qed.

Lemma deal_row_warnings_witness :
  (Deals.transform_deal_row epoch
     (deal_row "17" "Big deal" "a lot" "yesterday")).2
  = [ Print "Warning: Could not parse number 'a lot'";
      Print "Warning: Could not parse date 'yesterday'" ].
Proof.
  destruct (Deals.transform_deal_row epoch
              (deal_row "17" "Big deal" "a lot" "yesterday"))
    as [[doc|e] w] eqn:E; [|vm_compute in E; discriminate E].
  rewrite (deal_row_warnings _ _ _ _ E). vm_compute. reflexivity.
Defined.

(* ===================================================================== *)
(** * Further properties of the time-sheet importer *)
(* ===================================================================== *)

Section ClockodoAccounting.

Lemma clockodo_loop_appends clock rows : forall i st r st',
  Clockodo.rows_loop clock i rows st = (r, st') ->
  exists added,
    docs (Clockodo.sink st') = docs (Clockodo.sink st) ++ added
    /\ indexes (Clockodo.sink st') = indexes (Clockodo.sink st)
    /\ Clockodo.imported_count st'
       = (Clockodo.imported_count st + length added)%nat
    /\ match r with
       | Ok _ => length added = length rows
       | Raise _ => (length added < length rows)%nat
       end.
Proof.
  induction rows as [|row rows IH]; intros i st r st'; simpl.
  - intros [= <- <-]. exists []. rewrite app_nil_r. simpl. repeat split. lia.
  - destruct (Clockodo.document_of_row (clock i) row) as [[doc|e] w].
    + destruct (insert_one (Clockodo.sink st) doc) as [[[]|e] c] eqn:E;
        pose proof E as E';
        apply insert_one_cases in E' as (Hix & [[Hr Hd] | [[x Hr] Hd]]);
        try discriminate Hr.
      * intros (added & H1 & H2 & H3 & H4)%IH. simpl in *.
        exists (doc :: added). rewrite H1, Hd, <- app_assoc. simpl.
        repeat split; [congruence | lia |].
        destruct r; simpl; lia.
      * intros [= <- <-]. exists []. rewrite app_nil_r. simpl.
        repeat split; [congruence | congruence | lia | lia].
    + intros [= <- <-]. exists []. rewrite app_nil_r. simpl.
      repeat split; lia.
Qed.

(** On a collection that accepts every insert the loop ends normally
    exactly when every row has a document. *)
Lemma clockodo_loop_result clock rows : forall i st r st',
  accepts_all (Clockodo.sink st) ->
  Clockodo.rows_loop clock i rows st = (r, st') ->
  match r with
  | Ok _ => forallb converts rows = true
  | Raise _ => forallb converts rows = false
  end.
Proof.
  induction rows as [|row rows IH]; intros i st r st' Hacc; simpl.
  - intros [= <- <-]. reflexivity.
  - pose proof (document_of_row_clock (clock i) epoch row) as Hsame.
    unfold converts, same_outcome in *.
    destruct (Clockodo.document_of_row (clock i) row) as [[doc|e] w],
             (Clockodo.document_of_row epoch row) as [[doc'|e'] w'];
      try tauto.
    + rewrite insert_one_accepted by assumption. intros H.
      apply IH in H; [exact H|].
      destruct Hacc as [_ Hix]. split; [reflexivity | exact Hix].
    + intros [= <- <-]. reflexivity.
Qed.

End ClockodoAccounting.

(** X7.  [import_clockodo_data] only appends and does not roll back: the
    documents that were in the collection stay in place and the indexes
    are not touched.  When it returns [True] it has added one document
    per row and its last line reports that number; when it returns
    [False] it has added fewer documents than there are rows, those
    already added stay, and its last line reports the error. *)
Theorem clockodo_import_appends clock (rows : list raw_row) c :
  let r := Clockodo.import_clockodo_data clock rows c in
  exists added,
    docs r.1.2 = docs c ++ added
    /\ indexes r.1.2 = indexes c
    /\ (r.1.1 = true ->
        length added = length rows
        /\ last r.2
           = Some (Print ("Successfully imported "
                          +:+ str_of_nat (length rows) +:+ " records")))
    /\ (r.1.1 = false ->
        (length added < length rows)%nat
        /\ exists e, last r.2 = Some (PrintExn "Error importing data: " e)).
Proof.
  cbn zeta. unfold Clockodo.import_clockodo_data.
  destruct (Clockodo.rows_loop clock 0 rows (Clockodo.mk_state c 0 []))
    as [[[]|e] st] eqn:E;
    apply clockodo_loop_appends in E as (added & H1 & H2 & H3 & H4);
    simpl in *; exists added; (split; [exact H1|]); (split; [exact H2|]).
  - split; [|discriminate]. intros _. split; [exact H4|].
    rewrite last_snoc, H3, H4. reflexivity.
  - split; [discriminate|]. intros _. split; [exact H4|].
    exists e. apply last_snoc.
Qed.

Lemma clockodo_import_appends_witness :
  let rows := [ sheet_row "ACME" "Web" "2025-09" "Dev" "Ann" "7,5" "750,00";
                sheet_row "ACME" "Web" "2025-09" "Dev" "Bob" "7.5h" "750,00" ] in
  let r := Clockodo.import_clockodo_data (fun _ => epoch) rows empty_collection in
  r.1.1 = false /\ (length (docs r.1.2) < 2)%nat.
Proof.
  intros rows r.
  destruct (clockodo_import_appends (fun _ => epoch) rows empty_collection)
    as (added & Hd & _ & _ & Hfalse).
  assert (Hr : r.1.1 = false) by (vm_compute; reflexivity).
  destruct (Hfalse Hr) as [Hlt _].
  split; [exact Hr|]. unfold r. rewrite Hd. exact Hlt.
Defined.

(** X8.  On a collection that accepts every insert (no pending fault, no
    unique index) [import_clockodo_data] returns [True] exactly when
    every row of the file has a document; in any case it has inserted the
    rows that come before the first row without a document, and none
    after it. *)
Theorem clockodo_import_result clock (rows : list raw_row) c :
  faults c = [] ->
  Forall (fun ix => ix_unique ix = false) (indexes c) ->
  let r := Clockodo.import_clockodo_data clock rows c in
  r.1.1 = forallb converts rows
  /\ length (docs r.1.2) = (length (docs c) + leading rows)%nat.
Proof.
  intros Hf Hix. cbn zeta.
  assert (Hacc : accepts_all c) by (split; assumption).
  split; [|apply import_clockodo_count, Hacc].
  unfold Clockodo.import_clockodo_data.
  destruct (Clockodo.rows_loop clock 0 rows (Clockodo.mk_state c 0 []))
    as [[[]|e] st] eqn:E;
    apply clockodo_loop_result in E; simpl; auto.
Qed.

Lemma clockodo_import_result_witness :
  let rows := [ sheet_row "ACME" "Web" "2025-09" "Dev" "Ann" "7,5" "750,00";
                sheet_row "ACME" "Web" "2025-09" "Dev" "Bob" "7.5h" "0";
                sheet_row "ACME" "Web" "2025-09" "Dev" "Cid" "1" "100" ] in
  let r := Clockodo.import_clockodo_data (fun _ => epoch) rows
             empty_collection in
  r.1.1 = false /\ length (docs r.1.2) = 1%nat.
Proof.
  intros rows r.
  destruct (clockodo_import_result (fun _ => epoch) rows empty_collection)
    as [H1 H2]; [reflexivity | constructor |].
  fold r in H1, H2. split.
  - rewrite H1. vm_compute. reflexivity.
  - rewrite H2. vm_compute. reflexivity.
Defined.

Section SheetRows.

Lemma replace_absent a b s : contains a s = false -> replace a b s = s.
Proof.
  unfold contains, replace. induction s as [|c r IH]; simpl; [reflexivity|].
  intros [Hc Hr]%orb_false_elim. rewrite (IH Hr).
  rewrite Ascii.eqb_sym in Hc. rewrite Hc. reflexivity.
Qed.

End SheetRows.





(* ===================================================================== *)
(** * The command line of the time-sheet importer *)
(* ===================================================================== *)

Section ClockodoCommand.
Import Os.

Lemma isabs_join cwd p : isabs cwd = true -> isabs (join cwd p) = true.
Proof.
  intros Hc. unfold join. destruct (isabs p) eqn:Hp; [exact Hp|].
  destruct cwd as [|a r]; [discriminate Hc|].
  destruct (String.eqb (String a r) EmptyString || ends_with "/" (String a r));
    exact Hc.
Qed.

Lemma join_abs cwd p : isabs p = true -> join cwd p = p.
Proof. unfold join. intros ->. reflexivity. Qed.

End ClockodoCommand.



(** X12.  The time-sheet script resolves a relative path against the
    working directory itself, and it finds the same file as with the
    absolute path: the two runs are equal in exit status, collection and
    output. *)
Theorem clockodo_main_relative_path env a cwd fs clock c :
  Os.isabs cwd = true ->
  Os.isabs (ClockodoScript.csv_file a) = false ->
  ClockodoScript.main env a cwd fs clock c
  = ClockodoScript.main env
      (ClockodoScript.mk_args (Os.join cwd (ClockodoScript.csv_file a))
         (ClockodoScript.arg_database a) (ClockodoScript.arg_collection a)
         (ClockodoScript.arg_mongo_url a))
      cwd fs clock c.
Proof.
  intros Hcwd Hrel. unfold ClockodoScript.main. simpl.
  rewrite Hrel, (isabs_join cwd _ Hcwd). reflexivity.
Qed.

Lemma clockodo_main_relative_path_witness :
  let env : Os.environ :=
    list_to_map [ ("MONGO_ROOT_USERNAME"%string, "admin"%string);
                  ("MONGO_ROOT_PASSWORD"%string, "secret"%string);
                  ("MONGO_DATABASE"%string, "bi"%string) ] in
  let rows := [ sheet_row "ACME" "Web" "2025-09" "Dev" "Ann" "7,5" "750,00" ] in
  let fs : Os.files := {[ "/data/sheet.csv"%string := rows ]} in
  ClockodoScript.main env (ClockodoScript.mk_args "sheet.csv" None None None)
    "/data" fs (fun _ => epoch) empty_collection
  = ClockodoScript.main env
      (ClockodoScript.mk_args "/data/sheet.csv" None None None)
      "/data" fs (fun _ => epoch) empty_collection.
Proof.
  intros env rows fs.
  apply (clockodo_main_relative_path env
           (ClockodoScript.mk_args "sheet.csv" None None None));
    reflexivity.
Defined.

(* ===================================================================== *)
(** * The whole of [main] of the deal importer *)
(* ===================================================================== *)

Section DealCommand.
Import Os.

Lemma ping_cases c r c1 :
  DealsScript.ping c = (r, c1) ->
  docs c1 = docs c /\ indexes c1 = indexes c
  /\ (faults c = [] -> r = Ok tt /\ c1 = c).
Proof.
  unfold DealsScript.ping, next_fault.
  destruct (faults c) as [|[] fs]; simpl; intros [= <- <-]; simpl;
    repeat split; try discriminate.
Qed.

Lemma count_documents_reliable c :
  faults c = [] -> count_documents c = (Ok (length (docs c)), c).
Proof. intros H. unfold count_documents, next_fault. rewrite H. reflexivity. Qed.

(** The offer to clear keeps the indexes; it keeps the documents unless
    the answer is [y] or [Y]. *)
Lemma clear_first_cases response c r c1 o :
  DealsScript.clear_first response c = (r, c1, o) ->
  indexes c1 = indexes c
  /\ (docs c1 = docs c
      \/ (docs c1 = [] /\ String.eqb (lower response) "y" = true)).
Proof.
  unfold DealsScript.clear_first.
  destruct (count_documents c) as [[n|e] c0] eqn:Ec;
    apply count_documents_docs in Ec as [Hd Hix].
  - destruct (0 <? n)%nat.
    + destruct (String.eqb (lower response) "y") eqn:Ey.
      * unfold DealsScript.delete_many, next_fault.
        destruct (faults c0) as [|[] fs]; simpl; intros [= <- <- <-]; simpl;
          (split; [exact Hix|]); auto.
      * intros [= <- <- <-]. auto.
    + intros [= <- <- <-]. auto.
  - intros [= <- <- <-]. auto.
Qed.

Lemma clear_first_reliable response c :
  faults c = [] ->
  exists o,
    DealsScript.clear_first response c
    = (Ok tt,
       if (0 <? length (docs c))%nat && String.eqb (lower response) "y"
       then mk_collection [] (indexes c) []
       else c, o).
Proof.
  intros Hf. unfold DealsScript.clear_first.
  rewrite count_documents_reliable by exact Hf.
  destruct (0 <? length (docs c))%nat; simpl; [|eauto].
  destruct (String.eqb (lower response) "y"); [|eauto].
  unfold DealsScript.delete_many, next_fault. rewrite Hf. simpl. rewrite Hf.
  eauto.
Qed.

(** Registering indexes never changes the documents nor drops an index,
    whether it succeeds or not. *)
Lemma create_index_keeps c ix r c' :
  create_index c ix = (r, c') ->
  docs c' = docs c /\ (forall j, j ∈ indexes c -> j ∈ indexes c').
Proof.
  unfold create_index, next_fault.
  destruct (faults c) as [|[] fs]; simpl;
    repeat (match goal with
            | |- context [if ?b then _ else _] => destruct b
            end);
    intros [= <- <-]; simpl; split; try reflexivity; auto;
    intros j Hj; apply elem_of_app; left; exact Hj.
Qed.

Lemma create_indexes_keeps ixs : forall c r c',
  Deals.create_indexes ixs c = (r, c') ->
  docs c' = docs c /\ (forall j, j ∈ indexes c -> j ∈ indexes c').
Proof.
  induction ixs as [|ix ixs IH]; intros c r c'; simpl.
  - intros [= <- <-]. auto.
  - destruct (create_index c ix) as [[[]|e] c1] eqn:E;
      apply create_index_keeps in E as [Hd Hsub].
    + intros [Hd' Hsub']%IH. split; [congruence|auto].
    + intros [= <- <-]. auto.
Qed.

Lemma deal_loop_grows clock rows : forall i st,
  exists added,
    docs (Deals.sink (Deals.rows_loop clock i rows st))
    = docs (Deals.sink st) ++ added
    /\ indexes (Deals.sink (Deals.rows_loop clock i rows st))
       = indexes (Deals.sink st)
    /\ Forall (from_rows rows) added.
Proof.
  induction rows as [|row rows IH]; intros i st; cbn [Deals.rows_loop].
  - exists []. rewrite app_nil_r. repeat split. constructor.
  - destruct (process_row_step (clock i) row st) as (Hix & Hstep).
    destruct (IH (S i) (Deals.process_row (clock i) row st))
      as (added & Hd & Hix' & Hfrom).
    assert (Hweak : Forall (from_rows (row :: rows)) added).
    { eapply Forall_impl; [exact Hfrom|].
      intros d (r & now & w & Hr & Ht). exists r, now, w.
      split; [right; exact Hr | exact Ht]. }
    destruct Hstep as [(doc & w & Ht & H1 & _) | [(H1 & _) | (H1 & _)]].
    + exists (doc :: added). rewrite Hd, H1, <- app_assoc. simpl.
      repeat split; [congruence |].
      constructor; [|exact Hweak].
      exists row, (clock i), w. split; [left | exact Ht].
    + exists added. rewrite Hd, H1. repeat split; [congruence | exact Hweak].
    + exists added. rewrite Hd, H1. repeat split; [congruence | exact Hweak].
Qed.

(** The loop, the summary and the indexes: the documents are those the
    loop leaves, no index is dropped. *)
Lemma load_keeps clock rows c r st :
  DealsScript.load clock rows c = (r, st) ->
  docs (Deals.sink st)
  = docs (Deals.sink (Deals.rows_loop clock 0 rows (Deals.mk_state c 0 0 [])))
  /\ (forall j, j ∈ indexes c -> j ∈ indexes (Deals.sink st)).
Proof.
  unfold DealsScript.load.
  destruct (deal_loop_grows clock rows 0 (Deals.mk_state c 0 0 []))
    as (added & _ & Hix & _). simpl in Hix.
  destruct (count_documents _) as [[n|e] c1] eqn:Ec;
    apply count_documents_docs in Ec as [Hd Hix1].
  - destruct (Deals.create_indexes Deals.deal_indexes c1) as [[[]|e] c2] eqn:Ei;
      apply create_indexes_keeps in Ei as [Hd2 Hsub];
      intros [= <- <-]; simpl; (split; [congruence|]);
      intros j Hj; apply Hsub; rewrite Hix1, Hix; exact Hj.
  - intros [= <- <-]. simpl. split; [exact Hd|].
    intros j Hj. rewrite Hix1, Hix. exact Hj.
Qed.

End DealCommand.



Section DealReliable.
Import Os.

Lemma insert_one_reliable c d r c' :
  faults c = [] -> insert_one c d = (r, c') -> faults c' = [].
Proof.
  intros Hf. unfold insert_one, next_fault. rewrite Hf.
  destruct (existsb _ _); intros [= <- <-]; simpl; auto.
Qed.

Lemma process_row_reliable now row st :
  faults (Deals.sink st) = [] ->
  faults (Deals.sink (Deals.process_row now row st)) = [].
Proof.
  intros Hf. unfold Deals.process_row.
  destruct (Deals.transform_deal_row now row) as [[doc|e] w]; [|exact Hf].
  assert (Hins : forall c o, faults c = [] ->
            faults (Deals.sink (Deals.insert_deal doc
              (Deals.mk_state c (Deals.imported_count st)
                 (Deals.skipped_count st) o))) = []).
  { intros c o Hc. unfold Deals.insert_deal. simpl.
    destruct (insert_one c doc) as [[[]|e] c'] eqn:E;
      apply insert_one_reliable in E; assumption. }
  destruct (Deals.deal_id doc) as [id|]; [|apply Hins, Hf].
  simpl. destruct (find_one (Deals.sink st) "deal_id" (VStr id)) as [r c1] eqn:E.
  apply find_one_cases in E as (_ & _ & _ & E). destruct (E Hf) as [-> ->].
  destruct (List.find _ _); [exact Hf | apply Hins, Hf].
Qed.

Lemma deal_loop_reliable clock rows : forall i st,
  faults (Deals.sink st) = [] ->
  faults (Deals.sink (Deals.rows_loop clock i rows st)) = [].
Proof.
  induction rows as [|row rows IH]; intros i st Hf; simpl; [exact Hf|].
  apply IH, process_row_reliable, Hf.
Qed.

(** Without fault, the indexes of the script are all registered unless
    two documents share the key of the unique one. *)
Lemma create_deal_indexes_reliable c :
  faults c = [] ->
  exists c',
    Deals.create_indexes Deals.deal_indexes c
    = (if has_clash (mk_index "deal_id" true true) (docs c)
       then Raise DuplicateKeyError else Ok tt, c')
    /\ docs c' = docs c.
Proof.
  intros Hf.
  assert (Hone : forall c0 ix, faults c0 = [] ->
            exists c1, create_index c0 ix
                       = (if ix_unique ix && has_clash ix (docs c0)
                          then Raise DuplicateKeyError else Ok tt, c1)
                       /\ docs c1 = docs c0 /\ faults c1 = []).
  { intros c0 ix H0. unfold create_index, next_fault. rewrite H0.
    destruct (ix_unique ix && has_clash ix (docs c0));
      [eexists; split; [reflexivity|]; simpl; auto|].
    destruct (bool_decide (ix ∈ indexes c0));
      eexists; (split; [reflexivity|]); simpl; auto. }
  unfold Deals.deal_indexes. cbn [Deals.create_indexes].
  destruct (Hone c (mk_index "deal_id" true true) Hf) as (c1 & -> & Hd1 & Hf1).
  cbn [ix_unique andb].
  destruct (has_clash (mk_index "deal_id" true true) (docs c));
    [eexists; split; [reflexivity|exact Hd1]|].
  destruct (Hone c1 (mk_index "status" false false) Hf1) as (c2 & -> & Hd2 & Hf2).
  cbn [ix_unique andb].
  destruct (Hone c2 (mk_index "owner" false false) Hf2) as (c3 & -> & Hd3 & Hf3).
  cbn [ix_unique andb].
  destruct (Hone c3 (mk_index "organization" false false) Hf3)
    as (c4 & -> & Hd4 & Hf4).
  cbn [ix_unique andb].
  destruct (Hone c4 (mk_index "created_date" false false) Hf4)
    as (c5 & -> & Hd5 & Hf5).
  cbn [ix_unique andb].
  eexists. split; [reflexivity|]. congruence.
Qed.

End DealReliable.



(* ===================================================================== *)
(** * What the two loops print *)
(* ===================================================================== *)

Section ClockodoOutput.

Lemma bind_silent {A B} (k : A -> M B) (m : M A) :
  silent m -> (forall a, silent (k a)) -> silent (bind k m).
Proof.
  unfold silent. destruct m as [[a|e] o]; simpl; [|auto].
  intros -> Hk. specialize (Hk a). destruct (k a) as [r o']. simpl in *.
  exact Hk.
Qed.

Lemma parse_month_silent v : silent (Clockodo.parse_month v).
Proof.
  unfold Clockodo.parse_month, silent. destruct v as [s|]; [|reflexivity].
  destruct (strptime s "%Y-%m") as [d|[]]; reflexivity.
Qed.

Lemma document_of_row_silent now row : silent (Clockodo.document_of_row now row).
Proof.
  unfold Clockodo.document_of_row.
  repeat (apply bind_silent;
          [first [ reflexivity
                 | apply bind_silent;
                   [reflexivity | intros ?; apply parse_month_silent] ]
          | intros ?]).
  reflexivity.
Qed.

Lemma multiple_step (d n : nat) :
  (0 < d)%nat ->
  (S n / d = n / d + (if (S n mod d =? 0)%nat then 1 else 0))%nat
  /\ ((S n mod d =? 0)%nat = true -> S n = (d * S (n / d))%nat).
Proof.
  intros Hd.
  pose proof (Nat.div_mod_eq (S n) d) as H1.
  pose proof (Nat.div_mod_eq n d) as H2.
  pose proof (Nat.mod_upper_bound (S n) d) as H3.
  pose proof (Nat.mod_upper_bound n d) as H4.
  destruct (Nat.eqb_spec (S n mod d) 0) as [E|E].
  - assert (S n / d = S (n / d))%nat by nia. split; [lia | intros _; nia].
  - split; [nia | discriminate].
Qed.

Lemma clockodo_progress_step n :
  Clockodo.progress (S n)
  = List.map hundredth (seq (S (n / 100)) (S n / 100 - n / 100)).
Proof.
  destruct (multiple_step 100 n) as [H1 H2]; [lia|].
  unfold Clockodo.progress.
  destruct (S n mod 100 =? 0)%nat.
  - replace (S n / 100 - n / 100)%nat with 1%nat by lia.
    cbn [seq List.map]. unfold hundredth. rewrite <- H2 by reflexivity.
    reflexivity.
  - replace (S n / 100 - n / 100)%nat with 0%nat by lia. reflexivity.
Qed.

Lemma seq_join (a b c : nat) :
  (a <= b)%nat -> (b <= c)%nat ->
  seq (S a) (b - a) ++ seq (S b) (c - b) = seq (S a) (c - a).
Proof.
  intros H1 H2. replace (c - a)%nat with ((b - a) + (c - b))%nat by lia.
  rewrite seq_app. do 2 f_equal. lia.
Qed.

Lemma div_le_S (d n : nat) : (n / d <= S n / d)%nat.
Proof. apply Nat.Div0.div_le_mono. lia. Qed.

Lemma clockodo_loop_output clock rows : forall i st r st',
  Clockodo.rows_loop clock i rows st = (r, st') ->
  (Clockodo.imported_count st <= Clockodo.imported_count st')%nat
  /\ Clockodo.out st'
     = Clockodo.out st
       ++ List.map hundredth
            (seq (S (Clockodo.imported_count st / 100))
                 (Clockodo.imported_count st' / 100
                  - Clockodo.imported_count st / 100)).
Proof.
  induction rows as [|row rest IH]; intros i st r st' H; simpl in H.
  - injection H as <- <-. rewrite Nat.sub_diag, app_nil_r. split; [lia|reflexivity].
  - pose proof (document_of_row_silent (clock i) row) as Hs. unfold silent in Hs.
    destruct (Clockodo.document_of_row (clock i) row) as [[doc|e] w];
      simpl in Hs; subst w.
    + destruct (insert_one (Clockodo.sink st) doc) as [[[]|e] c].
      * apply IH in H as [Hle Ho].
        cbn [Clockodo.imported_count Clockodo.out] in Hle, Ho. split; [lia|].
        rewrite Ho, clockodo_progress_step, app_nil_l.
        rewrite <- app_assoc, <- map_app. do 2 f_equal.
        apply seq_join; [apply div_le_S | apply Nat.Div0.div_le_mono; lia].
      * injection H as <- <-.
        cbn [Clockodo.imported_count Clockodo.out].
        rewrite Nat.sub_diag, !app_nil_r. split; [lia|reflexivity].
    + injection H as <- <-.
      cbn [Clockodo.imported_count Clockodo.out].
      rewrite Nat.sub_diag, !app_nil_r. split; [lia|reflexivity].
Qed.

End ClockodoOutput.

(** X15.  Everything [import_clockodo_data] prints, from the number of
    documents it added: one progress line for each full hundred, in
    order, and then one last line, which reports the number of documents
    when it returns [True] and the exception when it returns [False].
    The rows themselves print nothing. *)
Theorem clockodo_import_output clock (rows : list raw_row) c :
  let r := Clockodo.import_clockodo_data clock rows c in
  let n := (length (docs r.1.2) - length (docs c))%nat in
  exists final,
    r.2 = List.map hundredth (seq 1 (n / 100)) ++ [final]
    /\ if r.1.1
       then final = Print ("Successfully imported " +:+ str_of_nat n
                           +:+ " records")
       else exists e, final = PrintExn "Error importing data: " e.
Proof.
  cbn zeta. unfold Clockodo.import_clockodo_data.
  destruct (Clockodo.rows_loop clock 0 rows (Clockodo.mk_state c 0 []))
    as [[[]|e] st] eqn:E;
    pose proof (clockodo_loop_output _ _ _ _ _ _ E) as [_ Ho];
    apply clockodo_loop_appends in E as (added & Hd & _ & Hn & _);
    cbn [Clockodo.imported_count Clockodo.out Clockodo.sink fst snd] in *;
    rewrite Hd;
    replace (length (docs c ++ added) - length (docs c))%nat
      with (Clockodo.imported_count st) by (rewrite length_app; lia);
    rewrite Ho; change (0 / 100)%nat with 0%nat; rewrite Nat.sub_0_r.
  - eexists. split; reflexivity.
  - eexists. split; [reflexivity | eexists; reflexivity].
Qed.

Lemma clockodo_import_output_witness :
  let row := sheet_row "ACME" "Web" "2025-09" "Dev" "Ann" "7,5" "750,00" in
  (Clockodo.import_clockodo_data (fun _ => epoch) (repeat row 200)
     empty_collection).2
  = [ Print "Imported 100 records..."; Print "Imported 200 records...";
      Print "Successfully imported 200 records" ].
Proof.
  intros row.
  destruct (clockodo_import_output (fun _ => epoch) (repeat row 200)
              empty_collection) as (final & Ho & Hf).
  cbn zeta in Ho, Hf.
  set (r := Clockodo.import_clockodo_data (fun _ => epoch) (repeat row 200)
              empty_collection) in *.
  assert (Hn : (length (docs r.1.2) - length (docs empty_collection) = 200)%nat)
    by (vm_compute; reflexivity).
  assert (Hb : r.1.1 = true) by (vm_compute; reflexivity).
  rewrite Hn in Ho, Hf. rewrite Hb in Hf. rewrite Ho, Hf. reflexivity.
Defined.

Section DealOutput.

Lemma progress_lines_app o1 o2 :
  progress_lines (o1 ++ o2) = progress_lines o1 ++ progress_lines o2.
Proof. apply List.filter_app. Qed.

Lemma bind_no_progress {A B} (k : A -> M B) (m : M A) :
  no_progress m -> (forall a, no_progress (k a)) -> no_progress (bind k m).
Proof.
  unfold no_progress. destruct m as [[a|e] o]; simpl; [|auto].
  intros Hm Hk. specialize (Hk a). destruct (k a) as [r o']. simpl in *.
  rewrite progress_lines_app, Hm, Hk. reflexivity.
Qed.

Lemma parse_number_no_progress v : no_progress (Deals.parse_number v).
Proof.
  unfold Deals.parse_number, no_progress.
  destruct (falsy v || Deals.is_blank v); [reflexivity|].
  destruct v as [s|]; [|reflexivity].
  destruct (float s) as [x|[]]; reflexivity.
Qed.

Lemma parse_date_no_progress v : no_progress (Deals.parse_date v).
Proof.
  unfold Deals.parse_date, no_progress.
  destruct (falsy v || Deals.is_blank v); [reflexivity|].
  destruct v as [s|]; [|reflexivity].
  destruct (if contains " " s then _ else _) as [x|[]]; reflexivity.
Qed.

Lemma cell_no_progress row key :
  no_progress (Deals.text row key) /\ no_progress (Deals.number row key)
  /\ no_progress (Deals.date row key).
Proof.
  unfold Deals.text, Deals.number, Deals.date.
  repeat split; apply bind_no_progress;
    try (intros; apply bind_no_progress);
    try (unfold no_progress, lift; reflexivity); intros;
    first [ apply parse_number_no_progress | apply parse_date_no_progress
          | reflexivity ].
Qed.

Lemma transform_deal_row_no_progress now row :
  no_progress (Deals.transform_deal_row now row).
Proof.
  unfold Deals.transform_deal_row.
  repeat (apply bind_no_progress; [apply cell_no_progress | intros ?]).
  reflexivity.
Qed.

Lemma deal_progress_step n :
  progress_lines (Deals.progress (S n))
  = List.map tenth (seq (S (n / 10)) (S n / 10 - n / 10)).
Proof.
  destruct (multiple_step 10 n) as [H1 H2]; [lia|].
  unfold Deals.progress.
  destruct (S n mod 10 =? 0)%nat.
  - replace (S n / 10 - n / 10)%nat with 1%nat by lia.
    cbn [seq List.map]. unfold tenth. rewrite <- H2 by reflexivity.
    reflexivity.
  - replace (S n / 10 - n / 10)%nat with 0%nat by lia. reflexivity.
Qed.

(** One turn of the loop prints a progress line exactly when it brings
    the counter of imports to a multiple of ten. *)
Lemma process_row_progress now row st :
  let st' := Deals.process_row now row st in
  (Deals.imported_count st <= Deals.imported_count st'
   <= S (Deals.imported_count st))%nat
  /\ progress_lines (Deals.out st')
     = progress_lines (Deals.out st)
       ++ List.map tenth
            (seq (S (Deals.imported_count st / 10))
                 (Deals.imported_count st' / 10
                  - Deals.imported_count st / 10)).
Proof.
  assert (Hsame : forall o : list line,
            o = o ++ List.map tenth
                       (seq (S (Deals.imported_count st / 10))
                            (Deals.imported_count st / 10
                             - Deals.imported_count st / 10)))
    by (intros o; rewrite Nat.sub_diag, app_nil_r; reflexivity).
  intros st'. unfold st', Deals.process_row.
  pose proof (transform_deal_row_no_progress now row) as Hq.
  unfold no_progress in Hq.
  assert (Hins : forall doc c o,
    progress_lines o = progress_lines (Deals.out st) ->
    let s1 := Deals.insert_deal doc
                (Deals.mk_state c (Deals.imported_count st)
                   (Deals.skipped_count st) o) in
    (Deals.imported_count st <= Deals.imported_count s1
     <= S (Deals.imported_count st))%nat
    /\ progress_lines (Deals.out s1)
       = progress_lines (Deals.out st)
         ++ List.map tenth
              (seq (S (Deals.imported_count st / 10))
                   (Deals.imported_count s1 / 10
                    - Deals.imported_count st / 10))).
  { intros doc c o Ho. unfold Deals.insert_deal.
    cbn [Deals.sink Deals.imported_count Deals.skipped_count Deals.out].
    destruct (insert_one c doc) as [[[]|e] c'];
      cbn [Deals.sink Deals.imported_count Deals.skipped_count Deals.out];
      rewrite progress_lines_app, Ho.
    - split; [lia|]. rewrite deal_progress_step. reflexivity.
    - split; [lia|]. cbn [progress_lines List.filter is_progress Deals.row_error].
      rewrite app_nil_r. apply Hsame. }
  destruct (Deals.transform_deal_row now row) as [[doc|e] w]; simpl in Hq.
  - assert (Hw : progress_lines (Deals.out st ++ w) = progress_lines (Deals.out st))
      by (rewrite progress_lines_app, Hq, app_nil_r; reflexivity).
    cbn zeta.
    destruct (Deals.deal_id doc) as [id|];
      cbn [Deals.sink Deals.imported_count Deals.skipped_count Deals.out].
    + destruct (find_one (Deals.sink st) "deal_id" (VStr id)) as [[[d|]|e] c];
        cbn [Deals.sink Deals.imported_count Deals.skipped_count Deals.out].
      * split; [lia|]. rewrite progress_lines_app, Hw.
        change (progress_lines [Print _]) with (@nil line).
        rewrite app_nil_r. apply Hsame.
      * apply Hins. exact Hw.
      * split; [lia|]. rewrite progress_lines_app, Hw.
        change (progress_lines [Deals.row_error e]) with (@nil line).
        rewrite app_nil_r. apply Hsame.
    + apply Hins. exact Hw.
  - cbn [Deals.sink Deals.imported_count Deals.skipped_count Deals.out].
    split; [lia|]. rewrite !progress_lines_app, Hq.
    change (progress_lines [Deals.row_error e]) with (@nil line).
    rewrite !app_nil_r. apply Hsame.
Qed.

End DealOutput.

(** X16.  The loop of the deal importer prints a line [Imported n
    deals...] each time the counter of imports reaches a multiple of ten
    and at no other time: the lines of its output that begin with
    [Imported ] are those of the multiples of ten between the counter
    before and the counter after, in order.  Warnings, skipped rows and
    failed rows add none, and the counter never goes down. *)
Theorem deal_loop_progress_lines clock (rows : list raw_row) i st :
  let st' := Deals.rows_loop clock i rows st in
  (Deals.imported_count st <= Deals.imported_count st')%nat
  /\ progress_lines (Deals.out st')
     = progress_lines (Deals.out st)
       ++ List.map tenth
            (seq (S (Deals.imported_count st / 10))
                 (Deals.imported_count st' / 10
                  - Deals.imported_count st / 10)).
Proof.
  revert i st. induction rows as [|row rest IH]; intros i st; cbn zeta;
    cbn [Deals.rows_loop].
  - rewrite Nat.sub_diag, app_nil_r. split; [lia|reflexivity].
  - destruct (IH (S i) (Deals.process_row (clock i) row st)) as [Hle Ho].
    destruct (process_row_progress (clock i) row st) as [Hle1 Ho1].
    split; [lia|]. rewrite Ho, Ho1, <- app_assoc, <- map_app. do 2 f_equal.
    apply seq_join; apply Nat.Div0.div_le_mono; lia.
Qed.

(* ===================================================================== *)
(** * The summary of the deal importer *)
(* ===================================================================== *)

Section DealSummary.
Import Os.

(** The collection grows by as many documents as the counter of imports
    grows. *)
Lemma deal_loop_size clock rows : forall i st,
  let st' := Deals.rows_loop clock i rows st in
  (length (docs (Deals.sink st')) + Deals.imported_count st
   = length (docs (Deals.sink st)) + Deals.imported_count st')%nat.
Proof.
  induction rows as [|row rows IH]; intros i st; cbn zeta;
    cbn [Deals.rows_loop]; [lia|].
  specialize (IH (S i) (Deals.process_row (clock i) row st)). cbn zeta in IH.
  destruct (process_row_step (clock i) row st)
    as (_ & [(doc & w & _ & H1 & H2 & _) | [(H1 & H2 & _) | (H1 & H2 & _)]]);
    rewrite H1, H2 in IH; try rewrite length_app in IH; simpl in IH; lia.
Qed.

End DealSummary.


